(** * AI_Trading: position risk control loop and safe order execution

    A shallow embedding of [src/risk_manager.py] (class [RiskManager]) and
    [src/execution/alpaca_trader.py] (class [AlpacaTrader]), and the
    properties of the stop-loss evaluation, the reconciliation of the risk
    state store and the order safety checks.

    Python [float] is IEEE binary64.  The control logic is written once over
    an interface [PyFloat] of the float operations the two classes use.  The
    program's arithmetic is the instance [binary64], Rocq's primitive
    binary64 floats, which evaluates the scenarios bit for bit as CPython
    does.  The statements about the program hold for every instance, or for
    every instance whose comparisons obey the laws [FloatOrder], which
    [binary64] is shown to obey, NaN included.  [Q_float], exact rational
    arithmetic, is an idealisation without rounding, NaN or overflow; it
    is kept for the price cross-check and the cap of a SELL, which only
    compare, truncate and return their inputs, and to run scenarios a
    second time. *)

From Stdlib Require Import ZArith QArith Qabs Qround Qminmax Lqa Floats Ascii String.
From stdpp Require Import base option list gmap strings.

Local Open Scope Z_scope.

(** ** Python exceptions *)

Inductive pyexn :=
  | ValueError | TypeError | AttributeError | KeyError | ZeroDivisionError
  | OverflowError | GatewayError.

(** A computation that returns or raises. *)
Definition result (A : Type) : Type := pyexn + A.
Definition ok {A} (a : A) : result A := inr a.
Definition raise {A} (e : pyexn) : result A := inl e.
Definition bind {A B} (m : result A) (k : A -> result B) : result B :=
  match m with inl e => inl e | inr a => k a end.
Notation "'let*' x := m 'in' k" := (bind m (fun x => k))
  (at level 10, x name, m at level 100, k at level 200).
Notation "'let*' ' p := m 'in' k" := (bind m (fun p => k))
  (at level 10, p pattern, m at level 100, k at level 200).

(** ** The float interface *)

Class PyFloat := {
  num : Type;
  of_Z : Z -> num;                (* the float of a literal: 0, 1, 0.05 = 5/100 *)
  of_int : Z -> option num;       (* the conversion of the int in int * float: *)
                                  (* None when the int is too large (OverflowError) *)
  fadd : num -> num -> num;
  fsub : num -> num -> num;
  fmul : num -> num -> num;
  fdiv : num -> num -> num;
  fabs : num -> num;              (* abs(x) *)
  fltb : num -> num -> bool;      (* x < y *)
  fleb : num -> num -> bool;      (* x <= y *)
  feqb : num -> num -> bool;      (* x == y *)
  is_nan : num -> bool;           (* x != x *)
  trunc : num -> option Z         (* int(x): toward zero; None when it raises, *)
                                  (* on NaN (ValueError) and on an infinity (OverflowError) *)
}.

Declare Scope num_scope.
Delimit Scope num_scope with num.
Bind Scope num_scope with num.
Infix "+" := fadd : num_scope.
Infix "-" := fsub : num_scope.
Infix "*" := fmul : num_scope.
Infix "/" := fdiv : num_scope.
Infix "<?" := fltb : num_scope.
Infix "<=?" := fleb : num_scope.
Infix "=?" := feqb : num_scope.
Notation "x >? y" := (fltb y x) (only parsing) : num_scope.
Notation "x >=? y" := (fleb y x) (only parsing) : num_scope.

(** A decimal literal [n/d] such as [0.02]: binary64 division of two exactly
    representable integers is correctly rounded, so at [binary64] this is the
    double CPython reads the literal as. *)
Definition lit `{PyFloat} (n d : Z) : num := (of_Z n / of_Z d)%num.

(** Python's [max(a, b)] and [min(a, b)] keep the first argument unless the
    second is strictly better. *)
Definition py_max `{PyFloat} (a b : num) : num := if (b >? a)%num then b else a.
Definition py_min `{PyFloat} (a b : num) : num := if (b <? a)%num then b else a.

(** Truthiness of a float: [if x:] holds unless [x == 0]. *)
Definition truthy `{PyFloat} (x : num) : bool := negb (x =? of_Z 0)%num.

(** Exact rationals: no rounding, no NaN, no infinity, no overflow. *)
Definition Qtrunc (q : Q) : Z := Z.quot (Qnum q) (Zpos (Qden q)).

#[export] Instance Q_float : PyFloat := {|
  num := Q;
  of_Z := inject_Z;
  of_int := fun z => Some (inject_Z z);
  fadd := Qplus;
  fsub := Qminus;
  fmul := Qmult;
  fdiv := Qdiv;
  fabs := Qabs;
  fltb := fun x y => negb (Qle_bool y x);
  fleb := Qle_bool;
  feqb := Qeq_bool;
  is_nan := fun _ => false;
  trunc := fun x => Some (Qtrunc x)
|}.

(** IEEE binary64.  [float_of_Z] rounds to nearest, ties to even, as CPython
    converts an int; the conversion raises where the rounded value would
    be an infinity. *)
Definition float_of_Z (z : Z) : float :=
  SF2Prim (binary_normalize prec emax z 0 false).

Definition float_of_int (z : Z) : option float :=
  match binary_normalize prec emax z 0 false with
  | S754_infinity _ => None
  | x => Some (SF2Prim x)
  end.

(** [int(x)] raises on NaN and on the infinities. *)
Definition float_trunc (x : float) : option Z :=
  match Prim2SF x with
  | S754_zero _ => Some 0
  | S754_finite s m e =>
      Some (cond_Zopp s (if 0 <=? e then Zpos m * 2 ^ e else Zpos m / 2 ^ (- e)))
  | S754_infinity _ | S754_nan => None
  end.

Definition float_is_nan (x : float) : bool :=
  match Prim2SF x with S754_nan => true | _ => false end.

Definition binary64 : PyFloat := {|
  num := float;
  of_Z := float_of_Z;
  of_int := float_of_int;
  fadd := PrimFloat.add;
  fsub := PrimFloat.sub;
  fmul := PrimFloat.mul;
  fdiv := PrimFloat.div;
  fabs := PrimFloat.abs;
  fltb := PrimFloat.ltb;
  fleb := PrimFloat.leb;
  feqb := PrimFloat.eqb;
  is_nan := float_is_nan;
  trunc := float_trunc
|}.

(** The laws of [<], [<=] and [==] the properties rely on.  They hold of
    IEEE comparisons, where every comparison with a NaN is false: [<] is a
    strict partial order, [<=] is [<] or [==], and [==] is a partial
    equivalence compatible with [<].  Nothing is asked of the arithmetic. *)
Class FloatOrder (N : PyFloat) : Prop := {
  fltb_irrefl (x : num) : (x <? x)%num = false;
  fltb_trans (x y z : num) :
    (x <? y)%num = true -> (y <? z)%num = true -> (x <? z)%num = true;
  fleb_fltb_feqb (x y : num) : (x <=? y)%num = ((x <? y)%num || (x =? y)%num)%bool;
  feqb_sym (x y : num) : (x =? y)%num = (y =? x)%num;
  feqb_trans (x y z : num) :
    (x =? y)%num = true -> (y =? z)%num = true -> (x =? z)%num = true;
  fltb_feqb_trans (x y z : num) :
    (x <? y)%num = true -> (y =? z)%num = true -> (x <? z)%num = true;
  feqb_fltb_trans (x y z : num) :
    (x =? y)%num = true -> (y <? z)%num = true -> (x <? z)%num = true;
  fltb_feqb_refl (x y : num) :
    (x <? y)%num = true -> (x =? x)%num = true /\ (y =? y)%num = true
}.

(** The place of a float that is not a NaN in the order of the floats:
    the infinities at the ends, the two zeros together, and a finite float
    by its sign, then its exponent, then its mantissa. *)
Definition SFrank (x : spec_float) : option (Z * Z * Z) :=
  match x with
  | S754_nan => None
  | S754_zero _ => Some (0, 0, 0)
  | S754_infinity s => Some (if s then -2 else 2, 0, 0)
  | S754_finite s m e => Some (if s then (-1, - e, Zneg m) else (1, e, Zpos m))
  end.

Definition lex3 (a b : Z * Z * Z) : comparison :=
  let '(a1, a2, a3) := a in
  let '(b1, b2, b3) := b in
  match a1 ?= b1 with
  | Eq => match a2 ?= b2 with Eq => a3 ?= b3 | c => c end
  | c => c
  end.

(** ** Strings *)

(** [str.upper()], on ASCII letters. *)
Definition upper_ascii (c : ascii) : ascii :=
  let n := nat_of_ascii c in
  if ((97 <=? n) && (n <=? 122))%nat then ascii_of_nat (n - 32) else c.

Fixpoint upper (s : string) : string :=
  match s with
  | EmptyString => EmptyString
  | String c s' => String (upper_ascii c) (upper s')
  end.

(** [int(s)] for a string [s], base 10: surrounding whitespace is dropped,
    one sign is allowed, and the digits may be grouped by single
    underscores.  [None] stands for [ValueError]. *)
Definition is_space (c : ascii) : bool :=
  let n := nat_of_ascii c in
  ((n =? 32) || ((9 <=? n) && (n <=? 13)))%nat.

Definition digit_of (c : ascii) : option Z :=
  let n := nat_of_ascii c in
  if ((48 <=? n) && (n <=? 57))%nat then Some (Z.of_nat (n - 48)) else None.

Fixpoint lstrip (l : list ascii) : list ascii :=
  match l with
  | c :: l' => if is_space c then lstrip l' else l
  | [] => []
  end.

Definition strip (l : list ascii) : list ascii :=
  rev (lstrip (rev (lstrip l))).

Fixpoint parse_digits (acc : Z) (after_digit : bool) (l : list ascii) : option Z :=
  match l with
  | [] => if after_digit then Some acc else None
  | c :: l' =>
      match digit_of c with
      | Some d => parse_digits (acc * 10 + d) true l'
      | None =>
          if (Ascii.eqb c "_" && after_digit)%bool then parse_digits acc false l'
          else None
      end
  end.

Definition int_of_string (s : string) : option Z :=
  match strip (list_ascii_of_string s) with
  | c :: l =>
      if Ascii.eqb c "-" then Z.opp <$> parse_digits 0 false l
      else if Ascii.eqb c "+" then parse_digits 0 false l
      else parse_digits 0 false (c :: l)
  | [] => None
  end.

Section Model.
Context `{PyFloat}.

(** The JSON values a decision field can hold. *)
Inductive pyval :=
  | VNone
  | VInt (z : Z)
  | VFloat (x : num)
  | VStr (s : string).

(** [int(x)] for a float [x]. *)
Definition int_of_float (x : num) : result Z :=
  match trunc x with
  | Some z => ok z
  | None => raise (if is_nan x then ValueError else OverflowError)
  end.

(** [int(v)] *)
Definition py_int (v : pyval) : result Z :=
  match v with
  | VInt z => ok z
  | VFloat x => int_of_float x
  | VStr s => match int_of_string s with Some z => ok z | None => raise ValueError end
  | VNone => raise TypeError
  end.

(** [v.upper()]: only [str] has the method. *)
Definition py_upper (v : pyval) : result string :=
  match v with
  | VStr s => ok (upper s)
  | _ => raise AttributeError
  end.

(** [x / y] on floats raises on a zero divisor. *)
Definition py_div (x y : num) : result num :=
  if (y =? of_Z 0)%num then raise ZeroDivisionError else ok (x / y)%num.

(** ** The brokerage gateway ([alpaca] trading and data clients) *)

Inductive PositionSide := PosLong | PosShort.   (* pos.side.value *)
Inductive OrderSide := BUY | SELL.
Inductive TimeInForce := GTC | DAY.

(** A position as the gateway reports it; the numeric fields are the parsed
    [float(...)] of the strings it sends.  [qty] is signed: negative for a
    short position. *)
Record Position := {
  symbol : string;
  qty : num;
  side : PositionSide;
  avg_entry_price : num;
  current_price : num
}.

Record Account := { account_cash : num; account_equity : num }.

Record MarketOrderRequest := {
  order_symbol : string;
  order_qty : pyval;
  order_side : OrderSide;
  time_in_force : TimeInForce
}.

(** One answer of the gateway to each call; [None] and [false] stand for a
    raised exception.  Building a [MarketOrderRequest] happens inside the
    same [try] as [submit_order] at both call sites, so a request that is
    refused on construction is a [false] here too. *)
Record Gateway := {
  get_all_positions : option (list Position);
  get_account : option Account;
  submit_order : MarketOrderRequest -> bool;
  get_stock_latest_quote : string -> option num;   (* ask_price *)
  get_stock_latest_trade : string -> option num    (* price *)
}.

(** ** risk_manager.py *)

Inductive Side := LONG | SHORT.

(** An entry of [risk_data]; [record_side] is the JSON key ["side"]. *)
Record RiskRecord := { extreme_price : num; record_side : Side }.

(** The two reasons of a close: trailing stop, hard stop. *)
Inductive TriggerKind := TRAIL | HARD.

Record RiskManager := {
  trailing_pct : num;
  initial_stop_loss_pct : num;
  risk_data : gmap string RiskRecord
}.

Inductive LogEvent :=
  | LogStart
  | LogReadError
  | LogNoPositions
  | LogNewHigh (s : string) (price : num)
  | LogNewLow (s : string) (price : num)
  | LogStatus (s : string) (is_long : bool) (current extreme final : num)
  | LogClose (s : string) (reason : TriggerKind) (price : num)
  | LogOrderSubmitted (o : MarketOrderRequest)
  | LogOrderFailed (o : MarketOrderRequest)
  | LogSaveError.

(** [_save_data]: the new content of the data file and what is logged.  A
    failed write is logged and swallowed; the file is taken to keep its
    previous content. *)
Definition _save_data (self : RiskManager) (disk_ok : bool)
    (data_file : gmap string RiskRecord) : gmap string RiskRecord * list LogEvent :=
  if disk_ok then (risk_data self, []) else (data_file, [LogSaveError]).

(** [execute_close] *)
Definition execute_close (client : Gateway) (symbol : string) (qty : num)
    (side : OrderSide) (reason : TriggerKind) (price : num) : list LogEvent :=
  let order_data :=
    {| order_symbol := symbol; order_qty := VFloat qty;
       order_side := side; time_in_force := GTC |} in
  LogClose symbol reason price ::
  (if submit_order client order_data
   then [LogOrderSubmitted order_data]
   else [LogOrderFailed order_data]).

(** Lines 106-127 of [monitor_and_execute], the levels computed from the
    extreme price in force after the update of lines 107-109 / 118-120. *)
Record StopLevel := {
  hard_stop : num;
  trail_stop : num;
  final_stop : num;
  triggered : bool;
  sell_side : OrderSide
}.

Definition stop_level (self : RiskManager) (is_long : bool)
    (avg_entry_price extreme_price current_price : num) : StopLevel :=
  if is_long then
    let hard_stop := (avg_entry_price * (of_Z 1 - initial_stop_loss_pct self))%num in
    let trail_stop := (extreme_price * (of_Z 1 - trailing_pct self))%num in
    let final_stop := py_max hard_stop trail_stop in
    {| hard_stop := hard_stop; trail_stop := trail_stop; final_stop := final_stop;
       triggered := (current_price <=? final_stop)%num; sell_side := SELL |}
  else
    let hard_stop := (avg_entry_price * (of_Z 1 + initial_stop_loss_pct self))%num in
    let trail_stop := (extreme_price * (of_Z 1 + trailing_pct self))%num in
    let final_stop := py_min hard_stop trail_stop in
    {| hard_stop := hard_stop; trail_stop := trail_stop; final_stop := final_stop;
       triggered := (current_price >=? final_stop)%num; sell_side := BUY |}.

(** Line 132. *)
Definition close_reason (lv : StopLevel) : TriggerKind :=
  if (final_stop lv =? trail_stop lv)%num then TRAIL else HARD.

(** Lines 107-109 / 118-120: whether the current price replaces the stored
    extreme. *)
Definition improves (is_long : bool) (current_price extreme_price : num) : bool :=
  if is_long then (current_price >? extreme_price)%num
  else (current_price <? extreme_price)%num.

Definition set_extreme (price : num) (r : RiskRecord) : RiskRecord :=
  {| extreme_price := price; record_side := record_side r |}.

(** Line 95. *)
Definition is_long (position : Position) : bool := (qty position >? of_Z 0)%num.

(** The body of the loop over [positions] (lines 90-134).  [None] is an
    exception that escapes the pass: a [KeyError] of a dictionary access. *)
Definition process_position (self : RiskManager) (client : Gateway)
    (rd : gmap string RiskRecord) (position : Position)
    : option (gmap string RiskRecord * list LogEvent) :=
  let symbol := symbol position in
  let qty' := fabs (qty position) in
  let avg_entry_price := avg_entry_price position in
  let current_price := current_price position in
  let is_long := is_long position in
  let rd :=
    match rd !! symbol with
    | None =>
        <[symbol := {| extreme_price := current_price;
                       record_side := if is_long then LONG else SHORT |}]> rd
    | Some _ => rd
    end in
  r ← rd !! symbol;
  let extreme_price := extreme_price r in
  let '(rd, extreme_price, log1) :=
    if improves is_long current_price extreme_price
    then (alter (set_extreme current_price) symbol rd, current_price,
          [if is_long then LogNewHigh symbol current_price
           else LogNewLow symbol current_price])
    else (rd, extreme_price, []) in
  let lv := stop_level self is_long avg_entry_price extreme_price current_price in
  let log2 := [LogStatus symbol is_long current_price extreme_price (final_stop lv)] in
  if triggered lv then
    let log3 := execute_close client symbol qty' (sell_side lv) (close_reason lv)
                  current_price in
    _ ← rd !! symbol;
    Some (delete symbol rd, log1 ++ log2 ++ log3)
  else Some (rd, log1 ++ log2).

(** The [for position in positions] loop. *)
Fixpoint process_positions (self : RiskManager) (client : Gateway)
    (rd : gmap string RiskRecord) (positions : list Position)
    : option (gmap string RiskRecord * list LogEvent) :=
  match positions with
  | [] => Some (rd, [])
  | position :: rest =>
      '(rd1, log1) ← process_position self client rd position;
      '(rd2, log2) ← process_positions self client rd1 rest;
      Some (rd2, log1 ++ log2)
  end.

Definition with_risk_data (self : RiskManager) (rd : gmap string RiskRecord) : RiskManager :=
  {| trailing_pct := trailing_pct self;
     initial_stop_loss_pct := initial_stop_loss_pct self;
     risk_data := rd |}.

(** The outcome of a pass: the manager, the content of the data file, the
    log. *)
Record PassResult := {
  manager : RiskManager;
  data_file : gmap string RiskRecord;
  log : list LogEvent
}.

(** [monitor_and_execute].  [current_symbols] collects the symbol of every
    position as the loop goes and is read after the loop only, so it is
    [symbol <$> positions] there.  [None]: an exception escaped. *)
Definition monitor_and_execute (self : RiskManager) (client : Gateway)
    (disk_ok : bool) (disk : gmap string RiskRecord) : option PassResult :=
  match get_all_positions client with
  | None => Some {| manager := self; data_file := disk; log := [LogStart; LogReadError] |}
  | Some [] =>
      let self := with_risk_data self ∅ in
      let '(disk, log1) := _save_data self disk_ok disk in
      Some {| manager := self; data_file := disk;
              log := [LogStart; LogNoPositions] ++ log1 |}
  | Some positions =>
      '(rd, log1) ← process_positions self client (risk_data self) positions;
      let current_symbols := symbol <$> positions in
      let self := with_risk_data self
                    (filter (λ sd, sd.1 ∈ current_symbols) rd) in
      let '(disk, log2) := _save_data self disk_ok disk in
      Some {| manager := self; data_file := disk;
              log := [LogStart] ++ log1 ++ log2 |}
  end.

(** A sequence of passes, each against the gateway and the disk of its
    time. *)
Fixpoint run_passes (self : RiskManager) (disk : gmap string RiskRecord)
    (ticks : list (Gateway * bool)) : option PassResult :=
  match ticks with
  | [] => Some {| manager := self; data_file := disk; log := [] |}
  | (client, disk_ok) :: rest =>
      r1 ← monitor_and_execute self client disk_ok disk;
      r2 ← run_passes (manager r1) (data_file r1) rest;
      Some {| manager := manager r2; data_file := data_file r2;
              log := log r1 ++ log r2 |}
  end.

(** ** execution/alpaca_trader.py *)

Record AlpacaTrader := { buffer_pct : num }.

(** An entry of [formatted_positions]: the keys ["long"] and ["short"]. *)
Record Holding := { long : num; short : num }.

Record Portfolio := {
  cash : num;
  positions : gmap string Holding;
  equity : num
}.

(** [get_live_portfolio].  Either gateway call can raise, and nothing here
    catches it. *)
Definition get_live_portfolio (client : Gateway) : result Portfolio :=
  match get_account client with
  | None => raise GatewayError
  | Some account =>
      match get_all_positions client with
      | None => raise GatewayError
      | Some positions =>
          let formatted_positions :=
            foldl (λ m pos,
                     <[symbol pos :=
                         {| long := match side pos with
                                    | PosLong => qty pos | PosShort => of_Z 0 end;
                            short := match side pos with
                                     | PosShort => qty pos | PosLong => of_Z 0 end |}]> m)
                  ∅ positions in
          ok {| cash := account_cash account;
                positions := formatted_positions;
                equity := account_equity account |}
      end
  end.

(** [get_realtime_price]: the whole body is inside one [try], and any
    exception gives [0.0]. *)
Definition get_realtime_price (client : Gateway) (ticker : string) : num :=
  match get_stock_latest_quote client ticker with
  | None => of_Z 0
  | Some ask =>
      match get_stock_latest_trade client ticker with
      | None => of_Z 0
      | Some last_price =>
          let fallback :=
            if (ask >? of_Z 0)%num then ask
            else if (last_price >? of_Z 0)%num then last_price
            else of_Z 0 in
          if ((ask >? of_Z 0) && (last_price >? of_Z 0))%num then
            match py_div (fabs (ask - last_price)) last_price with
            | inl _ => of_Z 0
            | inr diff_pct =>
                if (diff_pct >? lit 2 100)%num then last_price else fallback
            end
          else fallback
      end
  end.

Record Decision := {
  action : option pyval;      (* None: the key is absent *)
  quantity : option pyval
}.

Inductive SkipReason :=
  | ExistingShort (short_qty : num)   (* BUY while a short position is held *)
  | ExistingLong (long_qty : num)     (* SHORT while a long position is held *)
  | NoLongPosition                    (* SELL with nothing to sell *)
  | NoShortPosition.                  (* COVER with nothing to cover *)

(** What [execute_decisions] prints for an item. *)
Inductive ExecEvent :=
  | PrintHold (ticker : string)
  | PrintAdjusted (ticker : string) (quantity max_qty : Z)
  | PrintRejected (ticker action : string) (reason : SkipReason)
  | PrintOrder (ticker : string) (quantity : Z) (side : OrderSide)
  | PrintSuccess (o : MarketOrderRequest) (action : string)
  | PrintFailure (o : MarketOrderRequest) (action : string).

(** [quantity * x] for an int [quantity] and a float [x]: the int is
    converted to a float first, which raises when it is too large. *)
Definition int_mul_float (quantity : Z) (x : num) : result num :=
  match of_int quantity with
  | Some q => ok (q * x)%num
  | None => raise OverflowError
  end.

(** Lines 98-143: the [if action == ...] chain, giving [side],
    [skip_reason], the quantity and what was printed. *)
Definition safety_check (self : AlpacaTrader) (client : Gateway) (cash : num)
    (long_qty short_qty : num) (ticker action : string) (quantity : Z)
    : result (option OrderSide * option SkipReason * Z * list ExecEvent) :=
  if (action =? "BUY")%string then
    let rt_price := get_realtime_price client ticker in
    let* '(quantity, log1) :=
      if truthy rt_price then
        let* ratio := py_div (cash * (of_Z 1 - buffer_pct self))%num rt_price in
        let* max_qty := int_of_float ratio in
        if (quantity >? max_qty)%Z
        then ok (max_qty, [PrintAdjusted ticker quantity max_qty])
        else ok (quantity, [])
      else ok (quantity, []) in
    if (short_qty >? of_Z 0)%num then
      ok (None, Some (ExistingShort short_qty), quantity, log1)
    else
      let* scaled := int_mul_float quantity (of_Z 1 - buffer_pct self)%num in
      let* quantity := int_of_float scaled in
      ok (Some BUY, None, quantity, log1)
  else if (action =? "SHORT")%string then
    if (long_qty >? of_Z 0)%num then
      ok (None, Some (ExistingLong long_qty), quantity, [])
    else ok (Some SELL, None, quantity, [])
  else if (action =? "SELL")%string then
    if (long_qty <=? of_Z 0)%num then
      ok (None, Some NoLongPosition, quantity, [])
    else
      let* held := int_of_float long_qty in
      ok (Some SELL, None, Z.min quantity held, [])
  else if (action =? "COVER")%string then
    if (short_qty <=? of_Z 0)%num then
      ok (None, Some NoShortPosition, quantity, [])
    else
      let* held := int_of_float short_qty in
      let quantity := Z.min quantity held in
      let* scaled := int_mul_float quantity (of_Z 1 - buffer_pct self)%num in
      let* quantity := int_of_float scaled in
      ok (Some BUY, None, quantity, [])
  else ok (None, None, quantity, []).

(** The body of the loop over [decisions.items()] (lines 86-163). *)
Definition execute_decision (self : AlpacaTrader) (client : Gateway)
    (current_portfolio : Portfolio) (ticker : string) (decision : Decision)
    : result (list ExecEvent) :=
  let* action := py_upper (default (VStr "") (action decision)) in
  let* quantity := py_int (default (VInt 0) (quantity decision)) in
  if ((quantity <=? 0)%Z || (action =? "HOLD")%string)%bool then ok [PrintHold ticker]
  else
    let long_qty :=
      match positions current_portfolio !! ticker with
      | Some h => long h | None => of_Z 0 end in
    let short_qty :=
      match positions current_portfolio !! ticker with
      | Some h => short h | None => of_Z 0 end in
    let* '(side, skip_reason, quantity, log1) :=
      safety_check self client (cash current_portfolio) long_qty short_qty
        ticker action quantity in
    match skip_reason with
    | Some reason => ok (log1 ++ [PrintRejected ticker action reason])
    | None =>
        match side with
        | Some side =>
            let order_data :=
              {| order_symbol := ticker; order_qty := VInt quantity;
                 order_side := side; time_in_force := DAY |} in
            ok (log1 ++ [PrintOrder ticker quantity side;
                         if submit_order client order_data
                         then PrintSuccess order_data action
                         else PrintFailure order_data action])
        | None => ok log1
        end
    end.

(** What a call of [execute_decisions] did: what it printed, in order, and
    the exception that ended it, if one did. *)
Record ExecResult := { events : list ExecEvent; raised : option pyexn }.

(** The [for ticker, decision in decisions.items()] loop. *)
Fixpoint execute_items (self : AlpacaTrader) (client : Gateway)
    (current_portfolio : Portfolio) (decisions : list (string * Decision))
    : ExecResult :=
  match decisions with
  | [] => {| events := []; raised := None |}
  | (ticker, decision) :: rest =>
      match execute_decision self client current_portfolio ticker decision with
      | inl e => {| events := []; raised := Some e |}
      | inr evs =>
          let r := execute_items self client current_portfolio rest in
          {| events := evs ++ events r; raised := raised r |}
      end
  end.

(** [execute_decisions]: one portfolio snapshot, then the loop. *)
Definition execute_decisions (self : AlpacaTrader) (client : Gateway)
    (decisions : list (string * Decision)) : ExecResult :=
  match get_live_portfolio client with
  | inl e => {| events := []; raised := Some e |}
  | inr current_portfolio => execute_items self client current_portfolio decisions
  end.

(** What the portfolio snapshot holds under ["short"] for [ticker]. *)
Definition reported_short (client : Gateway) (ticker : string) : option num :=
  match get_live_portfolio client with
  | inr current_portfolio => short <$> positions current_portfolio !! ticker
  | inl _ => None
  end.

(** The orders a call handed to [submit_order]. *)
Definition submitted (evs : list ExecEvent) : list MarketOrderRequest :=
  omap (λ ev, match ev with
              | PrintSuccess o _ | PrintFailure o _ => Some o
              | _ => None
              end) evs.

(** ** What a pass is observed to do *)

(** The extreme price in force when the stops of [position] are computed:
    the stored one, or the current price where there is no record or where
    the current price improves on it. *)
Definition tracked_extreme (rd : gmap string RiskRecord) (position : Position) : num :=
  let stored :=
    match rd !! symbol position with
    | Some r => extreme_price r
    | None => current_price position
    end in
  if improves (is_long position) (current_price position) stored
  then current_price position else stored.

(** The record of [position] after lines 98-120. *)
Definition tracked_record (rd : gmap string RiskRecord) (position : Position) : RiskRecord :=
  {| extreme_price := tracked_extreme rd position;
     record_side :=
       match rd !! symbol position with
       | Some r => record_side r
       | None => if is_long position then LONG else SHORT
       end |}.

(** The stop levels a pass computes for [position] against the store [rd]. *)
Definition evaluation (self : RiskManager) (rd : gmap string RiskRecord)
    (position : Position) : StopLevel :=
  stop_level self (is_long position) (avg_entry_price position)
    (tracked_extreme rd position) (current_price position).

(** The closing order of [position]. *)
Definition closing_order (position : Position) : MarketOrderRequest :=
  {| order_symbol := symbol position;
     order_qty := VFloat (fabs (qty position));
     order_side := if is_long position then SELL else BUY;
     time_in_force := GTC |}.

(** The orders a pass handed to [submit_order], in order. *)
Definition close_orders (l : list LogEvent) : list MarketOrderRequest :=
  omap (λ ev, match ev with
              | LogOrderSubmitted o | LogOrderFailed o => Some o
              | _ => None
              end) l.

(** The symbols whose stops a pass evaluated (line 129), in order. *)
Definition evaluated (l : list LogEvent) : list string :=
  omap (λ ev, match ev with LogStatus s _ _ _ _ => Some s | _ => None end) l.

(** A log with the outcome of each submission forgotten. *)
Definition attempts (l : list LogEvent) : list LogEvent :=
  (λ ev, match ev with LogOrderFailed o => LogOrderSubmitted o | _ => ev end) <$> l.

(** The record of [s] after a run, if the run completed and left one. *)
Definition record_after (s : string) (r : option PassResult) : option RiskRecord :=
  r ≫= λ r, risk_data (manager r) !! s.

Definition extreme_after (s : string) (r : option PassResult) : option num :=
  extreme_price <$> record_after s r.

Definition side_after (s : string) (r : option PassResult) : option Side :=
  record_side <$> record_after s r.

(** Over the passes [ticks], the gateway reports one position per symbol,
    the position of [s] is on the side [long] whenever it is reported, and
    the record of [s] survives each pass. *)
Fixpoint held (long : bool) (s : string) (self : RiskManager)
    (disk : gmap string RiskRecord) (ticks : list (Gateway * bool)) : Prop :=
  match ticks with
  | [] => True
  | (client, disk_ok) :: rest =>
      (∀ positions, get_all_positions client = Some positions →
         NoDup (symbol <$> positions)
         ∧ ∀ p, p ∈ positions → symbol p = s → is_long p = long)
      ∧ match monitor_and_execute self client disk_ok disk with
        | Some r =>
            is_Some (risk_data (manager r) !! s)
            ∧ held long s (manager r) (data_file r) rest
        | None => False
        end
  end.

(** ** Default configuration and the inputs of the scenarios *)

(** [RiskManager.__init__]: [trailing_pct=0.05], [initial_stop_loss_pct=0.08]. *)
Definition default_manager (rd : gmap string RiskRecord) : RiskManager :=
  {| trailing_pct := lit 5 100; initial_stop_loss_pct := lit 8 100; risk_data := rd |}.

(** [AlpacaTrader.__init__]: [buffer_pct=0.05]. *)
Definition default_trader : AlpacaTrader := {| buffer_pct := lit 5 100 |}.

(** A gateway that reports [positions] and [cash], quotes every ticker at
    [ask] with last trade [last], and answers every submission with
    [accepts]. *)
Definition gateway_of (positions : list Position) (cash ask last : num)
    (accepts : bool) : Gateway :=
  {| get_all_positions := Some positions;
     get_account := Some {| account_cash := cash; account_equity := cash |};
     submit_order := λ _, accepts;
     get_stock_latest_quote := λ _, Some ask;
     get_stock_latest_trade := λ _, Some last |}.

Definition position_of (s : string) (q entry current : Z) : Position :=
  {| symbol := s; qty := of_Z q;
     side := if (0 <=? q)%Z then PosLong else PosShort;
     avg_entry_price := of_Z entry; current_price := of_Z current |}.

Definition record_of (extreme : Z) (sd : Side) : RiskRecord :=
  {| extreme_price := of_Z extreme; record_side := sd |}.

Definition decision_of (a : string) (q : pyval) : Decision :=
  {| action := Some (VStr a); quantity := Some q |}.

(** Two passes over a long position in AAPL: the price is read at 105, then
    at 103. *)
Definition rising_then_falling : list (Gateway * bool) :=
  [(gateway_of [position_of "AAPL" 10 100 105] (of_Z 0) (of_Z 0) (of_Z 0) true, true);
   (gateway_of [position_of "AAPL" 10 100 103] (of_Z 0) (of_Z 0) (of_Z 0) true, true)].

End Model.

(** The sizing of a BUY, in the spec's words: the requested quantity is
    reduced to the bound [cash*(1-buffer)/live_price], made an integer, when
    it exceeds that bound, and is then scaled to [quantity*(1-buffer)], made
    an integer.  The arithmetic is that of the floats, and a float is made
    an integer by [int], which truncates toward zero: the floor the spec
    names, for a value that is not negative. *)
Definition scaled_quantity `{PyFloat} (buffer : num) (quantity : Z) : result Z :=
  let* scaled := int_mul_float quantity (of_Z 1 - buffer)%num in
  int_of_float scaled.

Definition spec_buy_quantity `{PyFloat} (cash buffer live_price : num) (requested : Z)
    : result Z :=
  let* bound := int_of_float (cash * (of_Z 1 - buffer) / live_price)%num in
  scaled_quantity buffer (if requested >? bound then bound else requested).

(** * More of the two classes and of their caller *)

Section MoreModel.
Context `{PyFloat}.

(** What [execute_decisions] printed, with the outcome of each submission
    forgotten. *)
Definition exec_attempts (evs : list ExecEvent) : list ExecEvent :=
  (λ ev, match ev with PrintFailure o a => PrintSuccess o a | _ => ev end) <$> evs.

(** Two gateways that answer every read alike and may differ in what
    [submit_order] does. *)
Definition same_reads (client client' : Gateway) : Prop :=
  get_all_positions client = get_all_positions client'
  ∧ get_account client = get_account client'
  ∧ (∀ t, get_stock_latest_quote client t = get_stock_latest_quote client' t)
  ∧ (∀ t, get_stock_latest_trade client t = get_stock_latest_trade client' t).

(** The entry [get_live_portfolio] writes for a position (lines 33-36): the
    signed quantity under the key of its side, 0 under the other. *)
Definition holding_of (pos : Position) : Holding :=
  {| long := match side pos with PosLong => qty pos | PosShort => of_Z 0 end;
     short := match side pos with PosShort => qty pos | PosLong => of_Z 0 end |}.

End MoreModel.

(** ** main.py: [align_portfolio] *)

Section AlignPortfolio.
Context `{PyFloat}.

(** An entry of [full_portfolio["positions"]]; [agent_long] and
    [agent_short] are the keys ["long"] and ["short"]. *)
Record AgentPosition := {
  agent_long : num;
  agent_short : num;
  long_cost_basis : num;
  short_cost_basis : num;
  short_margin_used : num
}.

(** An entry of [realized_gains]: the keys ["long"] and ["short"]. *)
Record RealizedGain := { gain_long : num; gain_short : num }.

Record FullPortfolio := {
  full_cash : num;
  margin_requirement : num;
  margin_used : num;
  full_positions : gmap string AgentPosition;
  realized_gains : gmap string RealizedGain
}.

(** The body of the loop over [tickers] (lines 59-84).  The assignment to
    [realized_gains] of lines 81-84 is indented under the [else]. *)
Definition align_ticker (live_data : Portfolio) (full_portfolio : FullPortfolio)
    (ticker : string) : FullPortfolio :=
  match positions live_data !! ticker with
  | Some pos =>
      {| full_cash := full_cash full_portfolio;
         margin_requirement := margin_requirement full_portfolio;
         margin_used := margin_used full_portfolio;
         full_positions :=
           <[ticker := {| agent_long := long pos; agent_short := short pos;
                          long_cost_basis := of_Z 0; short_cost_basis := of_Z 0;
                          short_margin_used := of_Z 0 |}]>
             (full_positions full_portfolio);
         realized_gains := realized_gains full_portfolio |}
  | None =>
      {| full_cash := full_cash full_portfolio;
         margin_requirement := margin_requirement full_portfolio;
         margin_used := margin_used full_portfolio;
         full_positions :=
           <[ticker := {| agent_long := of_Z 0; agent_short := of_Z 0;
                          long_cost_basis := of_Z 0; short_cost_basis := of_Z 0;
                          short_margin_used := of_Z 0 |}]>
             (full_positions full_portfolio);
         realized_gains :=
           <[ticker := {| gain_long := of_Z 0; gain_short := of_Z 0 |}]>
             (realized_gains full_portfolio) |}
  end.

(** [align_portfolio(live_data, tickers, margin_requirement)] *)
Definition align_portfolio (live_data : Portfolio) (tickers : list string)
    (margin_requirement : num) : FullPortfolio :=
  let full_portfolio :=
    {| full_cash := cash live_data;
       margin_requirement := margin_requirement;
       margin_used := of_Z 0;
       full_positions := ∅;
       realized_gains :=
         foldl (λ m ticker, <[ticker := {| gain_long := of_Z 0; gain_short := of_Z 0 |}]> m)
               ∅ tickers |} in
  foldl (align_ticker live_data) full_portfolio tickers.

End AlignPortfolio.

(** ** data/cache.py *)

Section CacheModel.
(** What a category stores for a ticker (a JSON list). *)
Variable Data : Type.

(** A value of [timestamps]: the [isoformat()] of a time, read back by
    [fromisoformat] as that time, or another string.  Times are in
    microseconds. *)
Inductive Stamp := Iso (t : Z) | NotIso (s : string).

(** [self._data] *)
Record CacheData := {
  prices : gmap string Data;
  financial_metrics : gmap string Data;
  line_items : gmap string Data;
  insider_trades : gmap string Data;
  company_news : gmap string Data;
  timestamps : gmap string Stamp
}.

(** The five pairs of accessors differ by the category they name and by
    the validity they pass to [_is_expired]. *)
Inductive Category := Prices | FinancialMetrics | LineItems | InsiderTrades | CompanyNews.

Definition category_name (c : Category) : string :=
  match c with
  | Prices => "prices"
  | FinancialMetrics => "financial_metrics"
  | LineItems => "line_items"
  | InsiderTrades => "insider_trades"
  | CompanyNews => "company_news"
  end.

(** The [hours] and [minutes] each getter passes. *)
Definition validity (c : Category) : Z * Z :=
  match c with
  | Prices => (0, 5)
  | FinancialMetrics => (12, 0)
  | LineItems => (12, 0)
  | InsiderTrades => (24, 0)
  | CompanyNews => (24, 0)
  end.

Definition category_data (c : Category) (d : CacheData) : gmap string Data :=
  match c with
  | Prices => prices d
  | FinancialMetrics => financial_metrics d
  | LineItems => line_items d
  | InsiderTrades => insider_trades d
  | CompanyNews => company_news d
  end.

(** [timedelta(hours=hours, minutes=minutes)], in microseconds. *)
Definition timedelta (hours minutes : Z) : Z :=
  hours * 3600000000 + minutes * 60000000.

(** [f"{category}_{ticker}"] *)
Definition stamp_key (category ticker : string) : string :=
  (category ++ "_" ++ ticker)%string.

(** [_is_expired]: [now] is the reading of [datetime.now()]. *)
Definition _is_expired (d : CacheData) (now : Z) (ticker category : string)
    (hours minutes : Z) : result bool :=
  match timestamps d !! stamp_key category ticker with
  | None => ok true
  | Some (NotIso s) =>
      match s with EmptyString => ok true | _ => raise ValueError end
  | Some (Iso saved_time) => ok (saved_time + timedelta hours minutes <? now)
  end.

(** [get_prices], [get_financial_metrics], [get_line_items],
    [get_insider_trades], [get_company_news]. *)
Definition cache_get (c : Category) (d : CacheData) (now : Z) (ticker : string)
    : result (option Data) :=
  let* expired := _is_expired d now ticker (category_name c)
                    (validity c).1 (validity c).2 in
  if expired then ok None else ok (category_data c d !! ticker).

Definition get_prices := cache_get Prices.
Definition get_financial_metrics := cache_get FinancialMetrics.
Definition get_line_items := cache_get LineItems.
Definition get_insider_trades := cache_get InsiderTrades.
Definition get_company_news := cache_get CompanyNews.

(** The two assignments of a setter. *)
Definition cache_put (c : Category) (d : CacheData) (now : Z) (ticker : string)
    (data : Data) : CacheData :=
  let stamps := <[stamp_key (category_name c) ticker := Iso now]> (timestamps d) in
  match c with
  | Prices =>
      {| prices := <[ticker := data]> (prices d);
         financial_metrics := financial_metrics d; line_items := line_items d;
         insider_trades := insider_trades d; company_news := company_news d;
         timestamps := stamps |}
  | FinancialMetrics =>
      {| prices := prices d;
         financial_metrics := <[ticker := data]> (financial_metrics d);
         line_items := line_items d;
         insider_trades := insider_trades d; company_news := company_news d;
         timestamps := stamps |}
  | LineItems =>
      {| prices := prices d; financial_metrics := financial_metrics d;
         line_items := <[ticker := data]> (line_items d);
         insider_trades := insider_trades d; company_news := company_news d;
         timestamps := stamps |}
  | InsiderTrades =>
      {| prices := prices d; financial_metrics := financial_metrics d;
         line_items := line_items d;
         insider_trades := <[ticker := data]> (insider_trades d);
         company_news := company_news d;
         timestamps := stamps |}
  | CompanyNews =>
      {| prices := prices d; financial_metrics := financial_metrics d;
         line_items := line_items d; insider_trades := insider_trades d;
         company_news := <[ticker := data]> (company_news d);
         timestamps := stamps |}
  end.

(** The cache file: absent, unreadable, or the JSON object last written. *)
Inductive CacheFile := NoFile | Unreadable | Stored (d : CacheData).

(** What the write of [_save_to_disk] comes to: the dump succeeds; [open]
    raises, and the file is not touched; or [json.dump] raises after
    [open(..., 'w')] has truncated the file, which leaves no JSON document
    in it. *)
Inductive WriteOutcome := Written | OpenFails | DumpFails.

(** [_save_to_disk]: a failed write is printed and swallowed.  The cached
    data is what the API layer stores, lists of JSON values, which
    [json.load] reads back as they were dumped. *)
Definition _save_to_disk (d : CacheData) (w : WriteOutcome) (file : CacheFile) : CacheFile :=
  match w with
  | Written => Stored d
  | OpenFails => file
  | DumpFails => Unreadable
  end.

(** [set_prices], [set_financial_metrics], [set_line_items],
    [set_insider_trades], [set_company_news]: the cache and the file they
    leave. *)
Definition cache_set (c : Category) (d : CacheData) (now : Z) (ticker : string)
    (data : Data) (w : WriteOutcome) (file : CacheFile) : CacheData * CacheFile :=
  let d' := cache_put c d now ticker data in
  (d', _save_to_disk d' w file).

Definition set_prices := cache_set Prices.
Definition set_financial_metrics := cache_set FinancialMetrics.
Definition set_line_items := cache_set LineItems.
Definition set_insider_trades := cache_set InsiderTrades.
Definition set_company_news := cache_set CompanyNews.

(** [Cache.__init__]: the empty structure, then [_load_from_disk].  A file
    written by [_save_to_disk] holds all six keys, so [update] replaces
    them all. *)
Definition empty_cache : CacheData :=
  {| prices := ∅; financial_metrics := ∅; line_items := ∅;
     insider_trades := ∅; company_news := ∅; timestamps := ∅ |}.

Definition new_cache (file : CacheFile) : CacheData :=
  match file with
  | Stored d => d
  | NoFile | Unreadable => empty_cache
  end.

End CacheModel.

(** ** utils/llm.py: the retry loop of [call_llm] *)

Section CallLlm.
(** What [llm.invoke] returns, the dictionary [extract_json_from_response]
    finds in it, and an instance of [pydantic_model]. *)
Variables Raw Parsed Response : Type.

(** One call of [llm.invoke(prompt)]. *)
Inductive Invocation := InvokeRaises | InvokeReturns (result : Raw).

(** The model and its helpers, as [call_llm] meets them:
    - [invoke k] is what the [k]-th call of [llm.invoke] does;
    - [non_json] is [model_info and not model_info.has_json_mode()];
    - with JSON mode, the result of [invoke] is the structured output
      itself, [structured result];
    - [extract] is [extract_json_from_response], which catches every
      exception; [None] is a falsy result ([None] or an empty dict);
    - [build parsed] is [pydantic_model] applied to the parsed fields;
      [None] when it raises;
    - [default_factory] is what [default_factory()] gives, when a factory
      is passed, and [create_default_response] what
      [create_default_response(pydantic_model)] gives. *)
Variable invoke : nat → Invocation.
Variable non_json : bool.
Variable structured : Raw → Response.
Variable extract : Raw → option Parsed.
Variable build : Parsed → option Response.
Variable default_factory : option Response.
Variable create_default_response : Response.

(** What one pass through the body of the [for] loop comes to. *)
Inductive Attempt :=
  | Returned (r : Response)      (* a [return] inside the [try] *)
  | Excepted                     (* the [except] branch *)
  | FellThrough.                 (* no usable JSON: on to the next attempt *)

Definition attempt_outcome (attempt : nat) : Attempt :=
  match invoke attempt with
  | InvokeRaises => Excepted
  | InvokeReturns result =>
      if non_json then
        match extract result with
        | Some parsed =>
            match build parsed with
            | Some r => Returned r
            | None => Excepted
            end
        | None => FellThrough
        end
      else Returned (structured result)
  end.

(** [for attempt in range(max_retries)], from [attempt] on, with
    [remaining = max_retries - attempt]; then line 84.  The result comes
    with the number of calls of [llm.invoke] made. *)
Fixpoint call_llm_from (attempt remaining : nat) : Response * nat :=
  match remaining with
  | O => (create_default_response, O)
  | S remaining' =>
      match attempt_outcome attempt with
      | Returned r => (r, 1%nat)
      | Excepted =>
          if (remaining' =? 0)%nat
          then (default create_default_response default_factory, 1%nat)
          else let '(r, n) := call_llm_from (S attempt) remaining' in (r, S n)
      | FellThrough =>
          let '(r, n) := call_llm_from (S attempt) remaining' in (r, S n)
      end
  end.

(** [call_llm], for [max_retries >= 0] (a negative value makes the range
    empty, as 0 does). *)
Definition call_llm (max_retries : nat) : Response * nat :=
  call_llm_from 0 max_retries.

End CallLlm.

(** * Properties *)

(** ** The loop body of a pass *)

Section PassFacts.
Context `{PyFloat}.
Implicit Types (rd : gmap string RiskRecord) (position : Position).

(** The loop body never raises, and this is what it leaves. *)
Lemma process_position_eq self client rd position :
  let lv := evaluation self rd position in
  process_position self client rd position =
  Some (if triggered lv then delete (symbol position) rd
        else <[symbol position := tracked_record rd position]> rd,
        (if improves (is_long position) (current_price position)
              (match rd !! symbol position with
               | Some r => extreme_price r | None => current_price position end)
         then [if is_long position
               then LogNewHigh (symbol position) (current_price position)
               else LogNewLow (symbol position) (current_price position)]
         else []) ++
        [LogStatus (symbol position) (is_long position) (current_price position)
           (tracked_extreme rd position) (final_stop lv)] ++
        (if triggered lv
         then execute_close client (symbol position) (fabs (qty position))
                (sell_side lv) (close_reason lv) (current_price position)
         else [])).
Proof.
  intros lv. subst lv. unfold process_position, evaluation, tracked_record, tracked_extreme.
  destruct (rd !! symbol position) as [r|] eqn:Hr; simpl.
  - rewrite Hr. simpl.
    destruct (improves _ _ _) eqn:Hi; simpl.
    + destruct (triggered _) eqn:Ht; simpl.
      * rewrite lookup_alter_eq, Hr. simpl. rewrite delete_alter_eq. reflexivity.
      * f_equal. f_equal.
        apply map_eq. intros k. destruct (decide (symbol position = k)) as [<-|Hne].
        -- rewrite lookup_alter_eq, lookup_insert_eq, Hr. reflexivity.
        -- rewrite lookup_alter_ne, lookup_insert_ne by done. reflexivity.
    + destruct (triggered _) eqn:Ht; simpl.
      * rewrite Hr. simpl. reflexivity.
      * f_equal. f_equal. symmetry. apply insert_id. rewrite Hr. by destruct r.
  - rewrite lookup_insert_eq. simpl.
    destruct (improves _ _ _) eqn:Hi; simpl.
    + destruct (triggered _) eqn:Ht; simpl.
      * rewrite lookup_alter_eq, lookup_insert_eq. simpl.
        rewrite delete_alter_eq, delete_insert_eq. reflexivity.
      * f_equal. f_equal.
        apply map_eq. intros k. destruct (decide (symbol position = k)) as [<-|Hne].
        -- rewrite lookup_alter_eq, !lookup_insert_eq. reflexivity.
        -- rewrite lookup_alter_ne, !lookup_insert_ne by done. reflexivity.
    + destruct (triggered _) eqn:Ht; simpl.
      * rewrite lookup_insert_eq. simpl. rewrite delete_insert_eq. reflexivity.
      * reflexivity.
Qed.

Lemma process_position_lookup self client rd position rd1 l s :
  process_position self client rd position = Some (rd1, l) →
  rd1 !! s =
    if decide (s = symbol position)
    then (if triggered (evaluation self rd position) then None
          else Some (tracked_record rd position))
    else rd !! s.
Proof.
  rewrite process_position_eq. intros [= <- _].
  destruct (triggered _); case_decide; subst;
    rewrite ?lookup_delete_eq, ?lookup_insert_eq, ?lookup_delete_ne, ?lookup_insert_ne by done;
    reflexivity.
Qed.

(** The levels and the record of a position depend on the store through
    the entry of its symbol only. *)
Lemma tracked_extreme_ext rd rd2 position :
  rd !! symbol position = rd2 !! symbol position →
  tracked_extreme rd position = tracked_extreme rd2 position.
Proof. unfold tracked_extreme. by intros ->. Qed.

Lemma tracked_record_ext rd rd2 position :
  rd !! symbol position = rd2 !! symbol position →
  tracked_record rd position = tracked_record rd2 position.
Proof.
  intros E. unfold tracked_record.
  rewrite (tracked_extreme_ext _ _ _ E). by rewrite E.
Qed.

Lemma evaluation_ext self rd rd2 position :
  rd !! symbol position = rd2 !! symbol position →
  evaluation self rd position = evaluation self rd2 position.
Proof. intros E. unfold evaluation. by rewrite (tracked_extreme_ext _ _ _ E). Qed.

(** ** The loop of a pass *)

Lemma process_positions_total self client rd positions :
  is_Some (process_positions self client rd positions).
Proof.
  revert rd. induction positions as [|p ps IH]; intros rd; simpl; [eauto|].
  rewrite process_position_eq. simpl.
  match goal with |- context [process_positions _ _ ?m ps] => destruct (IH m) as [[rd2 l2] ->] end.
  simpl. eauto.
Qed.

Lemma process_positions_other self client rd positions rd' l s :
  process_positions self client rd positions = Some (rd', l) →
  s ∉ symbol <$> positions →
  rd' !! s = rd !! s.
Proof.
  revert rd rd' l. induction positions as [|p ps IH]; intros rd rd' l; simpl.
  - by intros [= <- _].
  - destruct (process_position self client rd p) as [[rd1 l1]|] eqn:E1; [|done]. simpl.
    destruct (process_positions self client rd1 ps) as [[rd2 l2]|] eqn:E2; [|done]. simpl.
    intros [= <- _] Hs. apply not_elem_of_cons in Hs as [Hne Hs].
    rewrite (IH _ _ _ E2 Hs), (process_position_lookup _ _ _ _ _ _ s E1).
    by rewrite decide_False.
Qed.

Lemma process_positions_own self client rd positions rd' l position :
  NoDup (symbol <$> positions) →
  position ∈ positions →
  process_positions self client rd positions = Some (rd', l) →
  rd' !! symbol position =
    if triggered (evaluation self rd position) then None
    else Some (tracked_record rd position).
Proof.
  revert rd rd' l. induction positions as [|p ps IH]; intros rd rd' l Hnd Hin; simpl.
  - by apply elem_of_nil in Hin.
  - destruct (process_position self client rd p) as [[rd1 l1]|] eqn:E1; [|done]. simpl.
    destruct (process_positions self client rd1 ps) as [[rd2 l2]|] eqn:E2; [|done]. simpl.
    intros [= <- _]. rewrite fmap_cons in Hnd. apply NoDup_cons in Hnd as [Hnotin Hnd].
    apply elem_of_cons in Hin as [->|Hin].
    + rewrite (process_positions_other _ _ _ _ _ _ _ E2 Hnotin),
        (process_position_lookup _ _ _ _ _ _ _ E1).
      by rewrite decide_True.
    + assert (symbol position ≠ symbol p) as Hne.
      { intros E. apply Hnotin. rewrite <- E. by apply list_elem_of_fmap_2. }
      assert (rd1 !! symbol position = rd !! symbol position) as Hsame.
      { rewrite (process_position_lookup _ _ _ _ _ _ _ E1). by rewrite decide_False. }
      rewrite (IH _ _ _ Hnd Hin E2).
      by rewrite (evaluation_ext _ _ _ _ Hsame), (tracked_record_ext _ _ _ Hsame).
Qed.

(** Every position of the list is evaluated, in order. *)
Lemma process_positions_evaluated self client rd positions rd' l :
  process_positions self client rd positions = Some (rd', l) →
  evaluated l = symbol <$> positions.
Proof.
  revert rd rd' l. induction positions as [|p ps IH]; intros rd rd' l; simpl.
  - by intros [= _ <-].
  - rewrite process_position_eq. simpl.
    destruct (process_positions _ _ _ ps) as [[rd2 l2]|] eqn:E2; [|done]. simpl.
    intros [= _ <-]. unfold evaluated in *. rewrite !omap_app. simpl.
    rewrite (IH _ _ _ E2).
    destruct (improves _ _ _); [destruct (is_long p)|]; simpl;
      (destruct (triggered _); simpl; [destruct (submit_order _ _)|]; simpl; reflexivity).
Qed.

(** The outcome of [submit_order] changes neither the store nor what a
    pass attempts. *)
Lemma execute_close_attempts client client' s q sd reason price :
  attempts (execute_close client s q sd reason price) =
  attempts (execute_close client' s q sd reason price).
Proof.
  unfold execute_close, attempts. simpl.
  by destruct (submit_order client _), (submit_order client' _).
Qed.

Lemma attempts_app (l1 l2 : list LogEvent) :
  attempts (l1 ++ l2) = attempts l1 ++ attempts l2.
Proof. apply fmap_app. Qed.

Lemma process_position_submit self client client' rd position rd1 l :
  process_position self client rd position = Some (rd1, l) →
  ∃ l', process_position self client' rd position = Some (rd1, l')
        ∧ attempts l' = attempts l.
Proof.
  rewrite !process_position_eq. intros [= <- <-].
  eexists; split; [reflexivity|].
  destruct (triggered _); [|done].
  rewrite !attempts_app. f_equal.
  change (attempts (?a :: ?l)) with (attempts [a] ++ attempts l).
  f_equal. apply execute_close_attempts.
Qed.

Lemma process_positions_submit self client client' rd positions rd' l :
  process_positions self client rd positions = Some (rd', l) →
  ∃ l', process_positions self client' rd positions = Some (rd', l')
        ∧ attempts l' = attempts l.
Proof.
  revert rd rd' l. induction positions as [|p ps IH]; intros rd rd' l; simpl.
  - intros [= <- <-]. eauto.
  - destruct (process_position self client rd p) as [[rd1 l1]|] eqn:E1; [|done]. simpl.
    destruct (process_positions self client rd1 ps) as [[rd2 l2]|] eqn:E2; [|done]. simpl.
    intros [= <- <-].
    destruct (process_position_submit _ _ client' _ _ _ _ E1) as (l1' & E1' & Ha1).
    destruct (IH _ _ _ E2) as (l2' & E2' & Ha2).
    rewrite E1'. simpl. rewrite E2'. simpl.
    eexists; split; [reflexivity|].
    by rewrite !attempts_app, Ha1, Ha2.
Qed.

End PassFacts.

(** ** The comparisons of [binary64] *)

(** [SFcompare], the specification of the primitive comparisons, is the
    lexicographic comparison of the ranks. *)
Lemma SFcompare_rank (x y : spec_float) :
  SFcompare x y
  = match SFrank x, SFrank y with
    | Some a, Some b => Some (lex3 a b)
    | _, _ => None
    end.
Proof.
  destruct x as [[]|[]| |[] m1 e1], y as [[]|[]| |[] m2 e2]; try reflexivity.
  simpl. rewrite Z.compare_opp, (Z.compare_antisym e1 e2).
  destruct (e1 ?= e2); reflexivity.
Qed.

Ltac rank_cases :=
  repeat match goal with
         | H : context [SFrank ?x] |- _ => destruct (SFrank x) as [[[? ?] ?]|]
         | |- context [SFrank ?x] => destruct (SFrank x) as [[[? ?] ?]|]
         end;
  unfold lex3 in *;
  repeat match goal with
         | H : context [(?a ?= ?b)%Z] |- _ => destruct (Z.compare_spec a b)
         | |- context [(?a ?= ?b)%Z] => destruct (Z.compare_spec a b)
         end;
  try discriminate; try reflexivity; try lia.

Ltac float_cmp :=
  rewrite ?FloatAxioms.ltb_spec, ?FloatAxioms.leb_spec, ?FloatAxioms.eqb_spec in *;
  unfold SFltb, SFleb, SFeqb in *; rewrite ?SFcompare_rank in *; rank_cases.

Lemma binary64_order : FloatOrder binary64.
Proof.
  split; simpl.
  - intros x. float_cmp.
  - intros x y z H1 H2. float_cmp.
  - intros x y. float_cmp.
  - intros x y. float_cmp.
  - intros x y z H1 H2. float_cmp.
  - intros x y z H1 H2. float_cmp.
  - intros x y z H1 H2. float_cmp.
  - intros x y H1. split; float_cmp.
Qed.

(** ** Exact arithmetic: the comparisons of [Q_float] *)

Lemma Q_fltb (x y : Q) : (@fltb Q_float x y) = true ↔ (x < y)%Q.
Proof.
  simpl. rewrite negb_true_iff. split.
  - intros E. apply Qnot_le_lt. intros Hle. apply Qle_bool_iff in Hle. congruence.
  - intros Hlt. destruct (Qle_bool y x) eqn:E; [|done].
    apply Qle_bool_iff in E. exfalso. by apply (Qlt_not_le _ _ Hlt).
Qed.

Lemma Q_fleb (x y : Q) : (@fleb Q_float x y) = true ↔ (x <= y)%Q.
Proof. apply Qle_bool_iff. Qed.

Lemma Q_feqb (x y : Q) : (@feqb Q_float x y) = true ↔ (x == y)%Q.
Proof. apply Qeq_bool_iff. Qed.

Lemma Q_fltb_false (x y : Q) : (@fltb Q_float x y) = false ↔ (y <= x)%Q.
Proof.
  rewrite <- not_true_iff_false, Q_fltb. split.
  - apply Qnot_lt_le.
  - intros Hle Hlt. by apply (Qlt_not_le _ _ Hlt).
Qed.

Lemma Q_py_max (a b : Q) : (@py_max Q_float a b == Qmax a b)%Q.
Proof.
  unfold py_max. destruct (@fltb Q_float a b) eqn:E.
  - apply Q_fltb in E. symmetry. apply Q.max_r. by apply Qlt_le_weak.
  - apply Q_fltb_false in E. symmetry. by apply Q.max_l.
Qed.

Lemma Q_py_min (a b : Q) : (@py_min Q_float a b == Qmin a b)%Q.
Proof.
  unfold py_min. destruct (@fltb Q_float b a) eqn:E.
  - apply Q_fltb in E. symmetry. apply Q.min_r. by apply Qlt_le_weak.
  - apply Q_fltb_false in E. symmetry. by apply Q.min_l.
Qed.

Ltac Q_bools :=
  repeat match goal with
         | H : @fltb Q_float _ _ = true |- _ => apply Q_fltb in H
         | H : @fleb Q_float _ _ = true |- _ => apply Q_fleb in H
         | H : @feqb Q_float _ _ = true |- _ => apply Q_feqb in H
         | H : @fltb Q_float _ _ = false |- _ => apply Q_fltb_false in H
         | H : @fleb Q_float _ _ = false |- _ =>
             apply not_true_iff_false in H; rewrite Q_fleb in H
         | H : @feqb Q_float _ _ = false |- _ =>
             apply not_true_iff_false in H; rewrite Q_feqb in H
         end.

Lemma Q_order : FloatOrder Q_float.
Proof.
  split.
  - intros x. apply Q_fltb_false. apply Qle_refl.
  - intros x y z H1 H2. Q_bools. apply Q_fltb. lra.
  - intros x y.
    destruct (@fleb Q_float x y) eqn:E1, (@fltb Q_float x y) eqn:E2,
      (@feqb Q_float x y) eqn:E3; try reflexivity; exfalso; Q_bools; lra.
  - intros x y.
    destruct (@feqb Q_float x y) eqn:E1, (@feqb Q_float y x) eqn:E2;
      try reflexivity; exfalso; Q_bools; lra.
  - intros x y z H1 H2. Q_bools. apply Q_feqb. lra.
  - intros x y z H1 H2. Q_bools. apply Q_fltb. lra.
  - intros x y z H1 H2. Q_bools. apply Q_fltb. lra.
  - intros x y _. split; apply Q_feqb; reflexivity.
Qed.

(** ** Consequences of the laws *)

Section OrderFacts.
Context `{O : FloatOrder}.

Lemma fltb_asym (x y : num) : (x <? y)%num = true → (y <? x)%num = false.
Proof.
  intros H1. destruct (y <? x)%num eqn:H2; [|done].
  by rewrite <- (fltb_irrefl x), (fltb_trans x y x H1 H2).
Qed.

Lemma fltb_not_feqb (x y : num) : (x <? y)%num = true → (x =? y)%num = false.
Proof.
  intros H1. destruct (x =? y)%num eqn:H2; [|done].
  rewrite feqb_sym in H2.
  by rewrite <- (fltb_irrefl x), (fltb_feqb_trans x y x H1 H2).
Qed.

Lemma fltb_fleb (x y : num) : (x <? y)%num = true → (x <=? y)%num = true.
Proof. intros H1. by rewrite fleb_fltb_feqb, H1. Qed.

(** [x <= y] and [y < x] exclude each other. *)
Lemma fleb_not_fltb (x y : num) : (x <=? y)%num = true → (y <? x)%num = false.
Proof.
  rewrite fleb_fltb_feqb. intros [H1|H1]%orb_true_iff.
  - by apply fltb_asym.
  - destruct (y <? x)%num eqn:H2; [|done].
    by rewrite <- (fltb_irrefl y), (fltb_feqb_trans y x y H2 H1).
Qed.

Lemma fleb_feqb_trans (x y z : num) :
  (x <=? y)%num = true → (y =? z)%num = true → (x <=? z)%num = true.
Proof.
  rewrite !fleb_fltb_feqb. intros [H1|H1]%orb_true_iff H2; apply orb_true_iff.
  - left. by apply (fltb_feqb_trans x y z).
  - right. by apply (feqb_trans x y z).
Qed.

Lemma fltb_fleb_trans (x y z : num) :
  (x <? y)%num = true → (y <=? z)%num = true → (x <? z)%num = true.
Proof.
  rewrite fleb_fltb_feqb. intros H1 [H2|H2]%orb_true_iff.
  - by apply (fltb_trans x y z).
  - by apply (fltb_feqb_trans x y z).
Qed.

End OrderFacts.

(** ** Stop-loss evaluation *)

Lemma close_orders_app `{PyFloat} (l1 l2 : list LogEvent) :
  close_orders (l1 ++ l2) = close_orders l1 ++ close_orders l2.
Proof. apply omap_app. Qed.

Lemma sell_side_stop_level `{PyFloat} self b entry extreme current :
  sell_side (stop_level self b entry extreme current) = if b then SELL else BUY.
Proof. by destruct b. Qed.

(** What the evaluation of one position logs and submits. *)
Lemma process_position_orders `{PyFloat} self client rd position :
  ∃ rd' l,
    process_position self client rd position = Some (rd', l)
    ∧ LogStatus (symbol position) (is_long position) (current_price position)
        (tracked_extreme rd position) (final_stop (evaluation self rd position)) ∈ l
    ∧ close_orders l =
        (if triggered (evaluation self rd position) then [closing_order position] else [])
    ∧ (triggered (evaluation self rd position) = true →
       LogClose (symbol position) (close_reason (evaluation self rd position))
         (current_price position) ∈ l).
Proof.
  rewrite process_position_eq. eexists _, _. split; [reflexivity|].
  split; [|split].
  - apply elem_of_app. right. apply elem_of_app. left. apply list_elem_of_singleton. reflexivity.
  - rewrite !close_orders_app.
    replace (close_orders (if improves _ _ _ then _ else [])) with (@nil MarketOrderRequest)
      by (destruct (improves _ _ _); [destruct (is_long position)|]; reflexivity).
    simpl. destruct (triggered _) eqn:Ht; [|reflexivity].
    unfold execute_close, closing_order. unfold evaluation. rewrite sell_side_stop_level.
    simpl. by destruct (submit_order _ _).
  - intros ->. apply elem_of_app. right. apply elem_of_app. right.
    unfold execute_close. apply elem_of_cons. by left.
Qed.

(** C1: for a long position a pass computes
    hard_stop = entry*(1-hard_pct), trail_stop = extreme*(1-trail_pct),
    final_stop = max(hard_stop, trail_stop) and closes exactly when
    current <= final_stop; for a short position it uses +, min and >=.
    Scenario 1 (LONG, entry 100, extreme 110, current 104, 8% and 5%) gives
    final_stop 104.5, a trigger, and the reason TRAIL, in binary64 as in
    exact arithmetic. *)
Theorem stop_evaluation_formulas :
  (∀ (N : PyFloat) (self : RiskManager) (client : Gateway)
     (rd : gmap string RiskRecord) (position : Position),
     let entry := avg_entry_price position in
     let current := current_price position in
     let extreme := tracked_extreme rd position in
     let hard := (if is_long position
                  then entry * (of_Z 1 - initial_stop_loss_pct self)
                  else entry * (of_Z 1 + initial_stop_loss_pct self))%num in
     let trail := (if is_long position
                   then extreme * (of_Z 1 - trailing_pct self)
                   else extreme * (of_Z 1 + trailing_pct self))%num in
     let final := if is_long position then py_max hard trail else py_min hard trail in
     let trig := (if is_long position then current <=? final else current >=? final)%num in
     ∃ rd' l,
       process_position self client rd position = Some (rd', l)
       ∧ LogStatus (symbol position) (is_long position) current extreme final ∈ l
       ∧ close_orders l = (if trig then [closing_order position] else [])
       ∧ (trig = true →
          LogClose (symbol position) (if (final =? trail)%num then TRAIL else HARD)
            current ∈ l))
  ∧ (∀ a b : Q, (@py_max Q_float a b == Qmax a b)%Q ∧ (@py_min Q_float a b == Qmin a b)%Q)
  ∧ (let lv := @evaluation Q_float (default_manager ∅)
                 {["AAPL"%string := record_of 110 LONG]} (position_of "AAPL" 10 100 104) in
     (hard_stop lv == 92)%Q ∧ (trail_stop lv == 104.5)%Q ∧ (final_stop lv == 104.5)%Q
     ∧ triggered lv = true ∧ close_reason lv = TRAIL)
  ∧ @process_position binary64 (default_manager ∅)
      (gateway_of [] (of_Z 0) (of_Z 0) (of_Z 0) true)
      {["AAPL"%string := record_of 110 LONG]} (position_of "AAPL" 10 100 104)
    = Some (∅,
            [@LogStatus binary64 "AAPL" true 104%float 110%float 104.5%float;
             @LogClose binary64 "AAPL" TRAIL 104%float;
             @LogOrderSubmitted binary64
               (@Build_MarketOrderRequest binary64 "AAPL" (@VFloat binary64 10%float)
                  SELL GTC)]).
Proof.
  split; [|split; [|split]].
  - intros N self client rd position. cbv zeta.
    destruct (process_position_orders self client rd position) as (rd' & l & E & Hs & Ho & Hc).
    exists rd', l. unfold evaluation, stop_level, close_reason in *.
    destruct (is_long position); simpl in *; auto.
  - intros a b. split; [apply Q_py_max | apply Q_py_min].
  - vm_compute. repeat split; reflexivity.
  - reflexivity.
Qed.

(** C3, as stated, fails: for the SHORT position of Scenario 2 the pass
    takes the lower of the two stops, 189, not the hard stop 216, and the
    close is tagged TRAIL, not HARD. *)
Lemma short_scenario_is_not_hard :
  (let lv := @evaluation binary64 (default_manager ∅)
               {["TSLA"%string := record_of 180 SHORT]} (position_of "TSLA" (-10) 200 220) in
   final_stop lv ≠ 216%float ∧ close_reason lv ≠ HARD)
  ∧ (let lv := @evaluation Q_float (default_manager ∅)
                 {["TSLA"%string := record_of 180 SHORT]} (position_of "TSLA" (-10) 200 220) in
     ¬ (final_stop lv == 216)%Q ∧ close_reason lv ≠ HARD).
Proof.
  split; cbv zeta; split; vm_compute; discriminate.
Qed.

(** C3, amended: for the SHORT position with entry 200, extreme 180, 8% and
    5%, and current 220, the pass computes hard_stop 216, trail_stop 189 and
    final_stop = min(216, 189) = 189, finds it triggered (220 >= 189), and
    closes with a BUY tagged TRAIL. *)
Theorem short_scenario_trails :
  (let lv := @evaluation Q_float (default_manager ∅)
               {["TSLA"%string := record_of 180 SHORT]} (position_of "TSLA" (-10) 200 220) in
   (hard_stop lv == 216)%Q ∧ (trail_stop lv == 189)%Q ∧ (final_stop lv == 189)%Q
   ∧ triggered lv = true ∧ close_reason lv = TRAIL)
  ∧ @process_position binary64 (default_manager ∅)
      (gateway_of [] (of_Z 0) (of_Z 0) (of_Z 0) true)
      {["TSLA"%string := record_of 180 SHORT]} (position_of "TSLA" (-10) 200 220)
    = Some (∅,
            [@LogStatus binary64 "TSLA" false 220%float 180%float 189%float;
             @LogClose binary64 "TSLA" TRAIL 220%float;
             @LogOrderSubmitted binary64
               (@Build_MarketOrderRequest binary64 "TSLA" (@VFloat binary64 10%float)
                  BUY GTC)])
  ∧ hard_stop (@evaluation binary64 (default_manager ∅)
                 {["TSLA"%string := record_of 180 SHORT]} (position_of "TSLA" (-10) 200 220))
    = 216%float.
Proof.
  split; [|split].
  - vm_compute. repeat split; reflexivity.
  - reflexivity.
  - vm_compute. reflexivity.
Qed.

(** ** A whole pass *)

Section PassLevel.
Context `{PyFloat}.
Implicit Types (rd : gmap string RiskRecord) (position : Position).

(** A pass that reads the positions completes, and this is what it leaves. *)
Lemma monitor_and_execute_read self client disk_ok disk positions :
  get_all_positions client = Some positions →
  ∃ rd' l r,
    process_positions self client (risk_data self) positions = Some (rd', l)
    ∧ monitor_and_execute self client disk_ok disk = Some r
    ∧ manager r = with_risk_data self (filter (λ sd, sd.1 ∈ symbol <$> positions) rd')
    ∧ data_file r = (if disk_ok then risk_data (manager r) else disk)
    ∧ log r = [LogStart] ++ (match positions with [] => [LogNoPositions] | _ => l end)
              ++ (if disk_ok then [] else [LogSaveError]).
Proof.
  intros Hread. unfold monitor_and_execute. rewrite Hread.
  destruct positions as [|p ps].
  - exists (risk_data self), [], {| manager := with_risk_data self ∅;
      data_file := if disk_ok then ∅ else disk;
      log := [LogStart; LogNoPositions] ++ (if disk_ok then [] else [LogSaveError]) |}.
    split; [reflexivity|]. split; [by destruct disk_ok|]. simpl.
    split; [|split; reflexivity].
    f_equal. symmetry. apply map_empty. intros i. apply map_lookup_filter_None_2.
    right. intros x _. simpl. apply not_elem_of_nil.
  - destruct (process_positions_total self client (risk_data self) (p :: ps)) as [[rd' l] E].
    rewrite E. simpl. unfold _save_data.
    destruct disk_ok; (eexists rd', l, _; split; [reflexivity|]);
      simpl; (split; [reflexivity|]); simpl; rewrite ?app_nil_r; auto.
Qed.

(** No record survives a pass for a symbol that is not live. *)
Lemma pass_lookup self client disk_ok disk positions rd' l r s :
  get_all_positions client = Some positions →
  process_positions self client (risk_data self) positions = Some (rd', l) →
  monitor_and_execute self client disk_ok disk = Some r →
  risk_data (manager r) !! s =
    if decide (s ∈ symbol <$> positions) then rd' !! s else None.
Proof.
  intros Hread E Hr.
  destruct (monitor_and_execute_read self client disk_ok disk positions Hread)
    as (rd2 & l2 & r2 & E2 & Hr2 & Hm & _).
  rewrite E in E2. injection E2 as <- <-. rewrite Hr in Hr2. injection Hr2 as <-.
  rewrite Hm. simpl. rewrite map_lookup_filter.
  destruct (rd' !! s) as [x|]; simpl; case_decide; try reflexivity.
  - by rewrite option_guard_True.
  - by rewrite option_guard_False.
Qed.

(** With one position per symbol, an order is a closing order of the pass
    exactly when it is that of a live position whose stop is triggered. *)
Lemma process_positions_closes self client rd positions rd' l o :
  NoDup (symbol <$> positions) →
  process_positions self client rd positions = Some (rd', l) →
  o ∈ close_orders l ↔
  ∃ position, position ∈ positions ∧ o = closing_order position
              ∧ triggered (evaluation self rd position) = true.
Proof.
  revert rd rd' l. induction positions as [|p ps IH]; intros rd rd' l Hnd; simpl.
  - intros [= _ <-]. split; [by intros ?%elem_of_nil|].
    by intros (p & ?%elem_of_nil & _).
  - destruct (process_position self client rd p) as [[rd1 l1]|] eqn:E1; [|done]. simpl.
    destruct (process_positions self client rd1 ps) as [[rd2 l2]|] eqn:E2; [|done]. simpl.
    intros [= <- <-]. rewrite fmap_cons in Hnd. apply NoDup_cons in Hnd as [Hnotin Hnd].
    destruct (process_position_orders self client rd p) as (rd1' & l1' & E1' & _ & Ho & _).
    rewrite E1 in E1'. injection E1' as <- <-.
    rewrite close_orders_app, elem_of_app, Ho, (IH _ _ _ Hnd E2).
    assert (∀ q, q ∈ ps → evaluation self rd1 q = evaluation self rd q) as Hsame.
    { intros q Hq. apply evaluation_ext.
      rewrite (process_position_lookup _ _ _ _ _ _ _ E1). rewrite decide_False; [done|].
      intros E. apply Hnotin. rewrite <- E. by apply list_elem_of_fmap_2. }
    split.
    + intros [Hhere|(q & Hq & -> & Ht)].
      * destruct (triggered (evaluation self rd p)) eqn:Ht; [|by apply elem_of_nil in Hhere].
        apply list_elem_of_singleton in Hhere as ->.
        exists p. split; [by left|done].
      * exists q. split; [by right|]. split; [done|]. by rewrite <- (Hsame q Hq).
    + intros (q & [->|Hq]%elem_of_cons & -> & Ht).
      * left. rewrite Ht. by apply list_elem_of_singleton.
      * right. exists q. split; [done|]. split; [done|]. by rewrite (Hsame q Hq).
Qed.

End PassLevel.





(** C7: when a stop triggers, the record of the symbol is deleted in that
    pass whether [submit_order] succeeds or raises: in the loop body, and,
    with one position per symbol, in the store the pass leaves; the outcome
    of the submission changes neither the store, nor the data file, nor
    what is evaluated and attempted for the other positions. *)
Theorem trigger_deletes_record_whatever_submit :
  ∀ (N : PyFloat) (self : RiskManager) (client : Gateway) (disk_ok : bool)
    (disk : gmap string RiskRecord) (positions : list Position) (position : Position),
    get_all_positions client = Some positions →
    NoDup (symbol <$> positions) →
    position ∈ positions →
    triggered (evaluation self (risk_data self) position) = true →
    (∀ client' rd, triggered (evaluation self rd position) = true →
       ∃ l, process_position self client' rd position
            = Some (delete (symbol position) rd, l)
          ∧ closing_order position ∈ close_orders l)
    ∧ ∃ r, monitor_and_execute self client disk_ok disk = Some r
        ∧ risk_data (manager r) !! symbol position = None
        ∧ closing_order position ∈ close_orders (log r)
        ∧ evaluated (log r) = symbol <$> positions
        ∧ (disk_ok = true → data_file r = risk_data (manager r))
        ∧ ∀ client', get_all_positions client' = Some positions →
            ∃ r', monitor_and_execute self client' disk_ok disk = Some r'
              ∧ manager r' = manager r
              ∧ data_file r' = data_file r
              ∧ attempts (log r') = attempts (log r).
Proof.
  intros N self client disk_ok disk positions position Hread Hnd Hin Ht. split.
  - intros client' rd Ht'.
    destruct (process_position_orders self client' rd position) as (rd1 & l & E & _ & Ho & _).
    exists l. split.
    + rewrite E. rewrite process_position_eq in E. rewrite Ht' in E. by injection E as <- _.
    + rewrite Ho, Ht'. by apply list_elem_of_singleton.
  - destruct (monitor_and_execute_read self client disk_ok disk positions Hread)
      as (rd' & l & r & E & Hr & Hm & Hd & Hl).
    assert (positions ≠ []) as Hne by (intros ->; by apply elem_of_nil in Hin).
    assert (log r = [LogStart] ++ l ++ (if disk_ok then [] else [LogSaveError])) as Hl'.
    { rewrite Hl. by destruct positions. }
    exists r. split; [done|]. split; [|split; [|split; [|split]]].
    + rewrite (pass_lookup _ _ _ _ _ _ _ _ _ Hread E Hr).
      rewrite decide_True by (by apply list_elem_of_fmap_2).
      by rewrite (process_positions_own _ _ _ _ _ _ _ Hnd Hin E), Ht.
    + rewrite Hl', !close_orders_app. apply elem_of_app. right. apply elem_of_app. left.
      apply (process_positions_closes _ _ _ _ _ _ _ Hnd E). eauto.
    + rewrite Hl'. unfold evaluated. rewrite !omap_app.
      fold (evaluated l). rewrite (process_positions_evaluated _ _ _ _ _ _ E).
      simpl. destruct disk_ok; simpl; by rewrite app_nil_r.
    + intros ->. by rewrite Hd.
    + intros client' Hread'.
      destruct (monitor_and_execute_read self client' disk_ok disk positions Hread')
        as (rd2 & l2 & r2 & E2 & Hr2 & Hm2 & Hd2 & Hl2).
      destruct (process_positions_submit self client client' _ _ _ _ E) as (l2' & E2' & Ha).
      rewrite E2 in E2'. injection E2' as -> <-.
      exists r2. split; [done|]. split; [by rewrite Hm, Hm2|].
      split; [by rewrite Hd, Hd2, Hm, Hm2|].
      rewrite Hl, Hl2. destruct positions; [done|].
      by rewrite !attempts_app, Ha.
Qed.

(** Scenario 1 against a gateway that refuses every order. *)
Lemma trigger_deletes_record_witness :
  (∀ client' rd,
     triggered (@evaluation binary64 (default_manager {["AAPL"%string := record_of 110 LONG]})
                  rd (position_of "AAPL" 10 100 104)) = true →
     ∃ l, process_position (default_manager {["AAPL"%string := record_of 110 LONG]})
            client' rd (position_of "AAPL" 10 100 104)
          = Some (delete (symbol (@position_of binary64 "AAPL" 10 100 104)) rd, l)
        ∧ closing_order (position_of "AAPL" 10 100 104) ∈ close_orders l)
  ∧ ∃ r, @monitor_and_execute binary64
           (default_manager {["AAPL"%string := record_of 110 LONG]})
           (gateway_of [position_of "AAPL" 10 100 104] (of_Z 0) (of_Z 0) (of_Z 0) false)
           true ∅ = Some r
      ∧ risk_data (manager r) !! symbol (@position_of binary64 "AAPL" 10 100 104) = None
      ∧ closing_order (position_of "AAPL" 10 100 104) ∈ close_orders (log r)
      ∧ evaluated (log r) = symbol <$> [@position_of binary64 "AAPL" 10 100 104]
      ∧ (true = true → data_file r = risk_data (manager r))
      ∧ ∀ client', get_all_positions client' = Some [@position_of binary64 "AAPL" 10 100 104] →
          ∃ r', monitor_and_execute
                  (default_manager {["AAPL"%string := record_of 110 LONG]})
                  client' true ∅ = Some r'
            ∧ manager r' = manager r
            ∧ data_file r' = data_file r
            ∧ attempts (log r') = attempts (log r).
Proof.
  apply (trigger_deletes_record_whatever_submit binary64).
  - reflexivity.
  - apply NoDup_singleton.
  - apply list_elem_of_singleton. reflexivity.
  - vm_compute. reflexivity.
Defined.

(** A pass never raises, whatever the gateway sends. *)
Lemma monitor_and_execute_total `{PyFloat} self client disk_ok disk :
  is_Some (monitor_and_execute self client disk_ok disk).
Proof.
  destruct (get_all_positions client) as [positions|] eqn:Hread.
  - destruct (monitor_and_execute_read self client disk_ok disk positions Hread)
      as (_ & _ & r & _ & -> & _). eauto.
  - unfold monitor_and_execute. rewrite Hread. eauto.
Qed.

(** C6, as stated, fails: a LONG position reported with entry price 0 is
    not set aside; with extreme 110 and current 104 its trailing stop 104.5
    triggers and the closing order is submitted. *)
Lemma zero_entry_price_is_closed :
  (close_orders ∘ log <$>
     @monitor_and_execute binary64
       (default_manager {["AAPL"%string := record_of 110 LONG]})
       (gateway_of [position_of "AAPL" 10 0 104] (of_Z 0) (of_Z 0) (of_Z 0) true)
       true ∅)
  = Some [closing_order (position_of "AAPL" 10 0 104)]
  ∧ (close_orders ∘ log <$>
       @monitor_and_execute Q_float
         (default_manager {["AAPL"%string := record_of 110 LONG]})
         (gateway_of [position_of "AAPL" 10 0 104] (of_Z 0) (of_Z 0) (of_Z 0) true)
         true ∅)
    = Some [closing_order (position_of "AAPL" 10 0 104)].
Proof. split; reflexivity. Qed.

(** C6, amended: whatever the prices of the live positions, zero and
    negative ones included, a pass performs no division, does not raise,
    and evaluates every position by the same formulas: with one position
    per symbol, it submits a closing order exactly for the positions whose
    stop is triggered. *)
Theorem any_prices_are_evaluated :
  ∀ (N : PyFloat) (self : RiskManager) (client : Gateway) (disk_ok : bool)
    (disk : gmap string RiskRecord) (positions : list Position),
    get_all_positions client = Some positions →
    NoDup (symbol <$> positions) →
    ∃ r, monitor_and_execute self client disk_ok disk = Some r
      ∧ evaluated (log r) = symbol <$> positions
      ∧ ∀ o, o ∈ close_orders (log r) ↔
             ∃ position, position ∈ positions ∧ o = closing_order position
                         ∧ triggered (evaluation self (risk_data self) position) = true.
Proof.
  intros N self client disk_ok disk positions Hread Hnd.
  destruct (monitor_and_execute_read self client disk_ok disk positions Hread)
    as (rd' & l & r & E & Hr & _ & _ & Hl).
  exists r. split; [done|].
  assert (close_orders (log r) = close_orders l ∧ evaluated (log r) = evaluated l) as [Hc He].
  { rewrite Hl. destruct positions as [|p ps].
    - simpl in E. injection E as _ <-. by destruct disk_ok.
    - unfold evaluated. rewrite !close_orders_app, !omap_app.
      destruct disk_ok; simpl; by rewrite !app_nil_r. }
  split.
  - by rewrite He, (process_positions_evaluated _ _ _ _ _ _ E).
  - intros o. rewrite Hc. by apply (process_positions_closes _ _ _ _ _ _ _ Hnd E).
Qed.

(** A position with a negative entry price and one with entry price 0, in
    one pass. *)
Lemma any_prices_are_evaluated_witness :
  ∃ r, @monitor_and_execute Q_float (default_manager ∅)
         (gateway_of [position_of "AAPL" 10 0 104; position_of "TSLA" (-5) (-3) 20]
            (of_Z 0) (of_Z 0) (of_Z 0) true) true ∅ = Some r
    ∧ evaluated (log r)
      = symbol <$> [@position_of Q_float "AAPL" 10 0 104; position_of "TSLA" (-5) (-3) 20]
    ∧ ∀ o, o ∈ close_orders (log r) ↔
           ∃ position,
             position ∈ [@position_of Q_float "AAPL" 10 0 104; position_of "TSLA" (-5) (-3) 20]
             ∧ o = closing_order position
             ∧ triggered (evaluation (default_manager ∅)
                            (risk_data (@default_manager Q_float ∅)) position) = true.
Proof.
  apply (any_prices_are_evaluated Q_float).
  - reflexivity.
  - apply (bool_decide_unpack _). vm_compute. exact I.
Defined.

(** ** The extreme price across passes *)

(** A record that is there before and after a pass belongs to a live
    position that did not trigger, and holds what lines 98-120 left. *)
Lemma pass_tracks_record `{PyFloat} self client disk_ok disk positions r s r0 r1 :
  get_all_positions client = Some positions →
  NoDup (symbol <$> positions) →
  monitor_and_execute self client disk_ok disk = Some r →
  risk_data self !! s = Some r0 →
  risk_data (manager r) !! s = Some r1 →
  ∃ p, p ∈ positions ∧ symbol p = s
       ∧ record_side r1 = record_side r0
       ∧ extreme_price r1 =
           (if improves (is_long p) (current_price p) (extreme_price r0)
            then current_price p else extreme_price r0).
Proof.
  intros Hread Hnd Hr H0 H1.
  destruct (process_positions_total self client (risk_data self) positions) as [[rd' l] E].
  rewrite (pass_lookup _ _ _ _ _ _ _ _ s Hread E Hr) in H1.
  case_decide as Hs; [|done].
  apply list_elem_of_fmap in Hs as (p & -> & Hp).
  rewrite (process_positions_own _ _ _ _ _ _ _ Hnd Hp E) in H1.
  destruct (triggered _); [done|]. injection H1 as <-.
  exists p. split; [done|]. split; [done|].
  unfold tracked_record, tracked_extreme. rewrite H0. done.
Qed.

(** [improves long x y]: [x] is strictly more favourable than [y]. *)
Lemma improves_irrefl `{FloatOrder} (long : bool) (x : num) : improves long x x = false.
Proof. destruct long; apply fltb_irrefl. Qed.

Lemma improves_asym `{FloatOrder} (long : bool) (x y : num) :
  improves long x y = true → improves long y x = false.
Proof. destruct long; apply fltb_asym. Qed.

Lemma improves_trans `{FloatOrder} (long : bool) (x y z : num) :
  improves long y x = true → improves long z y = true → improves long z x = true.
Proof.
  destruct long; simpl; intros H1 H2.
  - by apply (fltb_trans x y z).
  - by apply (fltb_trans z y x).
Qed.

(** C5, as stated, fails: the side written in a record is never read
    again.  A symbol held long at 100 and found short at 90 by the next
    pass keeps its record, whose side is still LONG, and the extreme price
    of that record falls from 100 to 90. *)
Lemma long_record_extreme_falls :
  let self := @default_manager binary64 ∅ in
  let pass1 := (gateway_of [position_of "AAPL" 10 100 100]
                  (of_Z 0) (of_Z 0) (of_Z 0) true, true) in
  let pass2 := (gateway_of [position_of "AAPL" (-10) 100 90]
                  (of_Z 0) (of_Z 0) (of_Z 0) true, true) in
  extreme_after "AAPL" (run_passes self ∅ [pass1]) = Some 100%float
  ∧ side_after "AAPL" (run_passes self ∅ [pass1]) = Some LONG
  ∧ extreme_after "AAPL" (run_passes self ∅ [pass1; pass2]) = Some 90%float
  ∧ side_after "AAPL" (run_passes self ∅ [pass1; pass2]) = Some LONG
  ∧ (90 <? 100)%float = true.
Proof. cbv zeta. repeat split; vm_compute; reflexivity. Qed.

(** C5, amended: the direction in which a pass moves an extreme price is
    that of the live position's signed quantity, not of the side stored in
    the record.  Over any sequence of passes through which the record of a
    symbol survives while its position is reported long, the stored extreme
    price never decreases (never increases while it is reported short): it
    is either the initial one or the current price some pass read for that
    symbol, strictly more favourable than the initial one, and the initial
    one is never strictly more favourable than it; the stored side is
    unchanged.  The comparisons are those of the floats, for which only
    the laws [FloatOrder] are used. *)
Theorem extreme_price_follows_live_side :
  ∀ (N : PyFloat) (O : FloatOrder N) (long : bool) (s : string)
    (ticks : list (Gateway * bool))
    (self : RiskManager) (disk : gmap string RiskRecord) (r0 : RiskRecord),
    risk_data self !! s = Some r0 →
    held long s self disk ticks →
    ∃ rN, record_after s (run_passes self disk ticks) = Some rN
      ∧ record_side rN = record_side r0
      ∧ improves long (extreme_price r0) (extreme_price rN) = false
      ∧ (extreme_price rN = extreme_price r0
         ∨ ∃ tick positions p,
             tick ∈ ticks ∧ get_all_positions tick.1 = Some positions
             ∧ p ∈ positions ∧ symbol p = s
             ∧ extreme_price rN = current_price p
             ∧ improves long (current_price p) (extreme_price r0) = true).
Proof.
  intros N O long s ticks. induction ticks as [|[client disk_ok] rest IH];
    intros self disk r0 H0 Hheld.
  - exists r0. simpl. rewrite H0. split; [done|]. split; [done|].
    split; [apply improves_irrefl | by left].
  - cbn [held] in Hheld. destruct Hheld as [Hpos Hm].
    destruct (monitor_and_execute self client disk_ok disk) as [r|] eqn:Hr; [|done].
    destruct Hm as [[r1 H1] Hrest].
    assert (record_side r1 = record_side r0
            ∧ (extreme_price r1 = extreme_price r0
               ∨ ∃ positions p,
                   get_all_positions client = Some positions
                   ∧ p ∈ positions ∧ symbol p = s
                   ∧ extreme_price r1 = current_price p
                   ∧ improves long (current_price p) (extreme_price r0) = true))
      as [Hside Hstep].
    { destruct (get_all_positions client) as [positions|] eqn:Hread.
      - destruct (Hpos positions eq_refl) as [Hnd Hlong].
        destruct (pass_tracks_record _ _ _ _ _ _ _ _ _ Hread Hnd Hr H0 H1)
          as (p & Hp & Hsym & Hs & He).
        split; [done|]. rewrite (Hlong p Hp Hsym) in He.
        destruct (improves long (current_price p) (extreme_price r0)) eqn:Hi.
        + right. by exists positions, p.
        + by left.
      - unfold monitor_and_execute in Hr. rewrite Hread in Hr. injection Hr as <-.
        simpl in H1. rewrite H0 in H1. injection H1 as <-. split; [done|by left]. }
    destruct (IH (manager r) (data_file r) r1 H1 Hrest) as (rN & HN & HsideN & Hmono & Hfrom).
    exists rN. simpl. rewrite Hr. simpl.
    unfold record_after in HN.
    destruct (run_passes (manager r) (data_file r) rest) as [r2|] eqn:Hrun; [|done].
    simpl in *. split; [done|]. split; [congruence|].
    destruct Hstep as [Heq1|(positions & p & Hread & Hp & Hsym & He1 & Hlt)].
    + rewrite Heq1 in Hmono. split; [done|].
      destruct Hfrom as [HeqN|(tick & positions & p & Htick & Hread & Hp & Hsym & HeN & Hlt)].
      * left. congruence.
      * right. exists tick, positions, p. rewrite <- Heq1.
        split; [by right|]. done.
    + rewrite He1 in Hmono.
      destruct Hfrom as [HeqN|(tick & positions' & p' & Htick & Hread' & Hp' & Hsym' & HeN & Hlt')].
      * rewrite HeqN, He1. split; [by apply improves_asym|].
        right. exists (client, disk_ok), positions, p. split; [by left|]. done.
      * rewrite He1 in Hlt'.
        pose proof (improves_trans long _ _ _ Hlt Hlt') as Hlt0.
        rewrite HeN. split; [by apply improves_asym|].
        right. exists tick, positions', p'. split; [by right|]. done.
Qed.

(** The stops of a position depend on the manager through its two
    percentages and the record of the symbol. *)
Lemma evaluation_same `{PyFloat} (self self' : RiskManager)
    (rd rd' : gmap string RiskRecord) (p : Position) :
  trailing_pct self' = trailing_pct self →
  initial_stop_loss_pct self' = initial_stop_loss_pct self →
  rd' !! symbol p = rd !! symbol p →
  evaluation self' rd' p = evaluation self rd p.
Proof.
  intros Ht Hh Hl. rewrite (evaluation_ext self' rd' rd p Hl).
  unfold evaluation, stop_level. by rewrite Ht, Hh.
Qed.

(** One more pass through which the record of [s] survives. *)
Lemma held_cons `{PyFloat} (long : bool) (s : string) (self : RiskManager)
    (disk : gmap string RiskRecord) (client : Gateway) (disk_ok : bool)
    (rest : list (Gateway * bool)) (positions : list Position) (p : Position) :
  get_all_positions client = Some positions →
  NoDup (symbol <$> positions) →
  (∀ q, q ∈ positions → symbol q = s → is_long q = long) →
  p ∈ positions → symbol p = s →
  triggered (evaluation self (risk_data self) p) = false →
  (∀ self' disk',
     trailing_pct self' = trailing_pct self →
     initial_stop_loss_pct self' = initial_stop_loss_pct self →
     risk_data self' !! s = Some (tracked_record (risk_data self) p) →
     held long s self' disk' rest) →
  held long s self disk ((client, disk_ok) :: rest).
Proof.
  intros Hread Hnd Hlong Hp Hs Ht Hrest. cbn [held]. split.
  { rewrite Hread. by intros ? [= <-]. }
  destruct (monitor_and_execute_read self client disk_ok disk positions Hread)
    as (rd' & l & r & E & Hr & Hm & _).
  rewrite Hr.
  assert (risk_data (manager r) !! s = Some (tracked_record (risk_data self) p)) as Hl.
  { rewrite (pass_lookup _ _ _ _ _ _ _ _ s Hread E Hr).
    rewrite decide_True by (rewrite <- Hs; by apply list_elem_of_fmap_2).
    rewrite <- Hs, (process_positions_own _ _ _ _ _ _ _ Hnd Hp E). by rewrite Ht. }
  split; [by rewrite Hl|].
  apply Hrest; [by rewrite Hm| by rewrite Hm|done].
Qed.

(** A long position tracked from 100 through prices 105 and 103, in
    binary64. *)
Lemma extreme_price_follows_live_side_witness :
  ∃ rN, record_after "AAPL"
          (run_passes (@default_manager binary64 {["AAPL"%string := record_of 100 LONG]})
             ∅ rising_then_falling) = Some rN
    ∧ record_side rN = record_side (@record_of binary64 100 LONG)
    ∧ improves true (extreme_price (@record_of binary64 100 LONG)) (extreme_price rN) = false
    ∧ (extreme_price rN = extreme_price (@record_of binary64 100 LONG)
       ∨ ∃ tick positions p,
           tick ∈ @rising_then_falling binary64
           ∧ get_all_positions tick.1 = Some positions
           ∧ p ∈ positions ∧ symbol p = "AAPL"%string
           ∧ extreme_price rN = current_price p
           ∧ improves true (current_price p)
               (extreme_price (@record_of binary64 100 LONG)) = true).
Proof.
  apply (extreme_price_follows_live_side binary64 binary64_order true "AAPL"
           rising_then_falling
           (default_manager {["AAPL"%string := record_of 100 LONG]}) ∅ (record_of 100 LONG)).
  - reflexivity.
  - unfold rising_then_falling.
    apply (held_cons true "AAPL" _ _ _ _ _ [position_of "AAPL" 10 100 105]
             (position_of "AAPL" 10 100 105)).
    + reflexivity.
    + apply NoDup_singleton.
    + intros q ->%list_elem_of_singleton _. reflexivity.
    + by apply list_elem_of_singleton.
    + reflexivity.
    + reflexivity.
    + intros self' disk' Ht Hh Hl.
      apply (held_cons true "AAPL" _ _ _ _ _ [position_of "AAPL" 10 100 103]
               (position_of "AAPL" 10 100 103)).
      * reflexivity.
      * apply NoDup_singleton.
      * intros q ->%list_elem_of_singleton _. reflexivity.
      * by apply list_elem_of_singleton.
      * reflexivity.
      * rewrite (evaluation_same
                   (default_manager {["AAPL"%string := record_of 100 LONG]}) self'
                   {["AAPL"%string :=
                       tracked_record {["AAPL"%string := record_of 100 LONG]}
                         (position_of "AAPL" 10 100 105)]}
                   (risk_data self') (position_of "AAPL" 10 100 103) Ht Hh).
        -- reflexivity.
        -- etrans; [exact Hl|]. symmetry. apply lookup_singleton_eq.
      * intros self'' disk'' _ _ _. exact I.
Defined.

(** ** The loop over the decisions *)

Section BatchFacts.
Context `{PyFloat}.

(** Running a batch in two parts: the second part runs only if the first
    did not raise. *)
Lemma execute_items_app self client pf (before after : list (string * Decision)) :
  execute_items self client pf (before ++ after) =
  match raised (execute_items self client pf before) with
  | Some e => {| events := events (execute_items self client pf before);
                 raised := Some e |}
  | None => {| events := events (execute_items self client pf before)
                         ++ events (execute_items self client pf after);
               raised := raised (execute_items self client pf after) |}
  end.
Proof.
  induction before as [|[t d] before IH]; simpl.
  - by destruct (execute_items self client pf after).
  - destruct (execute_decision self client pf t d) as [e|evs]; simpl; [done|].
    rewrite IH. destruct (raised (execute_items self client pf before)); simpl; [done|].
    by rewrite app_assoc.
Qed.


End BatchFacts.



(** C9, as stated, fails: [int(...)] of the quantity is outside every
    [try].  A batch whose first item has the quantity ["abc"] raises
    [ValueError] out of [execute_decisions]; the well-formed BUY after it,
    which alone is submitted for 180 shares, is never reached. *)
Lemma malformed_quantity_aborts_batch :
  let client := @gateway_of binary64 [] (of_Z 10000) (of_Z 50) (of_Z 50) true in
  let bad := ("AAPL"%string, @decision_of binary64 "BUY" (VStr "abc")) in
  let good := ("MSFT"%string, @decision_of binary64 "BUY" (VInt 1000)) in
  raised (execute_decisions default_trader client [bad; good]) = Some ValueError
  ∧ submitted (events (execute_decisions default_trader client [bad; good])) = []
  ∧ submitted (events (execute_decisions default_trader client [good]))
    = [{| order_symbol := "MSFT"; order_qty := VInt 180;
          order_side := BUY; time_in_force := DAY |}].
Proof. cbv zeta. repeat split; reflexivity. Qed.

(** C9, amended: a decision whose quantity is a string that [int] cannot
    read makes [execute_decisions] raise [ValueError] at that item: what
    the items before it printed and submitted stands, the item and those
    after it are not processed, and the exception escapes the call. *)
Theorem malformed_quantity_raises :
  ∀ (N : PyFloat) (self : AlpacaTrader) (client : Gateway)
    (before after : list (string * Decision)) (ticker : string) (decision : Decision)
    (a s : string),
    raised (execute_decisions self client before) = None →
    default (VStr "") (action decision) = VStr a →
    quantity decision = Some (VStr s) →
    int_of_string s = None →
    execute_decisions self client (before ++ (ticker, decision) :: after)
    = {| events := events (execute_decisions self client before);
         raised := Some ValueError |}.
Proof.
  intros N self client before after ticker decision a s Hbefore Ha Hq Hs.
  unfold execute_decisions in *.
  destruct (get_live_portfolio client) as [e|pf]; [done|].
  rewrite execute_items_app, Hbefore. simpl.
  unfold execute_decision. rewrite Ha, Hq. simpl. rewrite Hs. simpl.
  by rewrite app_nil_r.
Qed.

(** A well-formed BUY, then a quantity ["ten"], then another BUY. *)
Lemma malformed_quantity_raises_witness :
  @execute_decisions binary64 default_trader
    (gateway_of [] (of_Z 10000) (of_Z 50) (of_Z 50) true)
    ([("MSFT"%string, decision_of "BUY" (VInt 1000))]
       ++ ("AAPL"%string, decision_of "BUY" (VStr "ten"))
       :: [("GOOG"%string, decision_of "BUY" (VInt 5))])
  = {| events := events (@execute_decisions binary64 default_trader
                           (gateway_of [] (of_Z 10000) (of_Z 50) (of_Z 50) true)
                           [("MSFT"%string, decision_of "BUY" (VInt 1000))]);
       raised := Some ValueError |}.
Proof.
  apply (malformed_quantity_raises binary64) with (a := "BUY"%string) (s := "ten"%string);
    reflexivity.
Defined.

(** ** COVER against the portfolio of [get_live_portfolio] *)

(** C2: the code at the failing input.  The gateway reports a short
    position of 10 TSLA as the quantity -10; [get_live_portfolio] stores
    -10 under ["short"], the test [short_qty <= 0] of COVER succeeds, and
    the COVER of 5 shares is rejected for want of a short position; no
    order is submitted. *)
Theorem cover_of_live_short_is_rejected :
  let client := @gateway_of binary64 [position_of "TSLA" (-10) 200 180]
                  (of_Z 10000) (of_Z 180) (of_Z 180) true in
  execute_decisions default_trader client [("TSLA"%string, decision_of "COVER" (VInt 5))]
  = {| events := [PrintRejected "TSLA" "COVER" NoShortPosition]; raised := None |}
  ∧ submitted (events (execute_decisions default_trader client
                         [("TSLA"%string, decision_of "COVER" (VInt 5))])) = []
  ∧ reported_short client "TSLA" = Some (-10)%float.
Proof. cbv zeta. repeat split; reflexivity. Qed.

(** ** Exact arithmetic: division and truncation *)

Lemma Q_py_div (x y : Q) : ¬ (y == 0)%Q → @py_div Q_float x y = ok (x / y)%Q.
Proof.
  intros Hy. unfold py_div.
  destruct (@feqb Q_float y (of_Z 0)) eqn:E; [|reflexivity].
  apply Q_feqb in E. contradiction.
Qed.

(** [int(x)] truncates toward zero, which is the floor of a non-negative
    [x]. *)
Lemma Qtrunc_floor (x : Q) : (0 <= x)%Q → Qtrunc x = Qfloor x.
Proof.
  destruct x as [n d]. unfold Qle, Qtrunc, Qfloor. simpl. intros Hn.
  apply Z.quot_div_nonneg; lia.
Qed.

(** ** BUY sizing *)

Section BuySizing.
Context `{PyFloat}.

(** The guard [if rt_price:] is the test that makes the division raise. *)
Lemma py_div_truthy (x y : num) : truthy y = true → py_div x y = ok (x / y)%num.
Proof. unfold truthy, py_div. by intros ->%negb_true_iff. Qed.

(** The BUY branch of the chain when no short position is seen: the
    quantity of the spec's sizing, or its exception. *)
Lemma safety_check_buy self client cash_ long_qty short_qty ticker requested :
  (short_qty >? of_Z 0)%num = false →
  let live_price := get_realtime_price client ticker in
  match (if truthy live_price
         then spec_buy_quantity cash_ (buffer_pct self) live_price requested
         else scaled_quantity (buffer_pct self) requested) with
  | inl e =>
      safety_check self client cash_ long_qty short_qty ticker "BUY" requested = raise e
  | inr n =>
      ∃ log0, safety_check self client cash_ long_qty short_qty ticker "BUY" requested
              = ok (Some BUY, None, n, log0)
              ∧ submitted log0 = []
  end.
Proof.
  intros Hshort live_price. unfold safety_check. simpl String.eqb. cbv iota.
  fold live_price. rewrite Hshort.
  destruct (truthy live_price) eqn:Et.
  - rewrite (py_div_truthy _ _ Et).
    unfold spec_buy_quantity, scaled_quantity, bind, ok, raise.
    destruct (int_of_float _) as [e|bound]; [reflexivity|].
    destruct (requested >? bound);
      (destruct (int_mul_float _ _) as [e|scaled]; [reflexivity|];
       destruct (int_of_float scaled) as [e|n]; [reflexivity|];
       eexists; split; reflexivity).
  - unfold scaled_quantity, bind, ok, raise.
    destruct (int_mul_float _ _) as [e|scaled]; [reflexivity|].
    destruct (int_of_float scaled) as [e|n]; [reflexivity|].
    eexists; split; reflexivity.
Qed.

(** A BUY of a positive quantity while no short position is seen: the
    item raises what the sizing raises, or hands one BUY order of the sized
    quantity to the gateway. *)
Lemma execute_decision_buy self client pf ticker decision requested :
  py_upper (default (VStr "") (action decision)) = ok "BUY"%string →
  py_int (default (VInt 0) (quantity decision)) = ok requested →
  0 < requested →
  (match positions pf !! ticker with
   | Some h => short h | None => of_Z 0 end >? of_Z 0)%num = false →
  let live_price := get_realtime_price client ticker in
  match (if truthy live_price
         then spec_buy_quantity (cash pf) (buffer_pct self) live_price requested
         else scaled_quantity (buffer_pct self) requested) with
  | inl e => execute_decision self client pf ticker decision = raise e
  | inr n =>
      let order_data := {| order_symbol := ticker; order_qty := VInt n;
                           order_side := BUY; time_in_force := DAY |} in
      ∃ log0,
        execute_decision self client pf ticker decision
        = ok (log0 ++ [PrintOrder ticker n BUY;
                       if submit_order client order_data
                       then PrintSuccess order_data "BUY"
                       else PrintFailure order_data "BUY"])
        ∧ submitted log0 = []
  end.
Proof.
  intros Ha Hq Hreq Hshort live_price.
  pose proof (safety_check_buy self client (cash pf)
                (match positions pf !! ticker with Some h => long h | None => of_Z 0 end)
                _ ticker requested Hshort) as Hcheck.
  cbv zeta in Hcheck. fold live_price in Hcheck.
  unfold execute_decision. rewrite Ha, Hq. simpl.
  replace (requested <=? 0) with false by (symmetry; apply Z.leb_gt; lia). simpl.
  destruct (if truthy live_price then _ else _) as [e|n].
  - by rewrite Hcheck.
  - destruct Hcheck as (log0 & -> & Hlog). simpl. by exists log0.
Qed.

(** The same, with the verdict of the gateway left open. *)
Lemma execute_decision_buy_order self client pf ticker decision requested :
  py_upper (default (VStr "") (action decision)) = ok "BUY"%string →
  py_int (default (VInt 0) (quantity decision)) = ok requested →
  0 < requested →
  (match positions pf !! ticker with
   | Some h => short h | None => of_Z 0 end >? of_Z 0)%num = false →
  let live_price := get_realtime_price client ticker in
  match (if truthy live_price
         then spec_buy_quantity (cash pf) (buffer_pct self) live_price requested
         else scaled_quantity (buffer_pct self) requested) with
  | inl e => execute_decision self client pf ticker decision = raise e
  | inr n =>
      ∃ log0 verdict,
        execute_decision self client pf ticker decision
        = ok (log0 ++ [PrintOrder ticker n BUY; verdict])
        ∧ submitted (log0 ++ [PrintOrder ticker n BUY; verdict])
          = [{| order_symbol := ticker; order_qty := VInt n;
                order_side := BUY; time_in_force := DAY |}]
  end.
Proof.
  intros Ha Hq Hreq Hshort live_price.
  pose proof (execute_decision_buy self client pf ticker decision requested
                Ha Hq Hreq Hshort) as Hbuy.
  cbv zeta in Hbuy. fold live_price in Hbuy.
  destruct (if truthy live_price then _ else _) as [e|n]; [done|].
  destruct Hbuy as (log0 & Hrun & Hlog).
  eexists log0, _. split; [exact Hrun|].
  unfold submitted in *. rewrite omap_app, Hlog. simpl.
  by destruct (submit_order client _).
Qed.

End BuySizing.




(** ** COVER never passes while shorts are reported negative *)

(** Every ["short"] entry of the snapshot is the signed quantity of a short
    position or 0. *)
Lemma Q_snapshot_short (client : @Gateway Q_float) (pf : Portfolio) :
  (∀ positions pos, get_all_positions client = Some positions → pos ∈ positions →
     side pos = PosShort → (qty pos < 0)%Q) →
  get_live_portfolio client = ok pf →
  ∀ ticker h, positions pf !! ticker = Some h → (short h <= 0)%Q.
Proof.
  intros Hneg. unfold get_live_portfolio.
  destruct (get_account client) as [account|]; [|done].
  destruct (get_all_positions client) as [ps|] eqn:Hread; [|done].
  intros [= <-]. simpl.
  specialize (Hneg ps). 
  assert (∀ pos, pos ∈ ps → side pos = PosShort → (qty pos < 0)%Q) as Hps
    by (intros pos; by apply Hneg).
  clear Hneg Hread.
  assert (∀ (m : gmap string (@Holding Q_float)),
            (∀ ticker h, m !! ticker = Some h → (short h <= 0)%Q) →
            ∀ ticker h,
              foldl (λ m pos,
                       <[symbol pos :=
                           {| long := match side pos with
                                      | PosLong => qty pos | PosShort => of_Z 0 end;
                              short := match side pos with
                                       | PosShort => qty pos | PosLong => of_Z 0 end |}]> m)
                    m ps !! ticker = Some h → (short h <= 0)%Q) as Hfold.
  { induction ps as [|pos ps IH]; intros m Hm ticker h; simpl; [by apply Hm|].
    apply IH.
    - intros p Hp. apply Hps. by right.
    - intros t h'. destruct (decide (symbol pos = t)) as [<-|Hne].
      + rewrite lookup_insert_eq. intros [= <-]. simpl.
        destruct (side pos) eqn:Hside; [apply Qle_refl|].
        apply Qlt_le_weak. apply Hps; [by left|done].
      + rewrite lookup_insert_ne by done. apply Hm. }
  apply Hfold. intros ticker h. by rewrite lookup_empty.
Qed.

(** Under the gateway's convention (a short position has a negative
    quantity) no COVER can pass the test of line 137: every COVER with a
    positive quantity is rejected for want of a short position. *)
Lemma Q_cover_is_always_rejected (self : @AlpacaTrader Q_float) (client : Gateway)
    (pf : Portfolio) (ticker : string) (decision : Decision) (requested : Z) :
  (∀ positions pos, get_all_positions client = Some positions → pos ∈ positions →
     side pos = PosShort → (qty pos < 0)%Q) →
  get_live_portfolio client = ok pf →
  py_upper (default (VStr "") (action decision)) = ok "COVER"%string →
  py_int (default (VInt 0) (quantity decision)) = ok requested →
  0 < requested →
  execute_decision self client pf ticker decision
  = ok [PrintRejected ticker "COVER" NoShortPosition].
Proof.
  intros Hneg Hpf Ha Hq Hreq.
  pose proof (Q_snapshot_short client pf Hneg Hpf ticker) as Hshort.
  unfold execute_decision. rewrite Ha, Hq. simpl.
  replace (requested <=? 0) with false by (symmetry; apply Z.leb_gt; lia). simpl.
  assert (∀ long_qty short_qty, (short_qty <= 0)%Q →
            safety_check self client (cash pf) long_qty short_qty ticker "COVER" requested
            = ok (None, Some NoShortPosition, requested, [])) as Hcheck.
  { intros long_qty short_qty Hle.
    assert (@fleb Q_float short_qty (of_Z 0) = true) as Hb by (by apply Q_fleb).
    unfold safety_check. simpl String.eqb. cbv iota. by rewrite Hb. }
  rewrite Hcheck; [reflexivity|].
  destruct (positions pf !! ticker) as [h|]; [by apply Hshort|apply Qle_refl].
Qed.

(** * Further properties *)

(** ** Orders of a batch *)

Section BatchOrders.
Context `{PyFloat}.

Lemma submitted_app (l1 l2 : list ExecEvent) :
  submitted (l1 ++ l2) = submitted l1 ++ submitted l2.
Proof. apply omap_app. Qed.

Lemma exec_attempts_app (l1 l2 : list ExecEvent) :
  exec_attempts (l1 ++ l2) = exec_attempts l1 ++ exec_attempts l2.
Proof. apply fmap_app. Qed.

(** The chain prints at most a quantity adjustment, and a side always comes
    without a reason. *)
Lemma safety_check_shape self client cash_ long_qty short_qty ticker act q side_ reason n l :
  safety_check self client cash_ long_qty short_qty ticker act q = ok (side_, reason, n, l) →
  submitted l = []
  ∧ match side_ with
    | Some BUY => reason = None ∧ (act = "BUY" ∨ act = "COVER")%string
    | Some SELL => reason = None ∧ (act = "SHORT" ∨ act = "SELL")%string
    | None => True
    end.
Proof.
  unfold safety_check.
  destruct (String.eqb_spec act "BUY") as [->|?].
  { destruct (truthy _).
    - destruct (py_div _ _) as [?|ratio]; [done|]. simpl.
      destruct (int_of_float ratio) as [?|max_qty]; [done|]. simpl.
      destruct (q >? max_qty); simpl; destruct (fltb _ _);
        try (intros [= <- <- <- <-]; by auto);
        (destruct (int_mul_float _ _); [done|]; simpl;
         destruct (int_of_float _); [done|]; intros [= <- <- <- <-]; by auto).
    - simpl. destruct (fltb _ _); [intros [= <- <- <- <-]; by auto|].
      destruct (int_mul_float _ _); [done|]. simpl.
      destruct (int_of_float _); [done|]. intros [= <- <- <- <-]. by auto. }
  destruct (String.eqb_spec act "SHORT") as [->|?].
  { destruct (fltb _ _); intros [= <- <- <- <-]; by auto. }
  destruct (String.eqb_spec act "SELL") as [->|?].
  { destruct (fleb _ _); [intros [= <- <- <- <-]; by auto|].
    destruct (int_of_float _); [done|]. intros [= <- <- <- <-]. by auto. }
  destruct (String.eqb_spec act "COVER") as [->|?].
  { destruct (fleb _ _); [intros [= <- <- <- <-]; by auto|].
    destruct (int_of_float _); [done|]. simpl.
    destruct (int_mul_float _ _); [done|]. simpl.
    destruct (int_of_float _); [done|]. intros [= <- <- <- <-]. by auto. }
  intros [= <- <- <- <-]. by auto.
Qed.

(** An item hands at most one order to [submit_order]: a DAY market order
    for the item's own ticker, with an integer quantity, bought for BUY and
    COVER and sold for SELL and SHORT. *)
Lemma execute_decision_orders self client pf ticker decision evs o :
  execute_decision self client pf ticker decision = ok evs →
  o ∈ submitted evs →
  submitted evs = [o]
  ∧ order_symbol o = ticker ∧ time_in_force o = DAY
  ∧ (∃ n, order_qty o = VInt n)
  ∧ ∃ act, py_upper (default (VStr "") (action decision)) = ok act
           ∧ match order_side o with
             | BUY => act = "BUY" ∨ act = "COVER"
             | SELL => act = "SHORT" ∨ act = "SELL"
             end%string.
Proof.
  unfold execute_decision.
  destruct (py_upper _) as [?|act]; [done|]. simpl.
  destruct (py_int _) as [?|q]; [done|]. simpl.
  destruct (_ || _); [intros [= <-] Ho; by apply elem_of_nil in Ho|].
  destruct (safety_check _ _ _ _ _ _ _ _) as [?|[[[side_ reason] n] l]] eqn:Hc; [done|].
  simpl. apply safety_check_shape in Hc as [Hl Hside].
  destruct reason as [reason|].
  { intros [= <-]. rewrite submitted_app, Hl. simpl. by intros ?%elem_of_nil. }
  destruct side_ as [sd|].
  - intros [= <-]. rewrite submitted_app, Hl.
    destruct (submit_order client _); simpl;
      (intros ->%list_elem_of_singleton; simpl;
       split; [done|]; split; [done|]; split; [done|]; split; [by eexists|];
       exists act; split; [done|]; destruct sd; by destruct Hside).
  - intros [= <-]. rewrite Hl. by intros ?%elem_of_nil.
Qed.

End BatchOrders.

Section BatchLevel.
Context `{PyFloat}.

Lemma execute_items_orders self client pf ds o :
  o ∈ submitted (events (execute_items self client pf ds)) →
  ∃ ticker decision evs,
    (ticker, decision) ∈ ds
    ∧ execute_decision self client pf ticker decision = ok evs
    ∧ o ∈ submitted evs.
Proof.
  induction ds as [|[t d] ds IH]; simpl.
  - by intros ?%elem_of_nil.
  - destruct (execute_decision self client pf t d) as [e|evs] eqn:E; simpl.
    + by intros ?%elem_of_nil.
    + rewrite submitted_app, elem_of_app. intros [Ho|Ho].
      * exists t, d, evs. split; [by left|done].
      * destruct (IH Ho) as (t' & d' & evs' & Hin & E' & Ho').
        exists t', d', evs'. split; [by right|done].
Qed.

Lemma execute_items_order_count self client pf ds :
  (length (submitted (events (execute_items self client pf ds))) ≤ length ds)%nat.
Proof.
  induction ds as [|[t d] ds IH]; simpl; [done|].
  destruct (execute_decision self client pf t d) as [e|evs] eqn:E; simpl; [lia|].
  rewrite submitted_app, length_app.
  assert (length (submitted evs) ≤ 1)%nat; [|lia].
  destruct (submitted evs) as [|o l] eqn:Hs; simpl; [lia|].
  destruct (execute_decision_orders _ _ _ _ _ _ o E) as [Hone _].
  { rewrite Hs. by left. }
  rewrite Hs in Hone. injection Hone as ->. simpl. lia.
Qed.

(** The reads being the same, the price is the same. *)
Lemma get_realtime_price_same_reads client client' ticker :
  same_reads client client' →
  get_realtime_price client ticker = get_realtime_price client' ticker.
Proof.
  intros (_ & _ & Hq & Ht). unfold get_realtime_price. by rewrite Hq, Ht.
Qed.

Lemma safety_check_same_reads self client client' cash_ long_qty short_qty ticker act q :
  same_reads client client' →
  safety_check self client cash_ long_qty short_qty ticker act q
  = safety_check self client' cash_ long_qty short_qty ticker act q.
Proof.
  intros Hsame. unfold safety_check.
  by rewrite (get_realtime_price_same_reads _ _ ticker Hsame).
Qed.

Lemma execute_decision_same_reads self client client' pf ticker decision :
  same_reads client client' →
  match execute_decision self client pf ticker decision,
        execute_decision self client' pf ticker decision with
  | inl e, inl e' => e = e'
  | inr evs, inr evs' =>
      exec_attempts evs = exec_attempts evs' ∧ submitted evs = submitted evs'
  | _, _ => False
  end.
Proof.
  intros Hsame. unfold execute_decision.
  destruct (py_upper _) as [?|act]; [done|]. simpl.
  destruct (py_int _) as [?|q]; [done|]. simpl.
  destruct (_ || _); [done|].
  rewrite (safety_check_same_reads self client client' _ _ _ _ _ _ Hsame).
  destruct (safety_check _ _ _ _ _ _ _ _) as [?|[[[side_ reason] n] l]]; [done|]. simpl.
  destruct reason; [done|]. destruct side_ as [sd|]; [|done].
  destruct (submit_order client _), (submit_order client' _);
    unfold ok; cbv iota beta; unfold exec_attempts, submitted;
    by rewrite !fmap_app, !omap_app.
Qed.

Lemma execute_items_same_reads self client client' pf ds :
  same_reads client client' →
  raised (execute_items self client pf ds) = raised (execute_items self client' pf ds)
  ∧ exec_attempts (events (execute_items self client pf ds))
    = exec_attempts (events (execute_items self client' pf ds))
  ∧ submitted (events (execute_items self client pf ds))
    = submitted (events (execute_items self client' pf ds)).
Proof.
  intros Hsame. induction ds as [|[t d] ds (IHr & IHa & IHs)]; simpl; [done|].
  pose proof (execute_decision_same_reads self client client' pf t d Hsame) as Hd.
  destruct (execute_decision self client pf t d) as [e|evs],
           (execute_decision self client' pf t d) as [e'|evs']; try done.
  - by subst.
  - destruct Hd as [Ha Hs]. simpl.
    by rewrite !exec_attempts_app, !submitted_app, Ha, Hs, IHa, IHs.
Qed.

End BatchLevel.

(** X1: every order [execute_decisions] hands to the gateway is a DAY
    market order with an integer quantity for the ticker of an item of the
    batch, bought when the item's action is BUY or COVER and sold when it is
    SELL or SHORT; and there are at most as many orders as items. *)
Theorem batch_orders_come_from_items :
  ∀ (N : PyFloat) (self : AlpacaTrader) (client : Gateway)
    (decisions : list (string * Decision)) (o : MarketOrderRequest),
    o ∈ submitted (events (execute_decisions self client decisions)) →
    time_in_force o = DAY
    ∧ (∃ n, order_qty o = VInt n)
    ∧ (∃ decision act,
         (order_symbol o, decision) ∈ decisions
         ∧ py_upper (default (VStr "") (action decision)) = ok act
         ∧ match order_side o with
           | BUY => act = "BUY" ∨ act = "COVER"
           | SELL => act = "SHORT" ∨ act = "SELL"
           end%string)
    ∧ (length (submitted (events (execute_decisions self client decisions)))
       ≤ length decisions)%nat.
Proof.
  intros N self client decisions o. unfold execute_decisions.
  destruct (get_live_portfolio client) as [e|pf]; simpl.
  { by intros ?%elem_of_nil. }
  intros Ho. destruct (execute_items_orders _ _ _ _ _ Ho) as (t & d & evs & Hin & E & Ho').
  destruct (execute_decision_orders _ _ _ _ _ _ _ E Ho')
    as (_ & <- & Hday & Hqty & act & Hact & Hside).
  split; [done|]. split; [done|]. split; [by exists d, act|].
  apply execute_items_order_count.
Qed.

(** The order of Scenario 3. *)
Lemma batch_orders_come_from_items_witness :
  let o := {| order_symbol := "MSFT"; order_qty := @VInt Q_float 180;
              order_side := BUY; time_in_force := DAY |} in
  let decisions := [("MSFT"%string, @decision_of Q_float "BUY" (VInt 1000))] in
  let client := @gateway_of Q_float [] (of_Z 10000) (of_Z 50) (of_Z 50) true in
  time_in_force o = DAY
  ∧ (∃ n, order_qty o = VInt n)
  ∧ (∃ decision act,
       (order_symbol o, decision) ∈ decisions
       ∧ py_upper (default (VStr "") (action decision)) = ok act
       ∧ match order_side o with
         | BUY => act = "BUY" ∨ act = "COVER"
         | SELL => act = "SHORT" ∨ act = "SELL"
         end%string)
  ∧ (length (submitted (events (execute_decisions default_trader client decisions)))
     ≤ length decisions)%nat.
Proof.
  cbv zeta. apply (batch_orders_come_from_items Q_float).
  apply list_elem_of_singleton. reflexivity.
Defined.

(** X2: whether [submit_order] accepts or raises changes nothing but the
    verdict printed for that order: against two gateways that answer every
    read alike, [execute_decisions] raises the same, attempts the same
    orders in the same order, and prints the same otherwise. *)
Theorem submit_outcome_is_confined :
  ∀ (N : PyFloat) (self : AlpacaTrader) (client client' : Gateway)
    (decisions : list (string * Decision)),
    same_reads client client' →
    raised (execute_decisions self client decisions)
    = raised (execute_decisions self client' decisions)
    ∧ exec_attempts (events (execute_decisions self client decisions))
      = exec_attempts (events (execute_decisions self client' decisions))
    ∧ submitted (events (execute_decisions self client decisions))
      = submitted (events (execute_decisions self client' decisions)).
Proof.
  intros N self client client' decisions Hsame. unfold execute_decisions.
  assert (get_live_portfolio client = get_live_portfolio client') as <-.
  { destruct Hsame as (Hp & Ha & _). unfold get_live_portfolio. by rewrite Hp, Ha. }
  destruct (get_live_portfolio client) as [e|pf]; [done|].
  by apply execute_items_same_reads.
Qed.

(** A gateway that accepts every order and one that refuses every order. *)
Lemma submit_outcome_is_confined_witness :
  let decisions := [("MSFT"%string, @decision_of Q_float "BUY" (VInt 1000));
                    ("GOOG"%string, decision_of "SHORT" (VInt 30))] in
  let client := @gateway_of Q_float [] (of_Z 10000) (of_Z 50) (of_Z 50) true in
  let client' := @gateway_of Q_float [] (of_Z 10000) (of_Z 50) (of_Z 50) false in
  raised (execute_decisions default_trader client decisions)
  = raised (execute_decisions default_trader client' decisions)
  ∧ exec_attempts (events (execute_decisions default_trader client decisions))
    = exec_attempts (events (execute_decisions default_trader client' decisions))
  ∧ submitted (events (execute_decisions default_trader client decisions))
    = submitted (events (execute_decisions default_trader client' decisions)).
Proof.
  cbv zeta. apply (submit_outcome_is_confined Q_float).
  repeat split.
Defined.

(** ** What [execute_decisions] can raise *)

Section Raises.
Context `{PyFloat}.

Lemma int_of_float_raises (x : num) (e : pyexn) :
  int_of_float x = raise e → e = ValueError ∨ e = OverflowError.
Proof.
  unfold int_of_float. destruct (trunc x); [done|].
  destruct (is_nan x); intros [= <-]; by auto.
Qed.

Lemma int_mul_float_raises (q : Z) (x : num) (e : pyexn) :
  int_mul_float q x = raise e → e = ValueError ∨ e = OverflowError.
Proof.
  unfold int_mul_float. destruct (of_int q); [done|]. intros [= <-]. by right.
Qed.

(** The division of line 107 is guarded by [if rt_price:], the same test
    of zero that makes a float division raise. *)
Lemma safety_check_raises self client cash_ long_qty short_qty ticker act q e :
  safety_check self client cash_ long_qty short_qty ticker act q = raise e →
  e = ValueError ∨ e = OverflowError.
Proof.
  assert (∀ n x, (let* scaled := int_mul_float n x in
                  let* quantity := int_of_float scaled in
                  ok (Some BUY, @None SkipReason, quantity, @nil ExecEvent)) = raise e →
                 e = ValueError ∨ e = OverflowError) as Hscale.
  { intros n x. destruct (int_mul_float n x) as [e1|y] eqn:E1; simpl.
    - intros [= <-]. by apply int_mul_float_raises in E1.
    - destruct (int_of_float y) as [e2|z] eqn:E2; simpl; [|done].
      intros [= <-]. by apply int_of_float_raises in E2. }
  assert (∀ n x (l : list ExecEvent),
            (let* scaled := int_mul_float n x in
             let* quantity := int_of_float scaled in
             ok (Some BUY, @None SkipReason, quantity, l)) = raise e →
            e = ValueError ∨ e = OverflowError) as Hscale'.
  { intros n x l. destruct (int_mul_float n x) as [e1|y] eqn:E1; simpl.
    - intros [= <-]. by apply int_mul_float_raises in E1.
    - destruct (int_of_float y) as [e2|z] eqn:E2; simpl; [|done].
      intros [= <-]. by apply int_of_float_raises in E2. }
  unfold safety_check, py_div, truthy.
  destruct (String.eqb act "BUY").
  { destruct (feqb (get_realtime_price client ticker) (of_Z 0)); simpl.
    - destruct (fltb _ _); [done|]. apply Hscale'.
    - destruct (int_of_float _) as [e1|max_qty] eqn:E1; simpl.
      { intros [= <-]. by apply int_of_float_raises in E1. }
      destruct (q >? max_qty); simpl; (destruct (fltb _ _); [done|]); apply Hscale'. }
  destruct (String.eqb act "SHORT"); [by destruct (fltb _ _)|].
  destruct (String.eqb act "SELL").
  { destruct (fleb _ _); [done|].
    destruct (int_of_float _) as [e1|held] eqn:E1; simpl; [|done].
    intros [= <-]. by apply int_of_float_raises in E1. }
  destruct (String.eqb act "COVER"); [|done].
  destruct (fleb _ _); [done|].
  destruct (int_of_float _) as [e1|held] eqn:E1; simpl.
  { intros [= <-]. by apply int_of_float_raises in E1. }
  apply Hscale'.
Qed.

Lemma execute_decision_raises self client pf ticker decision e :
  execute_decision self client pf ticker decision = raise e →
  e = AttributeError ∨ e = TypeError ∨ e = ValueError ∨ e = OverflowError.
Proof.
  unfold execute_decision.
  destruct (py_upper _) as [e1|act] eqn:Hu; simpl.
  { intros [= <-]. left. unfold py_upper, raise, ok in Hu.
    destruct (default (VStr _) _); congruence. }
  destruct (py_int _) as [e2|q] eqn:Hi; simpl.
  { intros [= <-]. right. unfold py_int in Hi.
    destruct (default (VInt 0) _) as [|z|x|s].
    - left. unfold raise in Hi. congruence.
    - discriminate Hi.
    - right. by apply int_of_float_raises in Hi.
    - destruct (int_of_string s); [discriminate Hi|]. right; left.
      unfold raise in Hi. congruence. }
  destruct (_ || _); [done|].
  destruct (safety_check _ _ _ _ _ _ _ _) as [e3|[[[side_ reason] n] l]] eqn:Hc; simpl.
  { intros [= <-]. right; right. by apply safety_check_raises in Hc. }
  destruct reason; [done|]. by destruct side_.
Qed.

Lemma execute_items_raises self client pf ds e :
  raised (execute_items self client pf ds) = Some e →
  e = AttributeError ∨ e = TypeError ∨ e = ValueError ∨ e = OverflowError.
Proof.
  induction ds as [|[t d] ds IH]; simpl; [done|].
  destruct (execute_decision self client pf t d) as [e1|evs] eqn:E; simpl.
  - intros [= <-]. by apply execute_decision_raises in E.
  - done.
Qed.

End Raises.

(** X3: an exception that escapes [execute_decisions] is the failure of the
    portfolio read, an [AttributeError] of an action that is not a string,
    a [TypeError] or [ValueError] of a quantity that [int] cannot read, a
    [ValueError] of the [int] of a NaN, or an [OverflowError] of the [int]
    of an infinity or of an int too large to be multiplied by a float; the
    guarded division of the BUY sizing never raises [ZeroDivisionError],
    and no dictionary access raises [KeyError]. *)
Theorem execute_decisions_exceptions :
  ∀ (N : PyFloat) (self : AlpacaTrader) (client : Gateway)
    (decisions : list (string * Decision)) (e : pyexn),
    raised (execute_decisions self client decisions) = Some e →
    e ∈ [GatewayError; AttributeError; TypeError; ValueError; OverflowError]
    ∧ e ≠ ZeroDivisionError ∧ e ≠ KeyError
    ∧ (e = GatewayError ↔ get_account client = None ∨ get_all_positions client = None).
Proof.
  intros N self client decisions e. unfold execute_decisions, get_live_portfolio.
  assert (∀ e', (e' = GatewayError ∨ e' = AttributeError ∨ e' = TypeError
                 ∨ e' = ValueError ∨ e' = OverflowError) →
            e' ∈ [GatewayError; AttributeError; TypeError; ValueError; OverflowError]
            ∧ e' ≠ ZeroDivisionError ∧ e' ≠ KeyError) as Hset.
  { intros e' He'. rewrite !elem_of_cons.
    destruct He' as [-> | [-> | [-> | [-> | ->]]]]; (split; [by auto 7|]); by split. }
  destruct (get_account client) as [account|]; simpl.
  - destruct (get_all_positions client) as [ps|]; simpl.
    + intros He%execute_items_raises.
      destruct (Hset e) as (Hin & Hz & Hk); [by auto|].
      split; [done|]. split; [done|]. split; [done|]. split.
      * intros ->. by destruct He as [? | [? | [? | ?]]].
      * by intros [? | ?].
    + intros [= <-]. destruct (Hset GatewayError) as (Hin & Hz & Hk); [by auto|].
      split; [done|]. split; [done|]. split; [done|]. split; [by right|done].
  - intros [= <-]. destruct (Hset GatewayError) as (Hin & Hz & Hk); [by auto|].
    split; [done|]. split; [done|]. split; [done|]. split; [by left|done].
Qed.

(** A BUY of 10^400 shares while no price can be read: the conversion of
    the quantity for [quantity * (1 - buffer_pct)] overflows. *)
Lemma execute_decisions_exceptions_witness :
  let client := @gateway_of binary64 [] (of_Z 10000) (of_Z 0) (of_Z 0) true in
  raised (execute_decisions default_trader client
            [("MSFT"%string, decision_of "BUY" (VInt (10 ^ 400)))]) = Some OverflowError
  ∧ OverflowError ∈ [GatewayError; AttributeError; TypeError; ValueError; OverflowError]
  ∧ OverflowError ≠ ZeroDivisionError ∧ OverflowError ≠ KeyError
  ∧ (OverflowError = GatewayError
     ↔ get_account client = None ∨ get_all_positions client = None).
Proof.
  cbv zeta.
  assert (raised (execute_decisions default_trader
                    (@gateway_of binary64 [] (of_Z 10000) (of_Z 0) (of_Z 0) true)
                    [("MSFT"%string, decision_of "BUY" (VInt (10 ^ 400)))])
          = Some OverflowError) as Hraised by reflexivity.
  split; [exact Hraised|].
  exact (execute_decisions_exceptions binary64 default_trader
           (gateway_of [] (of_Z 10000) (of_Z 0) (of_Z 0) true)
           [("MSFT"%string, decision_of "BUY" (VInt (10 ^ 400)))] OverflowError Hraised).
Defined.

(** ** The price cross-check *)

(** X4: [get_realtime_price], with a quote [ask] and a last trade [last]
    both read: when both are positive and differ by more than 2% of the
    last trade, the last trade is returned and the quote is discarded;
    otherwise a positive quote is returned as it is; a non-positive quote
    falls back to a positive last trade, and to 0.0 when neither is
    positive. *)
Theorem realtime_price_cross_check :
  ∀ (client : @Gateway Q_float) (ticker : string) (ask last : Q),
    get_stock_latest_quote client ticker = Some ask →
    get_stock_latest_trade client ticker = Some last →
    let price := get_realtime_price client ticker in
    ((0 < ask)%Q → (0 < last)%Q → (0.02 < Qabs (ask - last) / last)%Q → price = last)
    ∧ ((0 < ask)%Q → (0 < last)%Q → (Qabs (ask - last) / last <= 0.02)%Q → price = ask)
    ∧ ((0 < ask)%Q → (last <= 0)%Q → price = ask)
    ∧ ((ask <= 0)%Q → (0 < last)%Q → price = last)
    ∧ ((ask <= 0)%Q → (last <= 0)%Q → price = 0%Q).
Proof.
  intros client ticker ask last Hq Ht price. subst price.
  unfold get_realtime_price. rewrite Hq, Ht.
  assert ((@lit Q_float 2 100) == 0.02)%Q as Hlit by reflexivity.
  set (d := (Qabs (ask - last) / last)%Q).
  destruct (@fltb Q_float (of_Z 0) ask) eqn:Ea, (@fltb Q_float (of_Z 0) last) eqn:El;
    simpl andb; cbv iota;
    [apply Q_fltb in Ea, El | apply Q_fltb in Ea; apply Q_fltb_false in El
     | apply Q_fltb_false in Ea; apply Q_fltb in El | apply Q_fltb_false in Ea, El];
    change (@of_Z Q_float 0) with 0%Q in *.
  - rewrite Q_py_div by (intros E; rewrite E in El; by apply (Qlt_irrefl 0)).
    unfold ok. cbv beta iota.
    match goal with |- context [if ?b then last else _] => destruct b eqn:Ed end.
    + apply Q_fltb in Ed. change (lit 2 100 < d)%Q in Ed. rewrite Hlit in Ed.
      clearbody d. repeat split; intros; try reflexivity; exfalso; lra.
    + apply Q_fltb_false in Ed. change (d <= lit 2 100)%Q in Ed. rewrite Hlit in Ed.
      clearbody d. repeat split; intros; try reflexivity; exfalso; lra.
  - clearbody d. repeat split; intros; try reflexivity; exfalso; lra.
  - clearbody d. repeat split; intros; try reflexivity; exfalso; lra.
  - clearbody d. repeat split; intros; try reflexivity; exfalso; lra.
Qed.

(** A quote of 101 against a last trade of 97. *)
Lemma realtime_price_cross_check_witness :
  let client := @gateway_of Q_float [] (of_Z 0) (of_Z 101) (of_Z 97) true in
  let price := get_realtime_price client "MSFT" in
  ((0 < 101)%Q → (0 < 97)%Q → (0.02 < Qabs (101 - 97) / 97)%Q → price = 97%Q)
  ∧ ((0 < 101)%Q → (0 < 97)%Q → (Qabs (101 - 97) / 97 <= 0.02)%Q → price = 101%Q)
  ∧ ((0 < 101)%Q → (97 <= 0)%Q → price = 101%Q)
  ∧ ((101 <= 0)%Q → (0 < 97)%Q → price = 97%Q)
  ∧ ((101 <= 0)%Q → (97 <= 0)%Q → price = 0%Q).
Proof.
  cbv zeta.
  apply (realtime_price_cross_check
           (gateway_of [] (of_Z 0) (of_Z 101) (of_Z 97) true) "MSFT" 101 97);
    reflexivity.
Defined.

(** ** SELL and SHORT *)

(** X5: a SELL of a positive quantity is rejected when no long position is
    seen, and is otherwise submitted as a SELL of min(requested,
    int(long_qty)) shares: never more than requested, never more than held,
    with no reference to cash, price or buffer. *)
Theorem sell_is_capped_by_holding :
  ∀ (self : @AlpacaTrader Q_float) (client : Gateway) (pf : Portfolio)
    (ticker : string) (decision : Decision) (q : Z),
    py_upper (default (VStr "") (action decision)) = ok "SELL"%string →
    py_int (default (VInt 0) (quantity decision)) = ok q →
    0 < q →
    let long_qty := match positions pf !! ticker with
                    | Some h => long h | None => 0%Q end in
    let n := Z.min q (Qfloor long_qty) in
    ((long_qty <= 0)%Q →
     execute_decision self client pf ticker decision
     = ok [PrintRejected ticker "SELL" NoLongPosition])
    ∧ ((0 < long_qty)%Q →
       (∃ verdict,
          execute_decision self client pf ticker decision
          = ok [PrintOrder ticker n SELL; verdict]
          ∧ submitted [PrintOrder ticker n SELL; verdict]
            = [{| order_symbol := ticker; order_qty := VInt n;
                  order_side := SELL; time_in_force := DAY |}])
       ∧ 0 <= n ∧ n <= q ∧ (inject_Z n <= long_qty)%Q).
Proof.
  intros self client pf ticker decision q Ha Hq Hpos long_qty n.
  assert (∀ short_qty,
            safety_check self client (cash pf) long_qty short_qty ticker "SELL" q
            = if @fleb Q_float long_qty (of_Z 0)
              then ok (None, Some NoLongPosition, q, [])
              else ok (Some SELL, None, Z.min q (Qtrunc long_qty), [])) as Hcheck.
  { intros short_qty. unfold safety_check. simpl String.eqb. cbv iota.
    by destruct (@fleb Q_float long_qty (of_Z 0)). }
  assert (execute_decision self client pf ticker decision
          = let* '(side, skip_reason, quantity, log1) :=
              (if @fleb Q_float long_qty (of_Z 0)
               then ok (None, Some NoLongPosition, q, [])
               else ok (Some SELL, None, Z.min q (Qtrunc long_qty), [])) in
            match skip_reason with
            | Some reason => ok (log1 ++ [PrintRejected ticker "SELL" reason])
            | None =>
                match side with
                | Some side =>
                    let order_data :=
                      {| order_symbol := ticker; order_qty := VInt quantity;
                         order_side := side; time_in_force := DAY |} in
                    ok (log1 ++ [PrintOrder ticker quantity side;
                                 if submit_order client order_data
                                 then PrintSuccess order_data "SELL"
                                 else PrintFailure order_data "SELL"])
                | None => ok log1
                end
            end) as ->.
  { unfold execute_decision. rewrite Ha, Hq. simpl.
    replace (q <=? 0) with false by (symmetry; apply Z.leb_gt; lia). simpl.
    change (inject_Z 0) with 0%Q. subst long_qty. by rewrite Hcheck. }
  split.
  - intros Hle. apply Q_fleb in Hle.
    change (@of_Z Q_float 0) with 0%Q. by rewrite Hle.
  - intros Hlt.
    assert (@fleb Q_float long_qty (of_Z 0) = false) as ->.
    { apply not_true_iff_false. rewrite Q_fleb. by apply Qlt_not_le. }
    rewrite (Qtrunc_floor long_qty (Qlt_le_weak _ _ Hlt)). fold n. simpl.
    assert (0 <= Qfloor long_qty) as Hfloor.
    { change 0 with (Qfloor 0). apply Qfloor_resp_le. by apply Qlt_le_weak. }
    split; [|split; [lia|split; [lia|]]].
    + eexists. split; [reflexivity|]. by destruct (submit_order client _).
    + eapply Qle_trans; [|apply (Qfloor_le long_qty)].
      rewrite <- Zle_Qle. lia.
Qed.

(** A SELL of 80 shares against a holding of 50.5. *)
Lemma sell_is_capped_by_holding_witness :
  let pf := @Build_Portfolio Q_float (of_Z 0)
              {["GOOG"%string := @Build_Holding Q_float 50.5%Q 0%Q]} (of_Z 0) in
  let client := @gateway_of Q_float [] (of_Z 0) (of_Z 0) (of_Z 0) true in
  let decision := @decision_of Q_float "sell" (VInt 80) in
  let long_qty := match positions pf !! "GOOG"%string with
                  | Some h => long h | None => 0%Q end in
  let n := Z.min 80 (Qfloor long_qty) in
  ((long_qty <= 0)%Q →
   execute_decision default_trader client pf "GOOG" decision
   = ok [PrintRejected "GOOG" "SELL" NoLongPosition])
  ∧ ((0 < long_qty)%Q →
     (∃ verdict,
        execute_decision default_trader client pf "GOOG" decision
        = ok [PrintOrder "GOOG" n SELL; verdict]
        ∧ submitted [PrintOrder "GOOG" n SELL; verdict]
          = [{| order_symbol := "GOOG"; order_qty := VInt n;
                order_side := SELL; time_in_force := DAY |}])
     ∧ 0 <= n ∧ n <= 80 ∧ (inject_Z n <= long_qty)%Q).
Proof.
  cbv zeta.
  apply (sell_is_capped_by_holding default_trader
           (gateway_of [] (of_Z 0) (of_Z 0) (of_Z 0) true)
           (@Build_Portfolio Q_float (of_Z 0)
              {["GOOG"%string := @Build_Holding Q_float 50.5%Q 0%Q]} (of_Z 0))
           "GOOG" (decision_of "sell" (VInt 80)) 80).
  - reflexivity.
  - reflexivity.
  - lia.
Defined.

(** X6: a SHORT of a positive quantity is rejected when a long position is
    seen ([long_qty > 0]) and is otherwise submitted as a SELL of exactly
    the requested quantity: it is checked against neither cash nor price
    and no buffer is applied. *)
Theorem short_is_never_resized :
  ∀ (N : PyFloat) (self : AlpacaTrader) (client : Gateway) (pf : Portfolio)
    (ticker : string) (decision : Decision) (q : Z),
    py_upper (default (VStr "") (action decision)) = ok "SHORT"%string →
    py_int (default (VInt 0) (quantity decision)) = ok q →
    0 < q →
    let long_qty := match positions pf !! ticker with
                    | Some h => long h | None => of_Z 0 end in
    let order := {| order_symbol := ticker; order_qty := VInt q;
                    order_side := SELL; time_in_force := DAY |} in
    execute_decision self client pf ticker decision
    = if (long_qty >? of_Z 0)%num
      then ok [PrintRejected ticker "SHORT" (ExistingLong long_qty)]
      else ok [PrintOrder ticker q SELL;
               if submit_order client order then PrintSuccess order "SHORT"
               else PrintFailure order "SHORT"].
Proof.
  intros N self client pf ticker decision q Ha Hq Hpos long_qty order.
  unfold execute_decision. rewrite Ha, Hq. simpl.
  replace (q <=? 0) with false by (symmetry; apply Z.leb_gt; lia). simpl.
  fold long_qty. unfold safety_check. simpl String.eqb. cbv iota.
  by destruct (fltb (of_Z 0) long_qty).
Qed.

(** Scenario 4 of the spec: SHORT 30 against a long holding of 50. *)
Lemma short_is_never_resized_witness :
  let pf := @Build_Portfolio binary64 (of_Z 0)
              {["GOOG"%string := @Build_Holding binary64 50%float 0%float]} (of_Z 0) in
  let client := @gateway_of binary64 [] (of_Z 0) (of_Z 0) (of_Z 0) true in
  let long_qty := match positions pf !! "GOOG"%string with
                  | Some h => long h | None => of_Z 0 end in
  let order := {| order_symbol := "GOOG"; order_qty := @VInt binary64 30;
                  order_side := SELL; time_in_force := DAY |} in
  (long_qty >? of_Z 0)%num = true
  ∧ @execute_decision binary64 default_trader client pf "GOOG"
      (decision_of "SHORT" (VInt 30))
    = if (long_qty >? of_Z 0)%num
      then ok [PrintRejected "GOOG" "SHORT" (ExistingLong long_qty)]
      else ok [PrintOrder "GOOG" 30 SELL;
               if submit_order client order then PrintSuccess order "SHORT"
               else PrintFailure order "SHORT"].
Proof.
  cbv zeta. split; [reflexivity|].
  apply (short_is_never_resized binary64 default_trader
           (gateway_of [] (of_Z 0) (of_Z 0) (of_Z 0) true)
           (@Build_Portfolio binary64 (of_Z 0)
              {["GOOG"%string := @Build_Holding binary64 50%float 0%float]} (of_Z 0))
           "GOOG" (decision_of "SHORT" (VInt 30)) 30).
  - reflexivity.
  - reflexivity.
  - lia.
Defined.

(** ** The portfolio snapshot *)

Lemma formatted_positions_lookup `{PyFloat} (ps : list Position) (m : gmap string Holding) :
  NoDup (symbol <$> ps) →
  (∀ pos, pos ∈ ps →
     foldl (λ m pos, <[symbol pos := holding_of pos]> m) m ps !! symbol pos
     = Some (holding_of pos))
  ∧ (∀ s, s ∉ symbol <$> ps →
       foldl (λ m pos, <[symbol pos := holding_of pos]> m) m ps !! s = m !! s).
Proof.
  revert m. induction ps as [|p ps IH]; intros m Hnd; simpl.
  - split; [by intros pos ?%elem_of_nil|done].
  - rewrite fmap_cons in Hnd. apply NoDup_cons in Hnd as [Hnotin Hnd].
    destruct (IH (<[symbol p := holding_of p]> m) Hnd) as [IHin IHout]. split.
    + intros pos [->|Hin]%elem_of_cons.
      * rewrite (IHout _ Hnotin). apply lookup_insert_eq.
      * by apply IHin.
    + intros s [Hne Hs]%not_elem_of_cons.
      rewrite (IHout _ Hs). by rewrite lookup_insert_ne.
Qed.

(** X7: when both reads succeed and the gateway reports one position per
    symbol, the snapshot of [get_live_portfolio] carries the account's cash
    and equity and exactly one entry per reported position, holding its
    signed quantity under the key of its side and 0 under the other; a
    symbol that is not reported has no entry. *)
Theorem snapshot_holds_each_position :
  ∀ (N : PyFloat) (client : Gateway) (account : Account) (ps : list Position),
    get_account client = Some account →
    get_all_positions client = Some ps →
    NoDup (symbol <$> ps) →
    ∃ pf, get_live_portfolio client = ok pf
      ∧ cash pf = account_cash account
      ∧ equity pf = account_equity account
      ∧ (∀ pos, pos ∈ ps → positions pf !! symbol pos = Some (holding_of pos))
      ∧ (∀ s, s ∉ symbol <$> ps → positions pf !! s = None).
Proof.
  intros N client account ps Ha Hp Hnd. unfold get_live_portfolio. rewrite Ha, Hp.
  eexists. split; [reflexivity|]. simpl. split; [done|]. split; [done|].
  destruct (formatted_positions_lookup ps ∅ Hnd) as [Hin Hout]. split.
  - intros pos Hpos. by apply Hin.
  - intros s Hs. rewrite <- (lookup_empty (M:=gmap string) s). by apply Hout.
Qed.

(** A long position in AAPL and a short one in TSLA. *)
Lemma snapshot_holds_each_position_witness :
  let ps := [@position_of binary64 "AAPL" 10 100 104; position_of "TSLA" (-5) 200 180] in
  let client := @gateway_of binary64 ps (of_Z 10000) (of_Z 0) (of_Z 0) true in
  ∃ pf, get_live_portfolio client = ok pf
    ∧ cash pf = account_cash {| account_cash := of_Z 10000; account_equity := of_Z 10000 |}
    ∧ equity pf = account_equity {| account_cash := of_Z 10000; account_equity := of_Z 10000 |}
    ∧ (∀ pos, pos ∈ ps → positions pf !! symbol pos = Some (holding_of pos))
    ∧ (∀ s, s ∉ symbol <$> ps → positions pf !! s = None).
Proof.
  cbv zeta. apply (snapshot_holds_each_position binary64).
  - reflexivity.
  - reflexivity.
  - apply (bool_decide_unpack _). vm_compute. exact I.
Defined.

(** Under the gateway's convention every ["short"] entry of the snapshot
    is a negative quantity or 0, and none is above 0. *)
Lemma snapshot_short_not_positive `{O : FloatOrder} (client : Gateway) (pf : Portfolio) :
  (∀ positions pos, get_all_positions client = Some positions → pos ∈ positions →
     side pos = PosShort → (qty pos <? of_Z 0)%num = true) →
  get_live_portfolio client = ok pf →
  ∀ ticker,
    (match positions pf !! ticker with
     | Some h => short h | None => of_Z 0 end >? of_Z 0)%num = false.
Proof.
  intros Hneg. unfold get_live_portfolio.
  destruct (get_account client) as [account|]; [|done].
  destruct (get_all_positions client) as [ps|] eqn:Hread; [|done].
  intros [= <-]. simpl.
  assert (∀ pos, pos ∈ ps → side pos = PosShort → (qty pos <? of_Z 0)%num = true) as Hps
    by (intros pos; by apply Hneg).
  clear Hneg Hread.
  assert (∀ (m : gmap string Holding),
            (∀ ticker h, m !! ticker = Some h → (short h >? of_Z 0)%num = false) →
            ∀ ticker h,
              foldl (λ m pos,
                       <[symbol pos :=
                           {| long := match side pos with
                                      | PosLong => qty pos | PosShort => of_Z 0 end;
                              short := match side pos with
                                       | PosShort => qty pos | PosLong => of_Z 0 end |}]> m)
                    m ps !! ticker = Some h → (short h >? of_Z 0)%num = false) as Hfold.
  { induction ps as [|pos ps IH]; intros m Hm ticker h; simpl; [by apply Hm|].
    apply IH.
    - intros p Hp. apply Hps. by right.
    - intros t h'. destruct (decide (symbol pos = t)) as [<-|Hne].
      + rewrite lookup_insert_eq. intros [= <-]. simpl.
        destruct (side pos) eqn:Hside; [apply fltb_irrefl|].
        apply fltb_asym. apply Hps; [by left|done].
      + rewrite lookup_insert_ne by done. apply Hm. }
  intros ticker.
  destruct (foldl _ ∅ ps !! ticker) as [h|] eqn:E; [|apply fltb_irrefl].
  apply (Hfold ∅) in E; [done|]. intros t h'. by rewrite lookup_empty.
Qed.

(** X8: under the gateway's convention (a short position has a negative
    quantity) the test [short_qty > 0] of line 112 never holds, so a BUY of a
    positive quantity is never rejected for an existing short position: it
    is sized as every BUY is and, unless the sizing raises, one BUY order is
    handed to the gateway, also for a ticker that is held short.  Of the
    comparisons only the laws [FloatOrder] are used. *)
Theorem buy_is_not_stopped_by_a_short :
  ∀ (N : PyFloat) (O : FloatOrder N) (self : AlpacaTrader) (client : Gateway)
    (pf : Portfolio) (ticker : string) (decision : Decision) (requested : Z),
    (∀ positions pos, get_all_positions client = Some positions → pos ∈ positions →
       side pos = PosShort → (qty pos <? of_Z 0)%num = true) →
    get_live_portfolio client = ok pf →
    py_upper (default (VStr "") (action decision)) = ok "BUY"%string →
    py_int (default (VInt 0) (quantity decision)) = ok requested →
    0 < requested →
    (∀ log0 short_qty,
       execute_decision self client pf ticker decision
       ≠ ok (log0 ++ [PrintRejected ticker "BUY" (ExistingShort short_qty)]))
    ∧ let live_price := get_realtime_price client ticker in
      match (if truthy live_price
             then spec_buy_quantity (cash pf) (buffer_pct self) live_price requested
             else scaled_quantity (buffer_pct self) requested) with
      | inl e => execute_decision self client pf ticker decision = raise e
      | inr n =>
          ∃ log0 verdict,
            execute_decision self client pf ticker decision
            = ok (log0 ++ [PrintOrder ticker n BUY; verdict])
            ∧ submitted (log0 ++ [PrintOrder ticker n BUY; verdict])
              = [{| order_symbol := ticker; order_qty := VInt n;
                    order_side := BUY; time_in_force := DAY |}]
      end.
Proof.
  intros N O self client pf ticker decision requested Hneg Hpf Ha Hq Hreq.
  pose proof (snapshot_short_not_positive client pf Hneg Hpf ticker) as Hshort.
  split; [|by apply execute_decision_buy_order].
  intros log0 short_qty Hrej.
  pose proof (execute_decision_buy self client pf ticker decision requested
                Ha Hq Hreq Hshort) as Hbuy.
  cbv zeta in Hbuy.
  destruct (if truthy (get_realtime_price client ticker) then _ else _) as [e|n].
  - rewrite Hbuy in Hrej. discriminate Hrej.
  - destruct Hbuy as (log1 & Hrun & _).
    rewrite Hrun in Hrej. injection Hrej as Hrej.
    change (log1 ++ [PrintOrder ticker n BUY; ?v])
      with (log1 ++ [PrintOrder ticker n BUY] ++ [v]) in Hrej.
    rewrite app_assoc in Hrej. apply app_inj_tail in Hrej as [_ Hlast].
    by destruct (submit_order client _).
Qed.

(** A BUY of 5 TSLA while 10 TSLA are held short, in binary64. *)
Lemma buy_is_not_stopped_by_a_short_witness :
  let self := @default_trader binary64 in
  let client := @gateway_of binary64 [position_of "TSLA" (-10) 200 180]
                  (of_Z 10000) (of_Z 180) (of_Z 180) true in
  let pf := @Build_Portfolio binary64 (of_Z 10000)
              {["TSLA"%string := holding_of (position_of "TSLA" (-10) 200 180)]}
              (of_Z 10000) in
  let decision := @decision_of binary64 "BUY" (VInt 5) in
  (∀ log0 short_qty,
     execute_decision self client pf "TSLA" decision
     ≠ ok (log0 ++ [PrintRejected "TSLA" "BUY" (ExistingShort short_qty)]))
  ∧ let live_price := get_realtime_price client "TSLA" in
    match (if truthy live_price
           then spec_buy_quantity (cash pf) (buffer_pct self) live_price 5
           else scaled_quantity (buffer_pct self) 5) with
    | inl e => execute_decision self client pf "TSLA" decision = raise e
    | inr n =>
        ∃ log0 verdict,
          execute_decision self client pf "TSLA" decision
          = ok (log0 ++ [PrintOrder "TSLA" n BUY; verdict])
          ∧ submitted (log0 ++ [PrintOrder "TSLA" n BUY; verdict])
            = [{| order_symbol := "TSLA"; order_qty := VInt n;
                  order_side := BUY; time_in_force := DAY |}]
    end.
Proof.
  cbv zeta.
  apply (buy_is_not_stopped_by_a_short binary64 binary64_order default_trader
           (gateway_of [position_of "TSLA" (-10) 200 180]
              (of_Z 10000) (of_Z 180) (of_Z 180) true)
           (@Build_Portfolio binary64 (of_Z 10000)
              {["TSLA"%string := holding_of (position_of "TSLA" (-10) 200 180)]}
              (of_Z 10000))
           "TSLA"%string (decision_of "BUY" (VInt 5)) 5).
  - intros positions pos [= <-] ->%list_elem_of_singleton _. reflexivity.
  - reflexivity.
  - reflexivity.
  - reflexivity.
  - reflexivity.
Defined.

(** ** The store a pass leaves *)

Section StoreAfterPass.
Context `{PyFloat}.

Lemma pass_store self client disk_ok disk positions r :
  get_all_positions client = Some positions →
  NoDup (symbol <$> positions) →
  monitor_and_execute self client disk_ok disk = Some r →
  (∀ pos, pos ∈ positions →
     risk_data (manager r) !! symbol pos =
       if triggered (evaluation self (risk_data self) pos) then None
       else Some (tracked_record (risk_data self) pos))
  ∧ (∀ s, s ∉ symbol <$> positions → risk_data (manager r) !! s = None).
Proof.
  intros Hread Hnd Hr.
  destruct (process_positions_total self client (risk_data self) positions) as [[rd' l] E].
  split.
  - intros pos Hpos. rewrite (pass_lookup _ _ _ _ _ _ _ _ _ Hread E Hr).
    rewrite decide_True by (by apply list_elem_of_fmap_2).
    by apply (process_positions_own _ _ _ _ _ _ _ Hnd Hpos E).
  - intros s Hs. rewrite (pass_lookup _ _ _ _ _ _ _ _ _ Hread E Hr).
    by rewrite decide_False.
Qed.

Lemma pass_close_orders self client disk_ok disk positions r l rd' :
  get_all_positions client = Some positions →
  process_positions self client (risk_data self) positions = Some (rd', l) →
  monitor_and_execute self client disk_ok disk = Some r →
  close_orders (log r) = close_orders l.
Proof.
  intros Hread E Hr.
  destruct (monitor_and_execute_read self client disk_ok disk positions Hread)
    as (rd2 & l2 & r2 & E2 & Hr2 & _ & _ & Hl).
  rewrite E in E2. injection E2 as <- <-. rewrite Hr in Hr2. injection Hr2 as <-.
  rewrite Hl. destruct positions as [|p ps].
  - simpl in E. injection E as _ <-. by destruct disk_ok.
  - rewrite !close_orders_app. destruct disk_ok; simpl; by rewrite ?app_nil_r.
Qed.

Lemma stop_level_with_risk_data self rd long entry extreme current :
  stop_level (with_risk_data self rd) long entry extreme current
  = stop_level self long entry extreme current.
Proof. reflexivity. Qed.

End StoreAfterPass.

(** X9: with one position per symbol, the store a pass leaves holds a
    record exactly for the live positions whose stop did not trigger, and
    that record carries the extreme price of lines 98-120 (the stored one,
    or the current price where it is new or better) and the side first
    written: no live position that stays open is left untracked. *)
Theorem pass_tracks_every_open_position :
  ∀ (N : PyFloat) (self : RiskManager) (client : Gateway) (disk_ok : bool)
    (disk : gmap string RiskRecord) (positions : list Position) (r : PassResult),
    get_all_positions client = Some positions →
    NoDup (symbol <$> positions) →
    monitor_and_execute self client disk_ok disk = Some r →
    ∀ s r1,
      risk_data (manager r) !! s = Some r1 ↔
      ∃ pos, pos ∈ positions ∧ symbol pos = s
             ∧ triggered (evaluation self (risk_data self) pos) = false
             ∧ r1 = tracked_record (risk_data self) pos.
Proof.
  intros N self client disk_ok disk positions r Hread Hnd Hr s r1.
  destruct (pass_store self client disk_ok disk positions r Hread Hnd Hr) as [Hin Hout].
  split.
  - intros Hs. destruct (decide (s ∈ symbol <$> positions)) as [Hlive|Hdead].
    + apply list_elem_of_fmap in Hlive as (pos & -> & Hpos).
      rewrite (Hin pos Hpos) in Hs.
      destruct (triggered _) eqn:Ht; [done|]. injection Hs as <-. by exists pos.
    + by rewrite (Hout s Hdead) in Hs.
  - intros (pos & Hpos & <- & Ht & ->). by rewrite (Hin pos Hpos), Ht.
Qed.

(** A position that stays open and one that is closed, in one pass. *)
Lemma pass_tracks_every_open_position_witness :
  let positions := [@position_of Q_float "AAPL" 10 100 104; position_of "MSFT" 5 50 60] in
  let self := @default_manager Q_float {["AAPL"%string := record_of 110 LONG]} in
  let client := gateway_of positions (of_Z 0) (of_Z 0) (of_Z 0) true in
  ∃ r, monitor_and_execute self client true ∅ = Some r
    ∧ ∀ s r1,
        risk_data (manager r) !! s = Some r1 ↔
        ∃ pos, pos ∈ positions ∧ symbol pos = s
               ∧ triggered (evaluation self (risk_data self) pos) = false
               ∧ r1 = tracked_record (risk_data self) pos.
Proof.
  cbv zeta.
  destruct (monitor_and_execute_total
              (@default_manager Q_float {["AAPL"%string := record_of 110 LONG]})
              (gateway_of [position_of "AAPL" 10 100 104; position_of "MSFT" 5 50 60]
                 (of_Z 0) (of_Z 0) (of_Z 0) true) true ∅) as [r Hr].
  exists r. split; [exact Hr|].
  apply (pass_tracks_every_open_position Q_float
           (default_manager {["AAPL"%string := record_of 110 LONG]})
           (gateway_of [position_of "AAPL" 10 100 104; position_of "MSFT" 5 50 60]
              (of_Z 0) (of_Z 0) (of_Z 0) true) true ∅
           [position_of "AAPL" 10 100 104; position_of "MSFT" 5 50 60] r).
  - reflexivity.
  - apply (bool_decide_unpack _). vm_compute. exact I.
  - exact Hr.
Defined.

(** ** Repeating a pass *)

(** Once a price has been taken into the extreme, reading the same price
    again does not improve on it. *)
Lemma tracked_extreme_settled `{O : FloatOrder} (rd rd1 : gmap string RiskRecord)
    (pos : Position) :
  rd1 !! symbol pos = Some (tracked_record rd pos) →
  tracked_extreme rd1 pos = tracked_extreme rd pos.
Proof.
  intros H1. unfold tracked_extreme at 1. rewrite H1.
  change (extreme_price (tracked_record rd pos)) with (tracked_extreme rd pos).
  destruct (improves (is_long pos) (current_price pos) (tracked_extreme rd pos))
    eqn:Hi; [|done].
  exfalso. unfold tracked_extreme in Hi.
  destruct (improves (is_long pos) (current_price pos)
              (match rd !! symbol pos with
               | Some r => extreme_price r | None => current_price pos end)) eqn:Hi0.
  - by rewrite improves_irrefl in Hi.
  - congruence.
Qed.

(** X10: a pass is idempotent when nothing triggers.  If a pass over one
    position per symbol submits no closing order, a second pass against the
    same positions leaves the same store, submits no order either, and
    (both writes succeeding) leaves the same data file.  Of the comparisons
    only the laws [FloatOrder] are used. *)
Theorem quiet_pass_is_idempotent :
  ∀ (N : PyFloat) (O : FloatOrder N) (self : RiskManager) (client : Gateway)
    (disk_ok disk_ok' : bool)
    (disk : gmap string RiskRecord) (positions : list Position) (r1 : PassResult),
    get_all_positions client = Some positions →
    NoDup (symbol <$> positions) →
    monitor_and_execute self client disk_ok disk = Some r1 →
    close_orders (log r1) = [] →
    ∃ r2, monitor_and_execute (manager r1) client disk_ok' (data_file r1) = Some r2
      ∧ risk_data (manager r2) = risk_data (manager r1)
      ∧ close_orders (log r2) = []
      ∧ (disk_ok = true → disk_ok' = true → data_file r2 = data_file r1).
Proof.
  intros N O self client disk_ok disk_ok' disk positions r1 Hread Hnd Hr1 Hquiet.
  destruct (process_positions_total self client (risk_data self) positions) as [[rd' l] E].
  assert (∀ pos, pos ∈ positions →
            triggered (evaluation self (risk_data self) pos) = false) as Hnone.
  { intros pos Hpos. apply not_true_iff_false. intros Ht.
    assert (closing_order pos ∈ close_orders l) as Hin
      by (apply (process_positions_closes _ _ _ _ _ _ _ Hnd E); eauto).
    rewrite <- (pass_close_orders _ _ _ _ _ _ _ _ Hread E Hr1), Hquiet in Hin.
    by apply elem_of_nil in Hin. }
  destruct (pass_store self client disk_ok disk positions r1 Hread Hnd Hr1) as [Hin1 Hout1].
  destruct (monitor_and_execute_read self client disk_ok disk positions Hread)
    as (rd1' & l1 & r1' & _ & Hr1' & Hm1 & Hd1 & _).
  rewrite Hr1 in Hr1'. injection Hr1' as <-.
  destruct (monitor_and_execute_read (manager r1) client disk_ok' (data_file r1)
              positions Hread) as (rd2' & l2 & r2 & E2 & Hr2 & Hm2 & Hd2 & _).
  destruct (pass_store (manager r1) client disk_ok' (data_file r1) positions r2
              Hread Hnd Hr2) as [Hin2 Hout2].
  assert (∀ pos, pos ∈ positions →
            evaluation (manager r1) (risk_data (manager r1)) pos
            = evaluation self (risk_data self) pos
            ∧ tracked_record (risk_data (manager r1)) pos
              = tracked_record (risk_data self) pos) as Hsame.
  { intros pos Hpos.
    pose proof (Hin1 pos Hpos) as Hl. rewrite (Hnone pos Hpos) in Hl.
    pose proof (tracked_extreme_settled _ _ _ Hl) as He.
    split.
    - unfold evaluation. rewrite He, Hm1. apply stop_level_with_risk_data.
    - unfold tracked_record at 1. by rewrite He, Hl. }
  exists r2. split; [done|].
  assert (risk_data (manager r2) = risk_data (manager r1)) as Hstore.
  { apply map_eq. intros s. destruct (decide (s ∈ symbol <$> positions)) as [Hlive|Hdead].
    - apply list_elem_of_fmap in Hlive as (pos & -> & Hpos).
      destruct (Hsame pos Hpos) as [Hev Hrec].
      by rewrite (Hin2 pos Hpos), (Hin1 pos Hpos), Hev, Hrec.
    - by rewrite (Hout2 s Hdead), (Hout1 s Hdead). }
  split; [done|]. split.
  - rewrite (pass_close_orders _ _ _ _ _ _ _ _ Hread E2 Hr2).
    destruct (close_orders l2) as [|o os] eqn:Hc; [done|]. exfalso.
    assert (o ∈ close_orders l2) as Ho by (rewrite Hc; by left).
    apply (process_positions_closes _ _ _ _ _ _ _ Hnd E2) in Ho
      as (pos & Hpos & _ & Ht).
    destruct (Hsame pos Hpos) as [Hev _]. rewrite Hev, (Hnone pos Hpos) in Ht. done.
  - intros -> ->. by rewrite Hd2, Hd1, Hstore.
Qed.

(** Two passes over an open long position, in binary64. *)
Lemma quiet_pass_is_idempotent_witness :
  let self := @default_manager binary64 {["AAPL"%string := record_of 100 LONG]} in
  let client := @gateway_of binary64 [position_of "AAPL" 10 100 105]
                  (of_Z 0) (of_Z 0) (of_Z 0) true in
  ∃ r1, monitor_and_execute self client true ∅ = Some r1
    ∧ ∃ r2, monitor_and_execute (manager r1) client true (data_file r1) = Some r2
        ∧ risk_data (manager r2) = risk_data (manager r1)
        ∧ close_orders (log r2) = []
        ∧ (true = true → true = true → data_file r2 = data_file r1).
Proof.
  cbv zeta. eexists. split; [reflexivity|].
  eapply (quiet_pass_is_idempotent binary64 binary64_order
            (default_manager {["AAPL"%string := record_of 100 LONG]})
            (gateway_of [position_of "AAPL" 10 100 105] (of_Z 0) (of_Z 0) (of_Z 0) true)
            true true ∅ [position_of "AAPL" 10 100 105]).
  - reflexivity.
  - apply NoDup_singleton.
  - reflexivity.
  - reflexivity.
Defined.

(** ** Which stop is reported *)

Section Reasons.
Context `{O : FloatOrder}.

(** The tighter of the two stops and the reason read off it (line 132),
    for a long position and for a short one. *)
Lemma reason_of_max (hard trail : num) :
  (py_max hard trail =? trail)%num = (hard <=? trail)%num.
Proof.
  unfold py_max. rewrite (fleb_fltb_feqb hard trail).
  destruct (hard <? trail)%num eqn:E; [|done].
  by destruct (fltb_feqb_refl _ _ E) as [_ ->].
Qed.

Lemma reason_of_min (hard trail : num) :
  (py_min hard trail =? trail)%num = (trail <=? hard)%num.
Proof.
  unfold py_min. rewrite (fleb_fltb_feqb trail hard), (feqb_sym trail hard).
  destruct (trail <? hard)%num eqn:E; [|done].
  by destruct (fltb_feqb_refl _ _ E) as [-> _].
Qed.

Lemma close_reason_stop_level self long entry extreme current :
  let lv := stop_level self long entry extreme current in
  close_reason lv
  = if (if long then hard_stop lv <=? trail_stop lv
        else trail_stop lv <=? hard_stop lv)%num
    then TRAIL else HARD.
Proof.
  intros lv. subst lv. unfold close_reason, stop_level.
  destruct long; simpl hard_stop; simpl trail_stop; simpl final_stop.
  - by rewrite reason_of_max.
  - by rewrite reason_of_min.
Qed.

(** The tighter stop is one of the two, and it is the hard stop unless the
    reason is the trailing stop. *)
Lemma final_stop_hard self long entry extreme current :
  let lv := stop_level self long entry extreme current in
  close_reason lv = HARD → final_stop lv = hard_stop lv.
Proof.
  intros lv. subst lv. unfold close_reason, stop_level.
  destruct long; simpl hard_stop; simpl trail_stop; simpl final_stop.
  - unfold py_max. destruct (_ <? _)%num eqn:E; [|done].
    by destruct (fltb_feqb_refl _ _ E) as [_ ->].
  - unfold py_min. destruct (_ <? _)%num eqn:E; [|done].
    by destruct (fltb_feqb_refl _ _ E) as [-> _].
Qed.

End Reasons.

(** X11: the reason of a close is found by comparing [final_stop] with
    [trail_stop] after the fact, so it is the trailing stop exactly when the
    computed trailing stop is at least as tight as the computed hard stop
    (at or above it for a long position, at or below it for a short one), a
    tie included; the hard stop is reported otherwise.  The stops are the
    floats the pass computes and the comparison is that of the floats, of
    which only the laws [FloatOrder] are used. *)
Theorem reason_is_trailing_when_at_least_as_tight :
  ∀ (N : PyFloat) (O : FloatOrder N) (self : RiskManager) (long : bool)
    (entry extreme current : num),
    let lv := stop_level self long entry extreme current in
    let at_least_as_tight :=
      (if long then hard_stop lv <=? trail_stop lv
       else trail_stop lv <=? hard_stop lv)%num in
    (close_reason lv = TRAIL ↔ at_least_as_tight = true)
    ∧ (close_reason lv = HARD ↔ at_least_as_tight = false).
Proof.
  intros N O self long entry extreme current lv tight.
  pose proof (close_reason_stop_level self long entry extreme current) as Hreason.
  cbv zeta in Hreason. fold lv in Hreason. fold tight in Hreason. rewrite Hreason.
  by destruct tight; split; split.
Qed.

(** A long position entered at 95 whose extreme is 92, in binary64: in exact
    arithmetic the two stops tie at 87.4; the floats the pass computes do
    not, and the reason is the hard stop. *)
Lemma reason_is_trailing_when_at_least_as_tight_witness :
  let lv := @stop_level binary64 (default_manager ∅) true (of_Z 95) (of_Z 92) (of_Z 87) in
  let at_least_as_tight := @fleb binary64 (hard_stop lv) (trail_stop lv) in
  ((close_reason lv = TRAIL ↔ at_least_as_tight = true)
   ∧ (close_reason lv = HARD ↔ at_least_as_tight = false))
  ∧ close_reason lv = HARD.
Proof.
  cbv zeta. split; [|reflexivity].
  exact (reason_is_trailing_when_at_least_as_tight binary64 binary64_order
           (default_manager ∅) true (of_Z 95) (of_Z 92) (of_Z 87)).
Defined.

(** X12: the reason of a close names a stop the price has reached: a close
    tagged with the trailing stop has its price at or beyond the computed
    trailing stop, and a close tagged with the hard stop has it at or beyond
    the computed hard stop.  So while the price is strictly on the safe
    side of the trailing stop, as it is when a symbol is first seen at the
    default percentages, a position is closed exactly when the price has
    reached the hard stop, and the close is tagged with the hard stop.  Of
    the comparisons only the laws [FloatOrder] are used. *)
Theorem reported_stop_is_reached :
  ∀ (N : PyFloat) (O : FloatOrder N) (self : RiskManager)
    (rd : gmap string RiskRecord) (pos : Position),
    let lv := evaluation self rd pos in
    let reached (stop : num) :=
      (if is_long pos then current_price pos <=? stop
       else stop <=? current_price pos)%num in
    let safe (stop : num) :=
      (if is_long pos then stop <? current_price pos
       else current_price pos <? stop)%num in
    (triggered lv = true →
     match close_reason lv with
     | TRAIL => reached (trail_stop lv) = true
     | HARD => reached (hard_stop lv) = true
     end)
    ∧ (safe (trail_stop lv) = true →
       (triggered lv = true ↔ reached (hard_stop lv) = true)
       ∧ (triggered lv = true → close_reason lv = HARD)).
Proof.
  intros N O self rd pos lv reached safe.
  assert (triggered lv = reached (final_stop lv)) as Htrig.
  { subst lv reached. unfold evaluation, stop_level. by destruct (is_long pos). }
  assert (triggered lv = true →
          match close_reason lv with
          | TRAIL => reached (trail_stop lv) = true
          | HARD => reached (hard_stop lv) = true
          end) as Hreached.
  { rewrite Htrig. intros Ht.
    destruct (close_reason lv) eqn:Hreason.
    - unfold close_reason in Hreason.
      destruct (final_stop lv =? trail_stop lv)%num eqn:Eq; [|done].
      subst reached. cbv beta in *. destruct (is_long pos).
      + by apply (fleb_feqb_trans _ (final_stop lv)).
      + rewrite fleb_fltb_feqb in Ht |- *.
        rewrite feqb_sym in Eq.
        apply orb_true_iff in Ht as [Ht|Ht]; apply orb_true_iff.
        * left. by apply (feqb_fltb_trans _ (final_stop lv)).
        * right. by apply (feqb_trans _ (final_stop lv)).
    - subst lv. unfold evaluation in *.
      by rewrite (final_stop_hard _ _ _ _ _ Hreason) in Ht. }
  split; [exact Hreached|].
  intros Hsafe.
  assert (triggered lv = true → close_reason lv = HARD) as Hhard.
  { intros Ht. specialize (Hreached Ht).
    destruct (close_reason lv); [|done]. exfalso.
    subst reached safe. cbv beta in *. destruct (is_long pos).
    - by rewrite (fleb_not_fltb _ _ Hreached) in Hsafe.
    - by rewrite (fleb_not_fltb _ _ Hreached) in Hsafe. }
  split; [|exact Hhard]. split.
  - intros Ht. specialize (Hreached Ht). by rewrite (Hhard Ht) in Hreached.
  - intros Hh. rewrite Htrig.
    destruct (close_reason lv) eqn:Hreason.
    + exfalso. unfold close_reason in Hreason.
      destruct (final_stop lv =? trail_stop lv)%num eqn:Eq; [|done].
      assert (reached (final_stop lv) = false) as Hnot.
      { subst reached safe. cbv beta in *. destruct (is_long pos).
        - destruct (current_price pos <=? final_stop lv)%num eqn:Hle; [|done].
          pose proof (fleb_feqb_trans _ _ _ Hle Eq) as Hle'.
          by rewrite (fleb_not_fltb _ _ Hle') in Hsafe.
        - destruct (final_stop lv <=? current_price pos)%num eqn:Hle; [|done].
          rewrite fleb_fltb_feqb in Hle. rewrite feqb_sym in Eq.
          apply orb_true_iff in Hle as [Hle|Hle].
          + pose proof (feqb_fltb_trans _ _ _ Eq Hle) as Hlt.
            by rewrite (fltb_asym _ _ Hlt) in Hsafe.
          + pose proof (feqb_trans _ _ _ Eq Hle) as Heq.
            rewrite feqb_sym in Heq.
            by rewrite (fltb_not_feqb _ _ Hsafe) in Heq. }
      subst lv. unfold evaluation, stop_level, reached, safe in *.
      destruct (is_long pos); simpl in *.
      * unfold py_max in *.
        destruct (_ <? _)%num eqn:E in Hnot; rewrite E in *.
        -- pose proof (fltb_fleb_trans _ _ _ Hsafe Hh) as H1.
           pose proof (fltb_trans _ _ _ E H1) as H2.
           by rewrite fltb_irrefl in H2.
        -- congruence.
      * unfold py_min in *.
        destruct (_ <? _)%num eqn:E in Hnot; rewrite E in *.
        -- rewrite fleb_fltb_feqb in Hh.
           apply orb_true_iff in Hh as [Hh|Hh].
           ++ pose proof (fltb_trans _ _ _ Hh Hsafe) as H1.
              pose proof (fltb_trans _ _ _ H1 E) as H2.
              by rewrite fltb_irrefl in H2.
           ++ pose proof (feqb_fltb_trans _ _ _ Hh Hsafe) as H1.
              pose proof (fltb_trans _ _ _ H1 E) as H2.
              by rewrite fltb_irrefl in H2.
        -- congruence.
    + subst lv. unfold evaluation in *.
      by rewrite (final_stop_hard _ _ _ _ _ Hreason).
Qed.

(** A long position entered at 100 and seen for the first time at 91, in
    binary64 at the default percentages: the trailing stop, 86.45, is below
    the price, the hard stop, 92, is reached, and the close is tagged with
    the hard stop. *)
Lemma reported_stop_is_reached_witness :
  let self := @default_manager binary64 ∅ in
  let pos := @position_of binary64 "AAPL" 10 100 91 in
  let lv := evaluation self ∅ pos in
  let reached (stop : float) :=
    if is_long pos then @fleb binary64 (current_price pos) stop
    else @fleb binary64 stop (current_price pos) in
  let safe (stop : float) :=
    if is_long pos then @fltb binary64 stop (current_price pos)
    else @fltb binary64 (current_price pos) stop in
  ((triggered lv = true →
    match close_reason lv with
    | TRAIL => reached (trail_stop lv) = true
    | HARD => reached (hard_stop lv) = true
    end)
   ∧ (safe (trail_stop lv) = true →
      (triggered lv = true ↔ reached (hard_stop lv) = true)
      ∧ (triggered lv = true → close_reason lv = HARD)))
  ∧ safe (trail_stop lv) = true
  ∧ triggered lv = true
  ∧ close_reason lv = HARD.
Proof.
  cbv zeta. split; [|repeat split; reflexivity].
  exact (reported_stop_is_reached binary64 binary64_order (default_manager ∅) ∅
           (position_of "AAPL" 10 100 91)).
Defined.

(** ** Passes whose read fails *)

Section FailedReads.
Context `{PyFloat}.

Lemma run_passes_app self disk (before after : list (Gateway * bool)) :
  run_passes self disk (before ++ after) =
  r1 ← run_passes self disk before;
  r2 ← run_passes (manager r1) (data_file r1) after;
  Some {| manager := manager r2; data_file := data_file r2;
          log := log r1 ++ log r2 |}.
Proof.
  revert self disk. induction before as [|[client disk_ok] before IH];
    intros self disk; simpl.
  - destruct (run_passes self disk after) as [[m d l]|]; reflexivity.
  - destruct (monitor_and_execute self client disk_ok disk) as [r|]; simpl; [|done].
    rewrite IH.
    destruct (run_passes (manager r) (data_file r) before) as [r1|]; simpl; [|done].
    destruct (run_passes (manager r1) (data_file r1) after) as [r2|]; simpl; [|done].
    by rewrite app_assoc.
Qed.

End FailedReads.

(** X13: a pass whose read of the positions fails changes nothing: a
    sequence of passes leaves the same manager and the same data file, and
    submits the same closing orders, as the sequence without that pass. *)
Theorem failed_read_is_a_no_op :
  ∀ (N : PyFloat) (self : RiskManager) (disk : gmap string RiskRecord)
    (before after : list (Gateway * bool)) (client : Gateway) (disk_ok : bool),
    get_all_positions client = None →
    manager <$> run_passes self disk (before ++ (client, disk_ok) :: after)
    = manager <$> run_passes self disk (before ++ after)
    ∧ data_file <$> run_passes self disk (before ++ (client, disk_ok) :: after)
      = data_file <$> run_passes self disk (before ++ after)
    ∧ close_orders ∘ log <$> run_passes self disk (before ++ (client, disk_ok) :: after)
      = close_orders ∘ log <$> run_passes self disk (before ++ after).
Proof.
  intros N self disk before after client disk_ok Hfail.
  rewrite !run_passes_app.
  destruct (run_passes self disk before) as [r1|]; simpl; [|done].
  unfold monitor_and_execute. rewrite Hfail. simpl.
  destruct (run_passes (manager r1) (data_file r1) after) as [r2|]; simpl; [|done].
  split; [done|]. split; [done|].
  by rewrite !close_orders_app.
Qed.

(** A failed read between the two passes of [rising_then_falling]. *)
Lemma failed_read_is_a_no_op_witness :
  let down := {| get_all_positions := None; get_account := None;
                 submit_order := λ _, true;
                 get_stock_latest_quote := λ _, None;
                 get_stock_latest_trade := λ _, None |} in
  let self := @default_manager Q_float ∅ in
  manager <$> run_passes self ∅ (take 1 rising_then_falling
                                   ++ (down, true) :: drop 1 rising_then_falling)
  = manager <$> run_passes self ∅ (take 1 rising_then_falling ++ drop 1 rising_then_falling)
  ∧ data_file <$> run_passes self ∅ (take 1 rising_then_falling
                                       ++ (down, true) :: drop 1 rising_then_falling)
    = data_file <$> run_passes self ∅ (take 1 rising_then_falling
                                         ++ drop 1 rising_then_falling)
  ∧ close_orders ∘ log <$> run_passes self ∅ (take 1 rising_then_falling
                                                ++ (down, true) :: drop 1 rising_then_falling)
    = close_orders ∘ log <$> run_passes self ∅ (take 1 rising_then_falling
                                                  ++ drop 1 rising_then_falling).
Proof.
  cbv zeta. apply (failed_read_is_a_no_op Q_float). reflexivity.
Defined.

(** ** main.py: what the agents are given *)

Section Align.
Context `{PyFloat}.

(** The entry [align_portfolio] writes for a ticker. *)
Lemma align_fold (live_data : Portfolio) (tickers : list string) (fp : FullPortfolio)
    (ticker : string) :
  let fp' := foldl (align_ticker live_data) fp tickers in
  full_cash fp' = full_cash fp
  ∧ margin_requirement fp' = margin_requirement fp
  ∧ margin_used fp' = margin_used fp
  ∧ full_positions fp' !! ticker =
      (if decide (ticker ∈ tickers)
       then Some {| agent_long := match positions live_data !! ticker with
                                  | Some pos => long pos | None => of_Z 0 end;
                    agent_short := match positions live_data !! ticker with
                                   | Some pos => short pos | None => of_Z 0 end;
                    long_cost_basis := of_Z 0; short_cost_basis := of_Z 0;
                    short_margin_used := of_Z 0 |}
       else full_positions fp !! ticker).
Proof.
  revert fp. induction tickers as [|t ts IH]; intros fp; cbn [foldl].
  - repeat split; try done; case_decide as Hin; try done; by apply elem_of_nil in Hin.
  - destruct (IH (align_ticker live_data fp t)) as (Hc & Hr & Hu & Hp).
    assert (full_cash (align_ticker live_data fp t) = full_cash fp
            ∧ margin_requirement (align_ticker live_data fp t) = margin_requirement fp
            ∧ margin_used (align_ticker live_data fp t) = margin_used fp) as (Hc1 & Hr1 & Hu1).
    { unfold align_ticker. by destruct (positions live_data !! t). }
    split; [by rewrite Hc|]. split; [by rewrite Hr|]. split; [by rewrite Hu|].
    rewrite Hp. destruct (decide (ticker ∈ ts)) as [Hin|Hout].
    + by rewrite decide_True by (by right).
    + destruct (decide (t = ticker)) as [->|Hne].
      * rewrite decide_True by (by left). unfold align_ticker.
        destruct (positions live_data !! ticker); simpl; by rewrite lookup_insert_eq.
      * rewrite decide_False by (intros [?|?]%elem_of_cons; by subst).
        unfold align_ticker.
        destruct (positions live_data !! t); simpl; by rewrite lookup_insert_ne.
Qed.

(** The loop leaves [realized_gains] as the comprehension of line 55 made
    it: it assigns only what is already there. *)
Lemma align_fold_gains (live_data : Portfolio) (tickers : list string) (fp : FullPortfolio)
    (ticker : string) :
  (∀ t, t ∈ tickers →
     realized_gains fp !! t = Some {| gain_long := of_Z 0; gain_short := of_Z 0 |}) →
  realized_gains (foldl (align_ticker live_data) fp tickers) !! ticker
  = realized_gains fp !! ticker.
Proof.
  revert fp. induction tickers as [|t ts IH]; intros fp Hzero; cbn [foldl]; [done|].
  assert (∀ k, realized_gains (align_ticker live_data fp t) !! k
               = realized_gains fp !! k) as Hstep.
  { intros k. unfold align_ticker. destruct (positions live_data !! t); simpl; [done|].
    destruct (decide (t = k)) as [<-|Hne].
    - rewrite lookup_insert_eq. symmetry. apply Hzero. by left.
    - by rewrite lookup_insert_ne. }
  rewrite IH.
  - apply Hstep.
  - intros t' Ht'. rewrite Hstep. apply Hzero. by right.
Qed.

(** The comprehension of line 55. *)
Lemma gains_comprehension (tickers : list string) (m : gmap string RealizedGain)
    (ticker : string) :
  foldl (λ m t, <[t := {| gain_long := of_Z 0; gain_short := of_Z 0 |}]> m) m tickers
  !! ticker
  = if decide (ticker ∈ tickers)
    then Some {| gain_long := of_Z 0; gain_short := of_Z 0 |}
    else m !! ticker.
Proof.
  revert m. induction tickers as [|t ts IH]; intros m; cbn [foldl].
  - case_decide as Hin; [by apply elem_of_nil in Hin|done].
  - rewrite IH. destruct (decide (ticker ∈ ts)) as [Hin|Hout].
    + by rewrite decide_True by (by right).
    + destruct (decide (t = ticker)) as [->|Hne].
      * rewrite decide_True by (by left). by rewrite lookup_insert_eq.
      * rewrite decide_False by (intros [?|?]%elem_of_cons; by subst).
        by rewrite lookup_insert_ne.
Qed.

End Align.

(** X14: [align_portfolio] gives the agents the live cash and one entry for
    each requested ticker and for no other: the live long and short
    quantities when the ticker is held, zeros when it is not, cost bases and
    margin always 0, and realized gains of 0 for the same tickers.  A live
    position in a ticker that is not requested is left out. *)
Theorem align_portfolio_covers_the_tickers :
  ∀ (N : PyFloat) (live_data : Portfolio) (tickers : list string) (margin : num)
    (ticker : string),
    let fp := align_portfolio live_data tickers margin in
    full_cash fp = cash live_data
    ∧ margin_requirement fp = margin
    ∧ margin_used fp = of_Z 0
    ∧ full_positions fp !! ticker =
        (if decide (ticker ∈ tickers)
         then Some {| agent_long := match positions live_data !! ticker with
                                    | Some pos => long pos | None => of_Z 0 end;
                      agent_short := match positions live_data !! ticker with
                                     | Some pos => short pos | None => of_Z 0 end;
                      long_cost_basis := of_Z 0; short_cost_basis := of_Z 0;
                      short_margin_used := of_Z 0 |}
         else None)
    ∧ realized_gains fp !! ticker =
        (if decide (ticker ∈ tickers)
         then Some {| gain_long := of_Z 0; gain_short := of_Z 0 |}
         else None).
Proof.
  intros N live_data tickers margin ticker fp. subst fp. unfold align_portfolio.
  match goal with |- context [foldl (align_ticker live_data) ?fp0 tickers] =>
    destruct (align_fold live_data tickers fp0 ticker) as (Hc & Hr & Hu & Hp);
    pose proof (align_fold_gains live_data tickers fp0 ticker) as Hg end.
  split; [by rewrite Hc|]. split; [by rewrite Hr|]. split; [by rewrite Hu|].
  rewrite Hp. split.
  - simpl. case_decide; [done|apply lookup_empty].
  - rewrite Hg.
    + simpl. rewrite gains_comprehension. case_decide; [done|apply lookup_empty].
    + intros t Ht. simpl. rewrite gains_comprehension. by rewrite decide_True.
Qed.

(** ** data/cache.py *)

Section CacheFacts.
Context {Data : Type}.

(** No two of the five categories share a timestamp key. *)
Lemma stamp_key_inj (c c' : Category) (ticker ticker' : string) :
  stamp_key (category_name c) ticker = stamp_key (category_name c') ticker' →
  c = c' ∧ ticker = ticker'.
Proof.
  unfold stamp_key.
  destruct c, c'; simpl; intros E; try discriminate E;
    (split; [reflexivity|]); by injection E.
Qed.

Lemma category_data_put_same (c : Category) (d : CacheData Data) now ticker data :
  category_data Data c (cache_put Data c d now ticker data)
  = <[ticker := data]> (category_data Data c d).
Proof. by destruct c. Qed.

Lemma category_data_put_other (c c' : Category) (d : CacheData Data) now ticker data :
  c ≠ c' →
  category_data Data c' (cache_put Data c d now ticker data) = category_data Data c' d.
Proof. by destruct c, c'. Qed.

Lemma timestamps_put (c : Category) (d : CacheData Data) now ticker data :
  timestamps Data (cache_put Data c d now ticker data)
  = <[stamp_key (category_name c) ticker := Iso now]> (timestamps Data d).
Proof. by destruct c. Qed.

End CacheFacts.

(** X15: what a setter stores at time [now0] the getter of the same
    category serves for the same ticker up to and including the end of the
    category's validity (5 minutes for prices, 12 hours for financial
    metrics and line items, 24 hours for insider trades and news), also to
    a new process that loads the file it wrote; from the first microsecond
    after, the getter answers [None] although the data is still stored. *)
Theorem cache_serves_until_expiry :
  ∀ (Data : Type) (c : Category) (d : CacheData Data) (now0 now1 : Z)
    (ticker : string) (data : Data) (w : WriteOutcome) (file : CacheFile Data),
    let after := cache_set Data c d now0 ticker data w file in
    let limit := now0 + timedelta (validity c).1 (validity c).2 in
    (now1 <= limit → cache_get Data c after.1 now1 ticker = ok (Some data))
    ∧ (limit < now1 →
       cache_get Data c after.1 now1 ticker = ok None
       ∧ category_data Data c after.1 !! ticker = Some data)
    ∧ (w = Written → new_cache Data after.2 = after.1).
Proof.
  intros Data c d now0 now1 ticker data w file after limit.
  subst after limit. unfold cache_set, cache_get, _is_expired. simpl fst. simpl snd.
  rewrite timestamps_put, lookup_insert_eq, category_data_put_same, lookup_insert_eq.
  split; [|split].
  - intros Hle. simpl. replace (_ <? now1) with false; [done|].
    symmetry. apply Z.ltb_ge. lia.
  - intros Hlt. simpl. replace (_ <? now1) with true; [done|].
    symmetry. apply Z.ltb_lt. lia.
  - by intros ->.
Qed.

(** Prices stored at noon and read five minutes later. *)
Lemma cache_serves_until_expiry_witness :
  let after := cache_set (list Z) Prices (empty_cache (list Z)) 43200000000
                 "AAPL" [104; 105] Written (NoFile (list Z)) in
  let limit := 43200000000 + timedelta (validity Prices).1 (validity Prices).2 in
  (43500000000 <= limit →
   cache_get (list Z) Prices after.1 43500000000 "AAPL" = ok (Some [104; 105]))
  ∧ (limit < 43500000000 →
     cache_get (list Z) Prices after.1 43500000000 "AAPL" = ok None
     ∧ category_data (list Z) Prices after.1 !! "AAPL"%string = Some [104; 105])
  ∧ (Written = Written → new_cache (list Z) after.2 = after.1).
Proof.
  cbv zeta.
  apply (cache_serves_until_expiry (list Z) Prices (empty_cache (list Z))
           43200000000 43500000000 "AAPL" [104; 105] Written (NoFile (list Z))).
Defined.

(** X16: a setter touches one category and one ticker: the answer of every
    getter for another category, or for another ticker of the same
    category, is what it was before, at any time. *)
Theorem cache_set_leaves_the_rest :
  ∀ (Data : Type) (c c' : Category) (d : CacheData Data) (now0 now1 : Z)
    (ticker ticker' : string) (data : Data) (w : WriteOutcome) (file : CacheFile Data),
    (c, ticker) ≠ (c', ticker') →
    cache_get Data c' (cache_set Data c d now0 ticker data w file).1 now1 ticker'
    = cache_get Data c' d now1 ticker'.
Proof.
  intros Data c c' d now0 now1 ticker ticker' data w file Hne.
  unfold cache_set, cache_get, _is_expired. simpl fst.
  rewrite timestamps_put, lookup_insert_ne.
  2:{ intros E. apply stamp_key_inj in E as [-> ->]. by apply Hne. }
  assert (c = c' ∨ c ≠ c') as [<-|Hc] by (destruct c, c'; (by left) || (by right)).
  - rewrite category_data_put_same, lookup_insert_ne; [done|].
    intros ->. by apply Hne.
  - by rewrite category_data_put_other.
Qed.

(** News stored for AAPL, prices read for AAPL. *)
Lemma cache_set_leaves_the_rest_witness :
  cache_get (list Z) Prices
    (cache_set (list Z) CompanyNews (empty_cache (list Z)) 100 "AAPL" [1] Written
       (NoFile (list Z))).1 200 "AAPL"
  = cache_get (list Z) Prices (empty_cache (list Z)) 200 "AAPL".
Proof.
  apply (cache_set_leaves_the_rest (list Z) CompanyNews Prices). discriminate.
Defined.

(** ** utils/llm.py *)

Section CallLlmFacts.
Context {Raw Parsed Response : Type}.
Variable invoke : nat → Invocation Raw.
Variable non_json : bool.
Variable structured : Raw → Response.
Variable extract : Raw → option Parsed.
Variable build : Parsed → option Response.
Variable default_factory : option Response.
Variable fallback : Response.

Local Abbreviation outcome :=
  (attempt_outcome Raw Parsed Response invoke non_json structured extract build).
Local Abbreviation run_from :=
  (call_llm_from Raw Parsed Response invoke non_json structured extract build
     default_factory fallback).

Lemma call_llm_from_S (attempt remaining' : nat) :
  run_from attempt (S remaining') =
  match outcome attempt with
  | Returned _ r => (r, 1%nat)
  | Excepted _ =>
      if (remaining' =? 0)%nat then (default fallback default_factory, 1%nat)
      else let '(r, n) := run_from (S attempt) remaining' in (r, S n)
  | FellThrough _ =>
      let '(r, n) := run_from (S attempt) remaining' in (r, S n)
  end.
Proof. reflexivity. Qed.

Lemma call_llm_from_first_return (k : nat) :
  ∀ (attempt remaining : nat) (r : Response),
    (k < remaining)%nat →
    outcome (attempt + k)%nat = Returned Response r →
    (∀ j r', (j < k)%nat → outcome (attempt + j)%nat ≠ Returned Response r') →
    run_from attempt remaining = (r, S k).
Proof.
  induction k as [|k IH]; intros attempt remaining r Hlt Hk Hbefore.
  - destruct remaining as [|remaining']; [lia|]. rewrite call_llm_from_S.
    rewrite Nat.add_0_r in Hk. by rewrite Hk.
  - destruct remaining as [|remaining']; [lia|]. rewrite call_llm_from_S.
    assert (run_from (S attempt) remaining' = (r, S k)) as Hrec.
    { apply IH; [lia| |].
      - by replace (S attempt + k)%nat with (attempt + S k)%nat by lia.
      - intros j r' Hj. replace (S attempt + j)%nat with (attempt + S j)%nat by lia.
        apply Hbefore. lia. }
    pose proof (Hbefore 0%nat) as H0. rewrite Nat.add_0_r in H0.
    destruct (outcome attempt) as [r'| |] eqn:Ho.
    + exfalso. apply (H0 r'); [lia|done].
    + replace (remaining' =? 0)%nat with false by (symmetry; apply Nat.eqb_neq; lia).
      by rewrite Hrec.
    + by rewrite Hrec.
Qed.

Lemma call_llm_from_exhausted (remaining : nat) :
  ∀ (attempt : nat),
    (∀ j r', (j < S remaining)%nat → outcome (attempt + j)%nat ≠ Returned Response r') →
    run_from attempt (S remaining)
    = (match outcome (attempt + remaining)%nat with
       | Excepted _ => default fallback default_factory
       | _ => fallback
       end, S remaining).
Proof.
  induction remaining as [|remaining IH]; intros attempt Hnone.
  - rewrite call_llm_from_S. rewrite Nat.add_0_r.
    pose proof (Hnone 0%nat) as H0. rewrite Nat.add_0_r in H0.
    destruct (outcome attempt) as [r'| |] eqn:Ho; [|done|done].
    exfalso. apply (H0 r'); [lia|done].
  - rewrite call_llm_from_S.
    assert (run_from (S attempt) (S remaining)
            = (match outcome (attempt + S remaining)%nat with
               | Excepted _ => default fallback default_factory
               | _ => fallback
               end, S remaining)) as Hrec.
    { replace (attempt + S remaining)%nat with (S attempt + remaining)%nat by lia.
      apply IH. intros j r' Hj.
      replace (S attempt + j)%nat with (attempt + S j)%nat by lia. apply Hnone. lia. }
    pose proof (Hnone 0%nat) as H0. rewrite Nat.add_0_r in H0.
    destruct (outcome attempt) as [r'| |] eqn:Ho.
    + exfalso. apply (H0 r'); [lia|done].
    + simpl Nat.eqb. by rewrite Hrec.
    + by rewrite Hrec.
Qed.

End CallLlmFacts.

(** X17: [call_llm] returns what the first attempt that returns gives, and
    has then called [llm.invoke] once per attempt so far: the attempts
    before it, whether they raised or found no JSON, are retried without
    any other effect on the result. *)
Theorem call_llm_returns_first_success :
  ∀ (Raw Parsed Response : Type) (invoke : nat → Invocation Raw) (non_json : bool)
    (structured : Raw → Response) (extract : Raw → option Parsed)
    (build : Parsed → option Response) (default_factory : option Response)
    (fallback : Response) (max_retries k : nat) (r : Response),
    (k < max_retries)%nat →
    attempt_outcome Raw Parsed Response invoke non_json structured extract build k
    = Returned Response r →
    (∀ j r', (j < k)%nat →
       attempt_outcome Raw Parsed Response invoke non_json structured extract build j
       ≠ Returned Response r') →
    call_llm Raw Parsed Response invoke non_json structured extract build
      default_factory fallback max_retries
    = (r, S k).
Proof.
  intros Raw Parsed Response invoke non_json structured extract build default_factory
    fallback max_retries k r Hlt Hk Hbefore.
  unfold call_llm.
  apply (call_llm_from_first_return invoke non_json structured extract build
           default_factory fallback k 0 max_retries r Hlt Hk Hbefore).
Qed.

(** A model with JSON mode whose first call raises and whose second
    returns 7. *)
Lemma call_llm_returns_first_success_witness :
  call_llm nat nat nat
    (λ k, match k with O => InvokeRaises nat | _ => InvokeReturns nat 7%nat end)
    false (λ x, x) (λ _, None) (λ _, None) None 0%nat 3
  = (7%nat, 2%nat).
Proof.
  apply (call_llm_returns_first_success nat nat nat
           (λ k, match k with O => InvokeRaises nat | _ => InvokeReturns nat 7%nat end)
           false (λ x, x) (λ _, None) (λ _, None) None 0%nat 3 1 7%nat).
  - lia.
  - reflexivity.
  - intros j r' Hj. assert (j = 0%nat) as -> by lia. discriminate.
Defined.

(** X18: when no attempt returns, [call_llm] has called [llm.invoke]
    [max_retries] times and falls back: to [default_factory()] (or to
    [create_default_response] when none is given) if the last attempt ended
    in the [except] branch, but always to [create_default_response], even
    when a [default_factory] is given, if the last attempt only found no
    JSON or if [max_retries] is 0. *)
Theorem call_llm_fallback :
  ∀ (Raw Parsed Response : Type) (invoke : nat → Invocation Raw) (non_json : bool)
    (structured : Raw → Response) (extract : Raw → option Parsed)
    (build : Parsed → option Response) (default_factory : option Response)
    (fallback : Response) (max_retries : nat),
    (∀ j r', (j < max_retries)%nat →
       attempt_outcome Raw Parsed Response invoke non_json structured extract build j
       ≠ Returned Response r') →
    call_llm Raw Parsed Response invoke non_json structured extract build
      default_factory fallback max_retries
    = (match max_retries with
       | O => fallback
       | S last =>
           match attempt_outcome Raw Parsed Response invoke non_json structured
                   extract build last with
           | Excepted _ => default fallback default_factory
           | _ => fallback
           end
       end, max_retries).
Proof.
  intros Raw Parsed Response invoke non_json structured extract build default_factory
    fallback max_retries Hnone.
  unfold call_llm. destruct max_retries as [|last]; [reflexivity|].
  apply (call_llm_from_exhausted invoke non_json structured extract build
           default_factory fallback last 0 Hnone).
Qed.

(** A model without JSON mode that never answers with JSON, called with a
    default factory: the factory is not used. *)
Lemma call_llm_fallback_witness :
  call_llm nat nat nat (λ _, InvokeReturns nat 5%nat) true (λ x, x) (λ _, None)
    (λ _, None) (Some 1%nat) 0%nat 3
  = (match 3%nat with
     | O => 0%nat
     | S last =>
         match attempt_outcome nat nat nat (λ _, InvokeReturns nat 5%nat) true (λ x, x)
                 (λ _, None) (λ _, None) last with
         | Excepted _ => default 0%nat (Some 1%nat)
         | _ => 0%nat
         end
     end, 3%nat)
  ∧ call_llm nat nat nat (λ _, InvokeReturns nat 5%nat) true (λ x, x) (λ _, None)
      (λ _, None) (Some 1%nat) 0%nat 3 = (0%nat, 3%nat).
Proof.
  split; [|reflexivity].
  apply (call_llm_fallback nat nat nat (λ _, InvokeReturns nat 5%nat) true (λ x, x)
           (λ _, None) (λ _, None) (Some 1%nat) 0%nat 3).
  intros j r' Hj. discriminate.
Defined.
